(** * PowerBoot: rendering Ember applications in a headless browser page

    A shallow embedding of the render-instance protocol of
    [src/index.js] (the coordinator, [PowerBoot], and [FastBootInfo]),
    [src/ember-app.js] (the render instance, [EmberApp]),
    [src/result.js] (the render result, [Result]) and
    [src/fastboot-request.js] (request and response envelopes), together
    with the properties of the specification that concern them.

    JavaScript strings are sequences of UTF-16 code units, objects used as
    dictionaries are finite maps or, where iteration order matters,
    association lists, and asynchronous methods are computations in a state
    and exception monad over the objects they share. *)

From Stdlib Require Import ZArith NArith String Ascii DecimalString Lia List Bool.
From stdpp Require Import gmap list.
Import ListNotations.

Set Warnings "-register-all".

(* ================================================================== *)
(** * Strings *)
(* ================================================================== *)

(** A JavaScript string is a sequence of 16-bit code units. *)
Abbreviation jsstring := (list N).

(** The code units of an ASCII literal. *)
Definition lit (s : string) : jsstring :=
  map N_of_ascii (list_ascii_of_string s).
Arguments lit : simpl never.

(** The double quote, for the markup that carries one. *)
Definition dq : jsstring := [34%N].

(** [Boolean(s)]: the empty string is the only falsy string. *)
Definition truthy (s : jsstring) : bool :=
  match s with [] => false | _ :: _ => true end.

(** [s.startsWith(p)]. *)
Fixpoint starts_with (p s : jsstring) : bool :=
  match p, s with
  | [], _ => true
  | _ :: _, [] => false
  | a :: p', b :: s' => N.eqb a b && starts_with p' s'
  end.

(** [s.includes(p)]: [p] occurs somewhere in [s]. This is also what
    [s.match(/p/)] and [/p/.test(s)] decide for a pattern [p] made of
    literal characters only. *)
Fixpoint includes (p s : jsstring) : bool :=
  starts_with p s ||
  match s with
  | [] => false
  | _ :: s' => includes p s'
  end.

(** [s.split(sep)] for a string separator, after the scan of
    ECMAScript's [String.prototype.split]: position [q] runs over the
    string from left to right; where the separator occurs at [q] the piece
    collected so far is closed and the scan resumes behind the occurrence.
    [skip] counts the code units of an occurrence still to be passed over.
    The result is the first piece and the list of the pieces after it. *)
Fixpoint split_scan (sep : jsstring) (skip : nat) (s : jsstring)
  : jsstring * list jsstring :=
  match s with
  | [] => ([], [])
  | c :: s' =>
      match skip with
      | S k => split_scan sep k s'
      | O =>
          if starts_with sep s
          then ([], let '(p, ps) := split_scan sep (length sep - 1) s' in p :: ps)
          else let '(p, ps) := split_scan sep 0 s' in (c :: p, ps)
      end
  end.

Definition split (sep s : jsstring) : list jsstring :=
  match sep with
  | [] => map (fun c => [c]) s
  | _ :: _ => let '(p, ps) := split_scan sep 0 s in p :: ps
  end.

(** JavaScript's [toLowerCase] on the ASCII letters. *)
Definition lower_unit (c : N) : N :=
  if (65 <=? c)%N && (c <=? 90)%N then (c + 32)%N else c.

Definition toLowerCase (s : jsstring) : jsstring := map lower_unit s.

(* ================================================================== *)
(** * Values, errors and asynchronous methods *)
(* ================================================================== *)

(** Data the code passes along without looking inside: request metadata,
    query and body, sandbox globals, shoebox values, the application
    configuration. Numbers are integers here. *)
Inductive Value :=
| VUndefined
| VNull
| VBool (b : bool)
| VNumber (n : Z)
| VString (s : jsstring)
| VArray (l : list Value)
| VObject (l : list (jsstring * Value)).

(** A thrown error, by its [message] property; [None] is an error object
    without one. *)
Record JSError := mkError { message : option jsstring }.

Definition Error (msg : jsstring) : JSError := mkError (Some msg).
Definition TypeError (msg : jsstring) : JSError := mkError (Some msg).
Definition SyntaxError (msg : jsstring) : JSError := mkError (Some msg).

(** An asynchronous method over the objects it reads and writes: from
    the state before the call to the settled promise (rejected with an
    error or fulfilled with a value) and the state after it. *)
Definition M (S A : Type) : Type := S -> (JSError + A) * S.

Definition ret {S A} (a : A) : M S A := fun s => (inr a, s).
Definition throw {S A} (e : JSError) : M S A := fun s => (inl e, s).
Definition bind {S A B} (c : M S A) (k : A -> M S B) : M S B :=
  fun s => match c s with
           | (inr a, s') => k a s'
           | (inl e, s') => (inl e, s')
           end.
(** [try { c } catch (e) { h e }]. *)
Definition catch {S A} (c : M S A) (h : JSError -> M S A) : M S A :=
  fun s => match c s with
           | (inl e, s') => h e s'
           | (inr a, s') => (inr a, s')
           end.
Definition gets {S A} (f : S -> A) : M S A := fun s => (inr (f s), s).
Definition modify {S} (f : S -> S) : M S unit := fun s => (inr tt, f s).
(** A method of a component of the state. *)
Definition zoom {S T A} (get : S -> T) (set : T -> S -> S) (c : M T A) : M S A :=
  fun s => let '(r, t') := c (get s) in (r, set t' s).
(** [for (const x of l) { await f x }]. *)
Fixpoint for_each {S A} (f : A -> M S unit) (l : list A) : M S unit :=
  match l with
  | [] => ret tt
  | x :: l' => bind (f x) (fun _ => for_each f l')
  end.

Declare Scope js_scope.
Delimit Scope js_scope with js.
Notation "x <- c ;; k" := (bind c (fun x => k))
  (at level 100, c at next level, k at level 200, right associativity) : js_scope.
Notation "c ;; k" := (bind c (fun _ => k))
  (at level 100, k at level 200, right associativity) : js_scope.
Open Scope js_scope.

(** What the code takes from the JavaScript engine, Node and its
    packages. *)
Class Runtime := {
  (** [JSON.stringify(value)] *)
  JSON_stringify : Value -> jsstring;
  (** [new RegExp(source)]: the [test] method of the expression, or the
      SyntaxError of a source that is no regular expression *)
  RegExp_new : jsstring -> JSError + (jsstring -> bool);
  (** [cookie.parse(header)] *)
  cookie_parse : jsstring -> list (jsstring * jsstring);
  (** [fs.readFileSync(path, 'utf8')] *)
  readFileSync : jsstring -> JSError + jsstring;
  (** [await bundle()], the compiled in-browser request-info script *)
  bundle : JSError + jsstring;
  (** whether [process.env.EXPERIMENTAL_RENDER_MODE_SERIALIZE] is set *)
  EXPERIMENTAL_RENDER_MODE_SERIALIZE : bool
}.

(** The decimal digits of a number in a template literal. *)
Definition decimal (n : Z) : jsstring :=
  lit (NilZero.string_of_int (Z.to_int n)).

(* ================================================================== *)
(** * Request, response and render info *)
(* ================================================================== *)

(** Modelled from the spec: [FastBootHeaders] ([src/fastboot-headers.js]
    is not among the sources), "headers (mapping, case-insensitive keys,
    lookup ...)": a finite map from lower-cased names to values, built
    from the entries of a plain object; [get] yields [null] ([None]) for
    a name without entry. *)
Module FastBootHeaders.
Definition t := gmap jsstring jsstring.

Definition new (headers : option (gmap jsstring jsstring)) : t :=
  list_to_map (map (fun '(k, v) => (toLowerCase k, v))
                   (map_to_list (default ∅ headers))).

Definition get (name : jsstring) (h : t) : option jsstring :=
  (h : gmap jsstring jsstring) !! toLowerCase name.

Definition set (name value : jsstring) (h : t) : t :=
  <[toLowerCase name := value]> (h : gmap jsstring jsstring).

Definition serialize (h : t) : gmap jsstring jsstring := h.
End FastBootHeaders.

(** The object handed to [new FastBootRequest]: the transport's request,
    or the data a [FastBootRequest] serializes to. [None] is a property
    the object does not have. *)
Record RequestData := {
  rq_hostWhitelist : option (list jsstring);
  rq_protocol : option jsstring;
  rq_headers : option (gmap jsstring jsstring);
  rq_query : Value;
  rq_url : Value;
  rq_method : Value;
  rq_body : Value;
  rq_cookies : option (list (jsstring * jsstring))
}.

(** The object handed to [new FastbootResponse]: the transport's
    response (with [_headers] and [statusCode]), or the data a
    [FastbootResponse] serializes to (with [headers] and [statusCode]). *)
Record ResponseData := {
  rs__headers : option (gmap jsstring jsstring);
  rs_headers : option FastBootHeaders.t;
  rs_statusCode : option Z
}.

Module FastBootRequest.
Record t := {
  _request : RequestData;
  hostWhitelist : option (list jsstring);
  protocol : jsstring;
  headers : FastBootHeaders.t;
  queryParams : Value;
  path : Value;
  method : Value;
  body : Value;
  cookies : list (jsstring * jsstring)
}.

Definition extractCookies `{Runtime} (request : RequestData)
  : JSError + list (jsstring * jsstring) :=
  match rq_cookies request with
  | Some parsed => inr parsed
  | None =>
      match rq_headers request with
      | None => inl (TypeError (lit "Cannot read property 'cookie' of undefined"))
      | Some hs =>
          match hs !! lit "cookie" with
          | Some cookies =>
              if truthy cookies then inr (cookie_parse cookies) else inr []
          | None => inr []
          end
      end
  end.

Definition new `{Runtime} (request : RequestData)
    (hostWhitelist : option (list jsstring)) : JSError + t :=
  match extractCookies request with
  | inl e => inl e
  | inr cookies =>
      inr {| _request := request;
             hostWhitelist := hostWhitelist;
             protocol := default (lit "undefined") (rq_protocol request) ++ lit ":";
             headers := FastBootHeaders.new (rq_headers request);
             queryParams := rq_query request;
             path := rq_url request;
             method := rq_method request;
             body := rq_body request;
             cookies := cookies |}
  end.

(** An entry delimited by slashes is a regular expression. *)
Definition slash_delimited (entry : jsstring) : bool :=
  match entry with
  | c :: _ => N.eqb c 47 && match last entry with Some d => N.eqb d 47 | None => false end
  | [] => false
  end.

(** [entry.slice(1, -1)]. *)
Definition slice_1_m1 (entry : jsstring) : jsstring :=
  take (length entry - 2) (drop 1 entry).

(** The callback of [hostWhitelist.some]; [host] is the value of the
    header lookup, [null] when there is no such header, which a regular
    expression tests as the string ["null"] and no entry is equal to.
    The constructor of the regular expression throws for a source that
    is none. *)
Definition entry_matches `{Runtime} (host : option jsstring) (entry : jsstring)
  : JSError + bool :=
  if slash_delimited entry
  then match RegExp_new (slice_1_m1 entry) with
       | inl e => inl e
       | inr regexp => inr (regexp (default (lit "null") host))
       end
  else inr match host with
           | Some h => bool_decide (entry = h)
           | None => false
           end.

(** [array.some(callback)]: the callback is called on the elements in
    order, up to the first one it holds of; what it throws ends the
    call. *)
Fixpoint some {A} (callback : A -> JSError + bool) (array : list A) : JSError + bool :=
  match array with
  | [] => inr false
  | x :: rest =>
      match callback x with
      | inl e => inl e
      | inr true => inr true
      | inr false => some callback rest
      end
  end.

Definition host `{Runtime} (this : t) : JSError + option jsstring :=
  match hostWhitelist this with
  | None => inl (Error (lit "You must provide a hostWhitelist to retrieve the host"))
  | Some whitelist =>
      let host := FastBootHeaders.get (lit "host") (headers this) in
      match some (entry_matches host) whitelist with
      | inl e => inl e
      | inr matchFound =>
          if negb matchFound
          then inl (Error (lit "The host header did not match a hostWhitelist entry. Host header: "
                             ++ default (lit "null") host))
          else inr host
      end
  end.

Definition serialize (this : t) : RequestData :=
  {| rq_hostWhitelist := hostWhitelist this;
     rq_protocol := Some (protocol this);
     rq_headers := Some (FastBootHeaders.serialize (headers this));
     rq_query := queryParams this;
     rq_url := path this;
     rq_method := method this;
     rq_body := body this;
     rq_cookies := Some (cookies this) |}.
End FastBootRequest.

Module FastBootResponse.
Record t := {
  _response : ResponseData;
  headers : FastBootHeaders.t
}.

Definition new (response : ResponseData) : t :=
  {| _response := response;
     headers := FastBootHeaders.new (rs__headers response) |}.

(** [get statusCode]: [this._response.statusCode || 200]. *)
Definition statusCode (this : t) : Z :=
  match rs_statusCode (_response this) with
  | Some code => if (code =? 0)%Z then 200%Z else code
  | None => 200%Z
  end.

(** [set statusCode]. *)
Definition set_statusCode (code : Z) (this : t) : t :=
  {| _response := {| rs__headers := rs__headers (_response this);
                     rs_headers := rs_headers (_response this);
                     rs_statusCode := Some code |};
     headers := headers this |}.

Definition serialize (this : t) : ResponseData :=
  {| rs__headers := None;
     rs_headers := Some (headers this);
     rs_statusCode := Some (statusCode this) |}.
End FastBootResponse.

(** The options of a [FastBootInfo]. *)
Record InfoOptions := {
  opt_hostWhitelist : option (list jsstring);
  opt_metadata : Value
}.

(** The shoebox: the own enumerable properties of an object, in
    iteration order. *)
Abbreviation Shoebox := (list (jsstring * Value)).

(** An element of the array a [FastBootInfo] serializes to. *)
Inductive Slot :=
| SlotUndefined
| SlotRequest (d : RequestData)
| SlotResponse (d : ResponseData)
| SlotOptions (o : InfoOptions)
| SlotShoebox (s : Shoebox).

Definition empty_request : RequestData :=
  {| rq_hostWhitelist := None; rq_protocol := None; rq_headers := None;
     rq_query := VUndefined; rq_url := VUndefined; rq_method := VUndefined;
     rq_body := VUndefined; rq_cookies := None |}.

Definition empty_response : ResponseData :=
  {| rs__headers := None; rs_headers := None; rs_statusCode := None |}.

Definition empty_options : InfoOptions :=
  {| opt_hostWhitelist := None; opt_metadata := VUndefined |}.

Module FastBootInfo.
Record t := {
  _options : InfoOptions;
  request : option FastBootRequest.t;
  response : option FastBootResponse.t;
  metadata : Value;
  shoebox : option Shoebox
}.

(** [new FastBootInfo(request, response, options, shoebox)]; [None] is
    an argument that is [undefined]. *)
Definition new `{Runtime} (request : option RequestData)
    (response : option ResponseData) (options : option InfoOptions)
    (shoebox : option Shoebox) : JSError + t :=
  match options with
  | None => inl (TypeError (lit "Cannot read property 'hostWhitelist' of undefined"))
  | Some options =>
      let hostWhitelist := opt_hostWhitelist options in
      let metadata := opt_metadata options in
      match request with
      | Some request =>
          match FastBootRequest.new request hostWhitelist with
          | inl e => inl e
          | inr req =>
              inr {| _options := options;
                     request := Some req;
                     response := Some (FastBootResponse.new (default empty_response response));
                     metadata := metadata;
                     shoebox := shoebox |}
          end
      | None =>
          inr {| _options := options;
                 request := None;
                 response := Some (FastBootResponse.new (default empty_response response));
                 metadata := metadata;
                 shoebox := shoebox |}
      end
  end.

Definition serialize (this : t) : list Slot :=
  [ match request this with
    | Some req => SlotRequest (FastBootRequest.serialize req)
    | None => SlotUndefined
    end;
    match response this with
    | Some res => SlotResponse (FastBootResponse.serialize res)
    | None => SlotUndefined
    end;
    SlotOptions
      {| opt_hostWhitelist :=
           match request this with
           | Some req => FastBootRequest.hostWhitelist req
           | None => None
           end;
         opt_metadata := metadata this |};
    match shoebox this with
    | Some s => SlotShoebox s
    | None => SlotUndefined
    end ].

(** The arguments of [new FastBootInfo(...tuple)]: an element that is
    [undefined] or beyond the end of the array is an absent argument;
    an object of another kind is an object without the properties the
    constructor looks up. *)
Definition request_arg (s : Slot) : option RequestData :=
  match s with
  | SlotUndefined => None
  | SlotRequest d => Some d
  | _ => Some empty_request
  end.

Definition response_arg (s : Slot) : option ResponseData :=
  match s with
  | SlotUndefined => None
  | SlotResponse d => Some d
  | _ => Some empty_response
  end.

Definition options_arg (s : Slot) : option InfoOptions :=
  match s with
  | SlotUndefined => None
  | SlotOptions o => Some o
  | _ => Some empty_options
  end.

Definition shoebox_arg (s : Slot) : option Shoebox :=
  match s with
  | SlotUndefined => None
  | SlotShoebox b => Some b
  | _ => Some []
  end.

Definition from_tuple `{Runtime} (tuple : list Slot) : JSError + t :=
  new (request_arg (nth 0 tuple SlotUndefined))
      (response_arg (nth 1 tuple SlotUndefined))
      (options_arg (nth 2 tuple SlotUndefined))
      (shoebox_arg (nth 3 tuple SlotUndefined)).
End FastBootInfo.

(* ================================================================== *)
(** * The execution context *)
(* ================================================================== *)

(** The options an application instance is booted with. *)
Record BootOptions := {
  location : jsstring;
  isBrowser : bool;
  shouldRender : bool;
  _renderMode : option jsstring
}.

(** The functions and sources the code evaluates in the page, with their
    arguments. *)
Inductive Script :=
| (** [Object.assign(window, sandboxGlobals)] *)
  AssignGlobals (sandboxGlobals : gmap jsstring Value)
| (** the environment meta tag and the [window.FastBoot] shim *)
  InitializeAppEnvironment (appName : jsstring) (config : Value)
| (** the text of a vendor file, an app file or the bundle *)
  Source (text : jsstring)
| (** build, boot and visit an application instance; yields the
      serialized info *)
  RunAppInstance (path : jsstring) (bootOptions : BootOptions) (info : list Slot)
| (** [document.body.insertAdjacentHTML('beforeend', markup)] *)
  InsertBodyBeforeEnd (markup : jsstring)
| (** remove the class [ember-application] from the elements having it *)
  RemoveEmberApplicationClass
| (** clear local and session storage, cookies and indexed databases *)
  ClearPageStorage.

(** What the code asks of a browser page. [page_evaluate] yields the
    serialized info a script returns, if it returns one; [page_harvest]
    is the evaluation of the function of [_reflectContents], which renews
    the boundary markers, moves the scripts with a source to the end of
    the body and returns the markup of the document, of its head and of
    its body. *)
Class Page (P : Type) := {
  page_setContent : jsstring -> M P unit;
  page_evaluate : Script -> M P (option (list Slot));
  page_harvest : M P (jsstring * jsstring * jsstring);
  page_reload : M P unit;
  page_close : P -> P
}.

(** [/(Target|Session) closed\./] matches the message. *)
Definition page_closed_message (msg : jsstring) : bool :=
  includes (lit "Target closed.") msg || includes (lit "Session closed.") msg.

(** Treats a terminated page as something to be expected. The result is
    [None] where the function returns nothing. *)
Definition tryWithPageAwareness {S A} (callback : M S A) : M S (option A) :=
  catch (a <- callback ;; ret (Some a))
        (fun err =>
           match message err with
           | Some msg =>
               if truthy msg && negb (page_closed_message msg)
               then throw err
               else ret None
           | None => ret None
           end).

(* ================================================================== *)
(** * The render result *)
(* ================================================================== *)

Definition SHOEBOX_TAG_PATTERN : jsstring :=
  lit "<script type=" ++ dq ++ lit "fastboot/shoebox" ++ dq.

Module Result.
(** The cached strings are [None] until the first harvest; [finalized]
    is false until [_finalize] sets it. The property [instance] that
    [_finalize] looks at is assigned nowhere and stays undefined. *)
Record t := {
  _instanceDestroyed : bool;
  _fastbootInfo : option FastBootInfo.t;
  _html : option jsstring;
  _head : option jsstring;
  _body : option jsstring;
  error : option JSError;
  finalized : bool
}.

Definition new (fastbootInfo : option FastBootInfo.t) : t :=
  {| _instanceDestroyed := false; _fastbootInfo := fastbootInfo;
     _html := None; _head := None; _body := None;
     error := None; finalized := false |}.

Definition set_contents (html head body : option jsstring) (r : t) : t :=
  {| _instanceDestroyed := _instanceDestroyed r; _fastbootInfo := _fastbootInfo r;
     _html := html; _head := head; _body := body;
     error := error r; finalized := finalized r |}.

Definition set_fastbootInfo (info : FastBootInfo.t) (r : t) : t :=
  {| _instanceDestroyed := _instanceDestroyed r; _fastbootInfo := Some info;
     _html := _html r; _head := _head r; _body := _body r;
     error := error r; finalized := finalized r |}.

Definition set_error (e : JSError) (r : t) : t :=
  {| _instanceDestroyed := _instanceDestroyed r; _fastbootInfo := _fastbootInfo r;
     _html := _html r; _head := _head r; _body := _body r;
     error := Some e; finalized := finalized r |}.

Definition set_finalized (r : t) : t :=
  {| _instanceDestroyed := _instanceDestroyed r; _fastbootInfo := _fastbootInfo r;
     _html := _html r; _head := _head r; _body := _body r;
     error := error r; finalized := true |}.

(** [get statusCode]. *)
Definition statusCode (r : t) : option Z :=
  match _fastbootInfo r with
  | Some info => FastBootResponse.statusCode <$> FastBootInfo.response info
  | None => None
  end.

(** ** Methods that talk to the page

    The result and the page it refers to form the state. *)
Section WithPage.
Context {P : Type} `{Page P}.

Definition on_page {A} (c : M P A) : M (t * P) A :=
  zoom snd (fun p s => (fst s, p)) c.

Definition on_result {A} (c : M t A) : M (t * P) A :=
  zoom fst (fun r s => (r, snd s)) c.

Definition _reflectContents : M (t * P) unit :=
  contents <- on_page page_harvest ;;
  let '(html, head, body) := contents in
  on_result (modify (set_contents (Some html) (Some head) (Some body))).

Definition setContent (html : jsstring) : M (t * P) unit :=
  destroyed <- gets (fun s => _instanceDestroyed (fst s)) ;;
  if destroyed : bool then ret tt
  else
    tryWithPageAwareness
      (on_page (page_setContent html) ;; _reflectContents) ;;
    ret tt.

Definition evaluate (script : Script) : M (t * P) (option (list Slot)) :=
  destroyed <- gets (fun s => _instanceDestroyed (fst s)) ;;
  if destroyed : bool then ret None
  else
    returned <- tryWithPageAwareness
      (evalResult <- on_page (page_evaluate script) ;;
       _reflectContents ;;
       ret evalResult) ;;
    ret (mjoin returned).

Definition _finalize : M (t * P) unit :=
  done <- gets (fun s => finalized (fst s)) ;;
  if done : bool
  then throw (Error (lit "Results cannot be finalized more than once"))
  else
    evaluate RemoveEmberApplicationClass ;;
    on_result (modify set_finalized).
End WithPage.

(** ** Methods that read the cache *)

Definition redirect_document (location : jsstring) : jsstring :=
  lit "<html><head></head><body><h1>Redirecting to <a href=" ++ dq
    ++ location ++ dq ++ lit ">" ++ location
    ++ lit "</a></h1></body></html>".

Definition placeholder_document : jsstring :=
  lit "<html><head></head><body><!-- EMBER_CLI_FASTBOOT_BODY --></body></html>".

Definition html : M t (option jsstring) :=
  info <- gets _fastbootInfo ;;
  match info with
  | None => throw (TypeError (lit "Cannot read property 'response' of undefined"))
  | Some info =>
      let response := FastBootInfo.response info in
      let statusCode := FastBootResponse.statusCode <$> response in
      match response, statusCode with
      | Some response, Some statusCode =>
          if (statusCode =? 204)%Z then
            modify (set_contents (Some []) (Some []) (Some []))
          else if (300 <=? statusCode)%Z && (statusCode <=? 399)%Z then
            let location :=
              FastBootHeaders.get (lit "location") (FastBootResponse.headers response) in
            modify (set_contents (Some placeholder_document) (Some []) (Some [])) ;;
            match location with
            | Some location =>
                if truthy location
                then modify (fun r =>
                       set_contents (Some (redirect_document location)) (_head r) (_body r) r)
                else ret tt
            | None => ret tt
            end
          else ret tt
      | _, _ => ret tt
      end ;;
      gets _html
  end.

(** [html.match(HTML_HEAD_REGEX)]. The expression is anchored at the
    start and has two groups: any characters, as many as possible,
    followed by [</head>], and any characters after that. The greedy
    first group runs to the last [</head>] of the string; the result is
    the pair of the two groups, [None] without a [</head>]. *)
Fixpoint match_HTML_HEAD_REGEX (s : jsstring) : option (jsstring * jsstring) :=
  match s with
  | [] => None
  | c :: s' =>
      match match_HTML_HEAD_REGEX s' with
      | Some (head, body) => Some (c :: head, body)
      | None =>
          if starts_with (lit "</head>") s
          then Some (lit "</head>", drop 7 s)
          else None
      end
  end.

Definition chunks : M t (list jsstring) :=
  html <- gets _html ;;
  match html with
  | None => throw (TypeError (lit "Cannot read property 'match' of undefined"))
  | Some html =>
      match match_HTML_HEAD_REGEX html with
      | None => ret [html]
      | Some (head, body) =>
          if negb (truthy head) || negb (truthy body)
          then throw (Error (lit "Could not idenfity head and body of the document! Make sure the document is well formed."))
          else
            match split SHOEBOX_TAG_PATTERN body with
            | [] => ret [head]
            | plainBody :: shoeboxes =>
                ret ([head; plainBody] ++ map (app SHOEBOX_TAG_PATTERN) shoeboxes)
            end
      end
  end.

Definition domContents (r : t) : option jsstring * option jsstring :=
  (_head r, _body r).
End Result.

(* ================================================================== *)
(** * The render instance *)
(* ================================================================== *)

(** The options of a visit. [o_destroyAppInstanceInMs] is the integer
    [parseInt] reads from the option, [None] where it reads none;
    [o_disableShoebox] is the truth value of the option. *)
Record VisitOptions := {
  o_request : option RequestData;
  o_response : option ResponseData;
  o_html : option jsstring;
  o_disableShoebox : bool;
  o_destroyAppInstanceInMs : option Z;
  o_shouldRender : option bool;
  o_metadata : Value;
  o_resilient : option bool
}.

(** The six code units of an escape: a backslash, [u] and four
    hexadecimal digits. *)
Definition u_escape (digits : string) : jsstring :=
  92%N :: lit ("u" ++ digits).

Definition JSON_ESCAPE : list (N * jsstring) :=
  [ (38%N, u_escape "0026");
    (62%N, u_escape "003e");
    (60%N, u_escape "003c");
    (8232%N, u_escape "2028");
    (8233%N, u_escape "2029") ].

(** The class of [JSON_ESCAPE_REGEXP]: U+2028, U+2029, [&], [>], [<]. *)
Definition JSON_ESCAPE_REGEXP (c : N) : bool :=
  existsb (N.eqb c) [8232%N; 8233%N; 38%N; 62%N; 60%N].

(** [JSON_ESCAPE[match]]; a key the table lacks would give [undefined],
    which [replace] inserts as that word. *)
Definition JSON_ESCAPE_lookup (c : N) : jsstring :=
  match find (fun entry => N.eqb (fst entry) c) JSON_ESCAPE with
  | Some entry => snd entry
  | None => lit "undefined"
  end.

Definition escapeJSONString (string : jsstring) : jsstring :=
  flat_map (fun c => if JSON_ESCAPE_REGEXP c then JSON_ESCAPE_lookup c else [c]) string.

(** The markup [createShoebox] inserts for a key. *)
Definition shoebox_script (key textValue : jsstring) : jsstring :=
  lit "<script type=" ++ dq ++ lit "fastboot/shoebox" ++ dq
    ++ lit " id=" ++ dq ++ lit "shoebox-" ++ key ++ dq ++ lit ">"
    ++ textValue ++ lit "</script>".

Definition buildBootOptions `{Runtime} (shouldRender : bool) : BootOptions :=
  {| location := lit "none";
     isBrowser := true;
     shouldRender := shouldRender;
     _renderMode := if EXPERIMENTAL_RENDER_MODE_SERIALIZE
                    then Some (lit "serialize") else None |}.

(** What [_visitRoute] takes for the returned info when the page was
    terminated early: [[{ headers: {} }, {}, {}]]. *)
Definition default_returnedInfo : list Slot :=
  [ SlotRequest {| rq_hostWhitelist := None; rq_protocol := None;
                   rq_headers := Some ∅;
                   rq_query := VUndefined; rq_url := VUndefined;
                   rq_method := VUndefined; rq_body := VUndefined;
                   rq_cookies := None |};
    SlotResponse empty_response;
    SlotOptions empty_options ].

Module EmberApp.
(** [hasInitialized] is the property [_visitRoute] reads and writes; it
    is absent, hence falsy, until then. [_hasInitialized] is the
    property the constructor and the deadline timer write. The module
    whitelist and the schema version are kept nowhere else and are left
    out. *)
Record t := {
  appFilePaths : list jsstring;
  vendorFilePaths : list jsstring;
  hostWhitelist : option (list jsstring);
  config : Value;
  appName : jsstring;
  sandboxGlobals : gmap jsstring Value;
  html : jsstring;
  _hasInitialized : bool;
  hasInitialized : bool;
  _bundle : option jsstring
}.

Definition set__hasInitialized (b : bool) (a : t) : t :=
  {| appFilePaths := appFilePaths a; vendorFilePaths := vendorFilePaths a;
     hostWhitelist := hostWhitelist a; config := config a; appName := appName a;
     sandboxGlobals := sandboxGlobals a; html := html a;
     _hasInitialized := b; hasInitialized := hasInitialized a;
     _bundle := _bundle a |}.

Definition set_hasInitialized (b : bool) (a : t) : t :=
  {| appFilePaths := appFilePaths a; vendorFilePaths := vendorFilePaths a;
     hostWhitelist := hostWhitelist a; config := config a; appName := appName a;
     sandboxGlobals := sandboxGlobals a; html := html a;
     _hasInitialized := _hasInitialized a; hasInitialized := b;
     _bundle := _bundle a |}.

Definition set__bundle (text : jsstring) (a : t) : t :=
  {| appFilePaths := appFilePaths a; vendorFilePaths := vendorFilePaths a;
     hostWhitelist := hostWhitelist a; config := config a; appName := appName a;
     sandboxGlobals := sandboxGlobals a; html := html a;
     _hasInitialized := _hasInitialized a; hasInitialized := hasInitialized a;
     _bundle := Some text |}.

(** The objects of one call of [visit]: the instance, the variable
    [didDestroy] the timer shares with the call, the result under
    construction and the page both refer to. *)
Record World (P : Type) := {
  this : t;
  didDestroy : bool;
  result : Result.t;
  page : P
}.
Arguments this {P}. Arguments didDestroy {P}.
Arguments result {P}. Arguments page {P}.

Section WithPage.
Context {P : Type} `{Page P} `{Runtime}.

Definition on_this {A} (c : M t A) : M (World P) A :=
  zoom this (fun a w => {| this := a; didDestroy := didDestroy w;
                           result := result w; page := page w |}) c.

Definition on_result {A} (c : M (Result.t * P) A) : M (World P) A :=
  zoom (fun w => (result w, page w))
       (fun rp w => {| this := this w; didDestroy := didDestroy w;
                       result := fst rp; page := snd rp |}) c.

Definition set_didDestroy : M (World P) unit :=
  modify (fun w => {| this := this w; didDestroy := true;
                      result := result w; page := page w |}).

Definition set_result_error (e : JSError) : M (World P) unit :=
  on_result (Result.on_result (modify (Result.set_error e))).

(** The callback of the deadline timer. It yields whether the reload
    went through. An error it throws itself is lost with the promise
    of the callback. *)
Definition destroyAppInstance (destroyAppInstanceInMs : Z) : M (World P) bool :=
  set_didDestroy ;;
  reloaded <- catch
    (on_result (Result.on_page page_reload) ;;
     set_result_error (Error (lit "App instance was forcefully destroyed in "
                                ++ decimal destroyAppInstanceInMs ++ lit "ms")) ;;
     ret true)
    (fun error =>
       match message error with
       | None => throw (TypeError (lit "Cannot read property 'match' of undefined"))
       | Some msg =>
           (if negb (includes (lit "Navigation failed because browser has disconnected") msg)
            then set_result_error error
            else ret tt) ;;
           ret false
       end) ;;
  on_this (modify (set__hasInitialized false)) ;;
  ret reloaded.

Definition loadAppFiles (appFilePaths vendorFilePaths : list jsstring)
  : M (World P) unit :=
  let evaluate_file filePath :=
    match readFileSync filePath with
    | inl e => throw e
    | inr file => on_result (Result.evaluate (Source file)) ;; ret tt
    end in
  for_each evaluate_file vendorFilePaths ;;
  for_each evaluate_file appFilePaths.

Definition createShoebox (fastbootInfo : FastBootInfo.t) : M (World P) unit :=
  match FastBootInfo.shoebox fastbootInfo with
  | None => ret tt
  | Some shoebox =>
      for_each
        (fun '(key, value) =>
           let textValue := escapeJSONString (JSON_stringify value) in
           on_result (Result.evaluate
                        (InsertBodyBeforeEnd (shoebox_script key textValue))) ;;
           ret tt)
        shoebox
  end.

Definition initializeAppEnvironment (appName : jsstring) (config : Value)
  : M (World P) unit :=
  on_result (Result.evaluate (InitializeAppEnvironment appName config)) ;; ret tt.

(** [runAppInstance]. With [deadline = Some ms] the timer fires while
    the page evaluates the function: the callback of the timer runs,
    and the evaluation is rejected, for a destroyed execution context
    where the page was reloaded and for a closed target where it could
    not be. The callback is taken to have run to its end, with the
    reload settled, by the time the rejection is handled: this fixes
    the flags the callback writes and the scripts the page has served
    by then, and leaves open how a page answers the rest of the route
    while a reload is still pending. *)
Definition runAppInstance (path : jsstring) (bootOptions : BootOptions)
    (info : FastBootInfo.t) (deadline : option Z)
  : M (World P) (option (list Slot)) :=
  match deadline with
  | None =>
      on_result (Result.evaluate
                   (RunAppInstance path bootOptions (FastBootInfo.serialize info)))
  | Some ms =>
      destroyed <- gets (fun w => Result._instanceDestroyed (result w)) ;;
      if destroyed : bool then ret None
      else
        returned <- tryWithPageAwareness
          (reloaded <- catch (destroyAppInstance ms) (fun _ => ret false) ;;
           throw (Error (lit (if reloaded : bool
             then "Protocol error (Runtime.callFunctionOn): Execution context was destroyed."
             else "Protocol error (Runtime.callFunctionOn): Target closed."))
                  : JSError)) ;;
        ret (mjoin returned)
  end.

Definition _visitRoute (path : jsstring) (info : FastBootInfo.t)
    (bootOptions : BootOptions) (disableShoebox : bool) (deadline : option Z)
  : M (World P) unit :=
  initialized <- gets (fun w => hasInitialized (this w)) ;;
  (if initialized : bool then ret tt
   else
     on_this (modify (set_hasInitialized true)) ;;
     globals <- gets (fun w => sandboxGlobals (this w)) ;;
     on_result (Result.evaluate (AssignGlobals globals)) ;;
     name <- gets (fun w => appName (this w)) ;;
     conf <- gets (fun w => config (this w)) ;;
     initializeAppEnvironment name conf ;;
     apps <- gets (fun w => appFilePaths (this w)) ;;
     vendors <- gets (fun w => vendorFilePaths (this w)) ;;
     loadAppFiles apps vendors ;;
     cached <- gets (fun w => _bundle (this w)) ;;
     text <- match cached with
             | Some text => if truthy text then ret text
                            else match bundle with inl e => throw e | inr b => ret b end
             | None => match bundle with inl e => throw e | inr b => ret b end
             end ;;
     on_this (modify (set__bundle text)) ;;
     on_result (Result.evaluate (Source text)) ;;
     ret tt) ;;
  ran <- catch
    (returned <- runAppInstance path bootOptions info deadline ;;
     ret (default default_returnedInfo returned, None))
    (fun err => ret (default_returnedInfo, Some err)) ;;
  let '(returnedInfo, error) := ran in
  match FastBootInfo.from_tuple returnedInfo with
  | inl e => throw e
  | inr fastbootInfo =>
      on_result (Result.on_result (modify (Result.set_fastbootInfo fastbootInfo))) ;;
      (if disableShoebox then ret tt else createShoebox fastbootInfo) ;;
      on_result Result._finalize ;;
      match error with
      | Some e => throw e
      | None => ret tt
      end
  end.

(** [visit]. [fires] tells whether the deadline timer, if one is
    started, fires while the in-context visit is in flight. *)
Definition visit (path : jsstring) (options : VisitOptions) (fires : bool)
  : M (t * P) Result.t :=
  fun s =>
    let html :=
      match o_html options with
      | Some h => if truthy h then h else html (fst s)
      | None => html (fst s)
      end in
    let disableShoebox := o_disableShoebox options in
    let destroyAppInstanceInMs := o_destroyAppInstanceInMs options in
    let shouldRender := default true (o_shouldRender options) in
    let bootOptions := buildBootOptions shouldRender in
    match FastBootInfo.new (o_request options) (o_response options)
            (Some {| opt_hostWhitelist := hostWhitelist (fst s);
                     opt_metadata := o_metadata options |}) None with
    | inl e => (inl e, s)
    | inr info =>
        let deadline :=
          match destroyAppInstanceInMs with
          | Some ms => if (0 <? ms)%Z && fires then Some ms else None
          | None => None
          end in
        let '(r, w) :=
          (on_result (Result.setContent html) ;;
           catch
             (on_result (Result.on_page (page_evaluate ClearPageStorage)) ;;
              _visitRoute path info bootOptions disableShoebox deadline)
             (fun error =>
                destroyed <- gets didDestroy ;;
                if destroyed : bool then
                  match message error with
                  | None => throw (TypeError (lit "Cannot read property 'match' of undefined"))
                  | Some msg =>
                      if includes (lit "Execution context was destroyed") msg
                         || includes (lit "Navigation failed because browser has disconnected") msg
                      then ret tt
                      else set_result_error error
                  end
                else set_result_error error) ;;
           gets result)
            {| this := fst s; didDestroy := false;
               result := Result.new None; page := snd s |} in
        (r, (this w, page w))
    end.

(** [destroy]: closes the page. *)
Definition destroy (s : t * P) : t * P := (fst s, page_close (snd s)).
End WithPage.
End EmberApp.

(* ================================================================== *)
(** * The coordinator *)
(* ================================================================== *)

(** How the promise of an asynchronous call ends; [Pending] is a promise
    that is never settled. *)
Inductive Settled (A : Type) :=
| Fulfilled (a : A)
| Rejected (e : JSError)
| Pending.
Arguments Fulfilled {A}. Arguments Rejected {A}. Arguments Pending {A}.

(** The application configuration read from the manifest. *)
Record AppConfig := {
  cfg_appFiles : list jsstring;
  cfg_vendorFiles : list jsstring;
  cfg_hostWhitelist : option (list jsstring);
  cfg_config : Value;
  cfg_appName : jsstring;
  cfg_htmlFile : jsstring
}.

(** [new EmberApp({ page, config, sandboxGlobals })], without the page. *)
Definition EmberApp_new `{Runtime} (config : AppConfig)
    (sandboxGlobals : gmap jsstring Value) : JSError + EmberApp.t :=
  match readFileSync (cfg_htmlFile config) with
  | inl e => inl e
  | inr html =>
      inr {| EmberApp.appFilePaths := cfg_appFiles config;
             EmberApp.vendorFilePaths := cfg_vendorFiles config;
             EmberApp.hostWhitelist := cfg_hostWhitelist config;
             EmberApp.config := cfg_config config;
             EmberApp.appName := cfg_appName config;
             EmberApp.sandboxGlobals := sandboxGlobals;
             EmberApp.html := html;
             EmberApp._hasInitialized := false;
             EmberApp.hasInitialized := false;
             EmberApp._bundle := None |}
  end.

Module PowerBoot.
(** [isWorking] is the property the acquisition and the release read
    and write; it is absent, hence falsy, at construction.
    [_isWorking] is the property the constructor writes. The browser
    and the loopback server exist once the first visit has passed their
    lazy creation. *)
Record t (P : Type) := {
  config_resilient : bool;
  config_sandboxGlobals : gmap jsstring Value;
  _appConfig : AppConfig;
  _instance : option (EmberApp.t * P);
  isWorking : bool;
  _isWorking : bool;
  _shouldDestroyInstance : bool
}.
Arguments config_resilient {P}. Arguments config_sandboxGlobals {P}.
Arguments _appConfig {P}. Arguments _instance {P}. Arguments isWorking {P}.
Arguments _isWorking {P}. Arguments _shouldDestroyInstance {P}.

(** What the loop over [_getAvailableOrNewInstance] leaves in the
    variable [instance]. *)
Inductive Acquired (P : Type) :=
| (** the instance the generator has just created *)
  NewInstance (instance : EmberApp.t * P)
| (** the value [true] the generator yields for an instance at rest *)
  YieldedTrue
| (** the promise of the new page or of the instance was rejected *)
  AcquireRejected (e : JSError)
| (** an instance is at work: the loop yields to the scheduler and
      tries again, and alone it does so for ever *)
  Polling.
Arguments NewInstance {P}. Arguments YieldedTrue {P}.
Arguments AcquireRejected {P}. Arguments Polling {P}.

Section WithBrowser.
Context {P : Type} `{Page P} `{Runtime}.
(** [browser.newPage()], navigated to the loopback address. *)
Variable newPage : JSError + P.

Definition set_instance (i : option (EmberApp.t * P)) (pb : t P) : t P :=
  {| config_resilient := config_resilient pb;
     config_sandboxGlobals := config_sandboxGlobals pb;
     _appConfig := _appConfig pb;
     _instance := i;
     isWorking := isWorking pb;
     _isWorking := _isWorking pb;
     _shouldDestroyInstance := _shouldDestroyInstance pb |}.

Definition set_isWorking (b : bool) (pb : t P) : t P :=
  {| config_resilient := config_resilient pb;
     config_sandboxGlobals := config_sandboxGlobals pb;
     _appConfig := _appConfig pb;
     _instance := _instance pb;
     isWorking := b;
     _isWorking := _isWorking pb;
     _shouldDestroyInstance := _shouldDestroyInstance pb |}.

Definition set_shouldDestroyInstance (b : bool) (pb : t P) : t P :=
  {| config_resilient := config_resilient pb;
     config_sandboxGlobals := config_sandboxGlobals pb;
     _appConfig := _appConfig pb;
     _instance := _instance pb;
     isWorking := isWorking pb;
     _isWorking := _isWorking pb;
     _shouldDestroyInstance := b |}.

(** The loop of [visit] over the generator
    [_getAvailableOrNewInstance], for a visit that no other visit
    runs beside. *)
Definition acquire (pb : t P) : Acquired P * t P :=
  match _instance pb with
  | None =>
      match newPage with
      | inl e => (AcquireRejected e, pb)
      | inr page =>
          match EmberApp_new (_appConfig pb) (config_sandboxGlobals pb) with
          | inl e => (AcquireRejected e, pb)
          | inr app => (NewInstance (app, page), set_instance (Some (app, page)) pb)
          end
      end
  | Some _ =>
      if isWorking pb then (Polling, pb)
      else (YieldedTrue, set_isWorking true pb)
  end.

Definition _releaseInstance (pb : t P) : t P :=
  let pb :=
    if _shouldDestroyInstance pb
    then set_shouldDestroyInstance false (set_instance None pb)
    else pb in
  set_isWorking false pb.

Definition visit (path : jsstring) (options : VisitOptions) (fires : bool)
    (pb : t P) : Settled Result.t * t P :=
  let resilient := default (config_resilient pb) (o_resilient options) in
  match acquire pb with
  | (Polling, pb) => (Pending, pb)
  | (AcquireRejected e, pb) => (Rejected e, pb)
  | (YieldedTrue, pb) =>
      (Rejected (TypeError (lit "instance.visit is not a function")), pb)
  | (NewInstance instance, pb) =>
      match EmberApp.visit path options fires instance with
      | (inl e, instance) => (Rejected e, set_instance (Some instance) pb)
      | (inr result, instance) =>
          let pb := _releaseInstance (set_instance (Some instance) pb) in
          match Result.error result with
          | Some error => if negb resilient then (Rejected error, pb)
                          else (Fulfilled result, pb)
          | None => (Fulfilled result, pb)
          end
      end
  end.
End WithBrowser.
End PowerBoot.

(* ================================================================== *)
(** * A page double *)
(* ================================================================== *)

(** The global scope of the document a page shows: the globals assigned
    to [window], the environment shim and the sources evaluated, in
    order. Loading content into the page keeps it; a navigation replaces
    it by an empty one. *)
Record Realm := {
  window : gmap jsstring Value;
  environment : option (jsstring * Value);
  sources : list jsstring
}.

Definition empty_realm : Realm :=
  {| window := ∅; environment := None; sources := [] |}.

Inductive Call :=
| CallSetContent (html : jsstring)
| CallEvaluate (script : Script)
| CallHarvest
| CallReload.

(** A call the page has served, with the global scope it found. *)
Record Event := {
  call : Call;
  found : Realm
}.

(** What the double is told about the browser and the application: what
    an in-context visit returns or throws in a global scope, and the
    markup (document, head, body) the browser gives for the calls
    served so far. *)
Record Behaviour := {
  run : Realm -> jsstring -> BootOptions -> list Slot -> JSError + option (list Slot);
  render : list Event -> jsstring * jsstring * jsstring
}.

(** The double serves every call while it is open and records it; once
    closed it rejects every call the way a closed target does. Its
    storage holds no indexed database, so clearing it returns
    normally. *)
Record TestPage := {
  behaviour : Behaviour;
  closed : bool;
  realm : Realm;
  history : list Event
}.

Definition record (c : Call) (r : Realm) (p : TestPage) : TestPage :=
  {| behaviour := behaviour p; closed := closed p; realm := r;
     history := history p ++ [{| call := c; found := realm p |}] |}.

Definition target_closed : JSError :=
  Error (lit "Protocol error (Runtime.callFunctionOn): Target closed.").

Definition browser_disconnected : JSError :=
  Error (lit "Navigation failed because browser has disconnected!").

Definition TestPage_setContent (html : jsstring) : M TestPage unit :=
  fun p =>
    if closed p then (inl target_closed, p)
    else (inr tt, record (CallSetContent html) (realm p) p).

Definition TestPage_evaluate (script : Script) : M TestPage (option (list Slot)) :=
  fun p =>
    if closed p then (inl target_closed, p)
    else
      let r := realm p in
      match script with
      | AssignGlobals g =>
          (inr None, record (CallEvaluate script)
                       {| window := g ∪ window r; environment := environment r;
                          sources := sources r |} p)
      | InitializeAppEnvironment name config =>
          (inr None, record (CallEvaluate script)
                       {| window := window r; environment := Some (name, config);
                          sources := sources r |} p)
      | Source text =>
          (inr None, record (CallEvaluate script)
                       {| window := window r; environment := environment r;
                          sources := sources r ++ [text] |} p)
      | RunAppInstance path bootOptions info =>
          (run (behaviour p) r path bootOptions info, record (CallEvaluate script) r p)
      | InsertBodyBeforeEnd _ | RemoveEmberApplicationClass | ClearPageStorage =>
          (inr None, record (CallEvaluate script) r p)
      end.

Definition TestPage_harvest : M TestPage (jsstring * jsstring * jsstring) :=
  fun p =>
    if closed p then (inl target_closed, p)
    else
      let p' := record CallHarvest (realm p) p in
      (inr (render (behaviour p) (history p')), p').

Definition TestPage_reload : M TestPage unit :=
  fun p =>
    if closed p then (inl browser_disconnected, p)
    else (inr tt, record CallReload empty_realm p).

Definition TestPage_close (p : TestPage) : TestPage :=
  {| behaviour := behaviour p; closed := true; realm := realm p;
     history := history p |}.

#[export] Instance TestPage_Page : Page TestPage := {
  page_setContent := TestPage_setContent;
  page_evaluate := TestPage_evaluate;
  page_harvest := TestPage_harvest;
  page_reload := TestPage_reload;
  page_close := TestPage_close
}.

(** A page the browser has just opened. *)
Definition fresh_page (b : Behaviour) : TestPage :=
  {| behaviour := b; closed := false; realm := empty_realm; history := [] |}.

(** The scripts the page has evaluated, in order. *)
Definition evaluated (p : TestPage) : list Script :=
  omap (fun e => match call e with CallEvaluate s => Some s | _ => None end) (history p).

(** Boot-time injection starts with the sandbox globals. *)
Definition is_boot (s : Script) : bool :=
  match s with AssignGlobals _ => true | _ => false end.

Definition boots (p : TestPage) : nat := length (filter is_boot (evaluated p)).

(** The scripts of the boot: the sandbox globals, the environment
    shim and the sources. *)
Definition is_boot_script (s : Script) : bool :=
  match s with
  | AssignGlobals _ | InitializeAppEnvironment _ _ | Source _ => true
  | _ => false
  end.

Definition boot_scripts (p : TestPage) : list Script :=
  filter is_boot_script (evaluated p).

(** The in-context visits. *)
Definition is_run (s : Script) : bool :=
  match s with RunAppInstance _ _ _ => true | _ => false end.

Definition runs_served (p : TestPage) : nat := length (filter is_run (evaluated p)).

(* ================================================================== *)
(** * Notions of the specification and of the proofs *)
(* ================================================================== *)

(** [delimited entry source]: the entry begins and ends with a slash,
    and [source] is what stands between the two; the entry of one slash
    alone begins and ends with it, with nothing in between. *)
Inductive delimited : jsstring -> jsstring -> Prop :=
| delimited_by (source : jsstring) : delimited (47%N :: source ++ [47%N]) source
| delimited_slash : delimited [47%N] [].

(** What a regular expression is tested on: the value of the Host
    header, or the text of [null] where the request has none. *)
Definition tested (header : option jsstring) : jsstring :=
  match header with
  | Some h => h
  | None => [110%N; 117%N; 108%N; 108%N]
  end.

(** An entry admits the value of the Host header by the test of the
    regular expression between its slashes when it is slash-delimited,
    and by exact string equality otherwise. *)
Definition entry_admits `{Runtime} (entry : jsstring) (header : option jsstring) : Prop :=
  (exists source regexp,
     delimited entry source /\ RegExp_new source = inr regexp /\
     regexp (tested header) = true)
  \/
  ((forall source, ~ delimited entry source) /\ header = Some entry).

Definition entry_refuses `{Runtime} (entry : jsstring) (header : option jsstring) : Prop :=
  (exists source regexp,
     delimited entry source /\ RegExp_new source = inr regexp /\
     regexp (tested header) = false)
  \/
  ((forall source, ~ delimited entry source) /\ header <> Some entry).

(** The entry is slash-delimited and what stands between its slashes is
    no regular expression: the constructor throws [e]. *)
Definition entry_invalid `{Runtime} (entry : jsstring) (e : JSError) : Prop :=
  exists source, delimited entry source /\ RegExp_new source = inl e.

(** The entries are tried in order: [entry] is reached when every entry
    before it refuses the header. *)
Definition reached `{Runtime} (whitelist : list jsstring) (entry : jsstring)
    (header : option jsstring) : Prop :=
  exists before after,
    whitelist = before ++ entry :: after /\
    Forall (fun earlier => entry_refuses earlier header) before.

Definition is_undefined (s : Slot) : Prop := s = SlotUndefined.

(** The message of the error tells that the target or its session was
    closed. *)
Definition indicates_closed (e : JSError) : Prop :=
  exists msg u t,
    message e = Some msg /\
    (msg = u ++ lit "Target closed." ++ t \/ msg = u ++ lit "Session closed." ++ t).

(** The error has a message, and the message is not empty. *)
Definition has_message (e : JSError) : Prop :=
  exists msg, message e = Some msg /\ msg <> [].

(** The escape form of a code unit: a backslash, [u] and the four
    hexadecimal digits of its code, in lower case. *)
Definition hex_digit (n : N) : N :=
  if (n <? 10)%N then (48 + n)%N else (87 + n)%N.

Definition uXXXX (c : N) : jsstring :=
  [ 92%N; 117%N;
    hex_digit ((c / 4096) mod 16); hex_digit ((c / 256) mod 16);
    hex_digit ((c / 16) mod 16); hex_digit (c mod 16) ].

(** The characters the shoebox escapes: [&], [<], [>], U+2028, U+2029. *)
Definition escaped_character (c : N) : Prop :=
  c = 38%N \/ c = 60%N \/ c = 62%N \/ c = 8232%N \/ c = 8233%N.

#[export] Instance escaped_character_dec c : Decision (escaped_character c) :=
  ltac:(unfold escaped_character; apply _).

(** A text with every such character replaced by its escape form. *)
Definition escaped (text : jsstring) : jsstring :=
  flat_map (fun c => if decide (escaped_character c) then uXXXX c else [c]) text.

(** The script [createShoebox] evaluates for a key and its value. *)
Definition shoebox_insertion `{Runtime} (entry : jsstring * Value) : Script :=
  InsertBodyBeforeEnd
    (shoebox_script (fst entry) (escapeJSONString (JSON_stringify (snd entry)))).

(** Whatever its outcome, the computation takes every state to one that
    is related to it. *)
Definition steps {S A : Type} (R : relation S) (c : M S A) : Prop :=
  forall s, R s (snd (c s)).

(** Where a visit is: before or after the work on the route, in the
    boot behind the injection of the sandbox globals, or in the visit of
    the route behind the boot. *)
Inductive Phase := Idle | Booting | Visiting.

(** An event that leaves the window alone: it finds the window [wd], it
    is no injection of sandbox globals and no navigation; it evaluates
    the environment shim or a source only in the boot, and an in-context
    visit only in the visit of the route. *)
Definition quiet_event (phase : Phase) (wd : gmap jsstring Value) (e : Event) : Prop :=
  window (found e) = wd /\
  match call e with
  | CallEvaluate (AssignGlobals _) => False
  | CallEvaluate (InitializeAppEnvironment _ _) | CallEvaluate (Source _) =>
      phase = Booting
  | CallEvaluate (RunAppInstance _ _ _) => phase = Visiting
  | CallReload => False
  | _ => True
  end.

(** The page has served quiet events only, and none if it is closed. *)
Definition page_step (phase : Phase) (p p' : TestPage) : Prop :=
  closed p' = closed p /\
  behaviour p' = behaviour p /\
  window (realm p') = window (realm p) /\
  exists events,
    history p' = history p ++ events /\
    (closed p = true -> events = []) /\
    Forall (quiet_event phase (window (realm p))) events.

(** The same for a result and its page, and for the objects of a visit:
    the result stays alive, the instance keeps its sandbox globals and
    its flag. *)
Definition result_step (phase : Phase) (s s' : Result.t * TestPage) : Prop :=
  Result._instanceDestroyed (fst s') = Result._instanceDestroyed (fst s) /\
  page_step phase (snd s) (snd s').

Definition world_step (phase : Phase) (w w' : EmberApp.World TestPage) : Prop :=
  EmberApp.sandboxGlobals (EmberApp.this w') = EmberApp.sandboxGlobals (EmberApp.this w) /\
  EmberApp.hasInitialized (EmberApp.this w') = EmberApp.hasInitialized (EmberApp.this w) /\
  result_step phase (EmberApp.result w, EmberApp.page w) (EmberApp.result w', EmberApp.page w').

(** The scripts whose evaluation is such an event. *)
Definition quiet_script (phase : Phase) (script : Script) : Prop :=
  match script with
  | AssignGlobals _ => False
  | InitializeAppEnvironment _ _ | Source _ => phase = Booting
  | RunAppInstance _ _ _ => phase = Visiting
  | _ => True
  end.

(** The in-context visits the page has served found the sandbox
    globals in the window. *)
Definition observes (g : gmap jsstring Value) (events : list Event) : Prop :=
  Forall (fun e => match call e with
                   | CallEvaluate (RunAppInstance _ _ _) => g ⊆ window (found e)
                   | _ => True
                   end) events.

(** The invariant of an instance and its page: the page has served [n]
    boot-time injections, none or one; every in-context visit it has
    served found the sandbox globals; an instance that has not booted
    has injected nothing, and one that has booted has its sandbox
    globals in the window of its page, unless the page is closed. *)
Definition boot_inv (g : gmap jsstring Value) (n : nat) (s : EmberApp.t * TestPage) : Prop :=
  EmberApp.sandboxGlobals (fst s) = g /\
  n <= 1 /\
  boots (snd s) = n /\
  observes g (history (snd s)) /\
  if EmberApp.hasInitialized (fst s)
  then closed (snd s) = true \/ g ⊆ window (realm (snd s))
  else n = 0.

Definition world_inv (g : gmap jsstring Value) (n : nat) (w : EmberApp.World TestPage) : Prop :=
  boot_inv g n (EmberApp.this w, EmberApp.page w) /\
  Result._instanceDestroyed (EmberApp.result w) = false.

(** A booted instance that satisfies the invariant. *)
Definition booted (g : gmap jsstring Value) (w : EmberApp.World TestPage) : Prop :=
  exists n, world_inv g n w /\ EmberApp.hasInitialized (EmberApp.this w) = true.

(** The computation keeps a property of the state, whatever its
    outcome. *)
Definition keeps {S A : Type} (Q : S -> Prop) (c : M S A) : Prop :=
  forall s, Q s -> Q (snd (c s)).

(** The property of the objects of a visit that started from an
    instance and a page with [n] injections and the boot scripts [bs]:
    the invariant holds, and an instance that was booted has remained so
    and has evaluated no script of the boot. *)
Definition visiting (g : gmap jsstring Value) (was_booted : bool) (n : nat)
    (bs : list Script) (w : EmberApp.World TestPage) : Prop :=
  exists n',
    world_inv g n' w /\
    (was_booted = true ->
     n' = n /\
     EmberApp.hasInitialized (EmberApp.this w) = true /\
     boot_scripts (EmberApp.page w) = bs).

(** Visits of an instance one after the other, none with a deadline
    timer that fires. *)
Fixpoint visit_each `{Runtime} (visits : list (jsstring * VisitOptions))
    (s : EmberApp.t * TestPage) : EmberApp.t * TestPage :=
  match visits with
  | [] => s
  | (path, options) :: rest =>
      visit_each rest (snd (EmberApp.visit path options false s))
  end.

(* ================================================================== *)
(** * Fixtures *)
(* ================================================================== *)

(** A result whose harvested document is [<html>...</html>] and whose
    response has the given status code and, if any, the given [location]
    header. *)
Definition harvested_html : jsstring :=
  lit "<html><head><title>t</title></head><body><h1>A normal response document</h1></body></html>".

Definition response_with (statusCode : Z) (location : option jsstring) : FastBootResponse.t :=
  let response := FastBootResponse.set_statusCode statusCode (FastBootResponse.new empty_response) in
  {| FastBootResponse._response := FastBootResponse._response response;
     FastBootResponse.headers :=
       match location with
       | Some l => FastBootHeaders.set (lit "location") l (FastBootResponse.headers response)
       | None => FastBootResponse.headers response
       end |}.

Definition info_with (response : FastBootResponse.t) : FastBootInfo.t :=
  {| FastBootInfo._options := empty_options;
     FastBootInfo.request := None;
     FastBootInfo.response := Some response;
     FastBootInfo.metadata := VUndefined;
     FastBootInfo.shoebox := None |}.

Definition result_with (statusCode : Z) (location : option jsstring) : Result.t :=
  Result.set_contents (Some harvested_html)
    (Some (lit "<title>t</title>"))
    (Some (lit "<h1>A normal response document</h1>"))
    (Result.new (Some (info_with (response_with statusCode location)))).

(** A document with a head and two shoebox tags. *)
Definition shoebox_result : Result.t :=
  Result.set_contents
    (Some (lit "<html><head><title>t</title></head><body><h1>x</h1>"
             ++ shoebox_script (lit "a") (lit "1")
             ++ shoebox_script (lit "b") (lit "2")
             ++ lit "</body></html>"))
    None None (Result.new None).

(** A runtime for the examples: [JSON.stringify] on strings without
    characters to escape and on integers, a regular expression engine
    for patterns of literal characters, in which an opening parenthesis
    alone is no expression, no cookies, files that hold their own path,
    and a bundle. *)
Definition test_runtime : Runtime := {|
  JSON_stringify := fun v =>
    match v with
    | VString s => dq ++ s ++ dq
    | VNumber n => decimal n
    | _ => lit "null"
    end;
  RegExp_new := fun source =>
    if bool_decide (source = lit "(")
    then inl (SyntaxError (lit "Invalid regular expression: /(/: Unterminated group"))
    else inr (includes source);
  cookie_parse := fun _ => [];
  readFileSync := fun path => inr (lit "// " ++ path);
  bundle := inr (lit "class FastBootInfo {}");
  EXPERIMENTAL_RENDER_MODE_SERIALIZE := false
|}.

(** A request with the given Host header and whitelist. *)
Definition request_with (host : jsstring) (whitelist : option (list jsstring))
  : FastBootRequest.t :=
  {| FastBootRequest._request := empty_request;
     FastBootRequest.hostWhitelist := whitelist;
     FastBootRequest.protocol := lit "https:";
     FastBootRequest.headers := FastBootHeaders.set (lit "Host") host (FastBootHeaders.new None);
     FastBootRequest.queryParams := VUndefined;
     FastBootRequest.path := VString (lit "/");
     FastBootRequest.method := VString (lit "GET");
     FastBootRequest.body := VUndefined;
     FastBootRequest.cookies := [] |}.

(** A request without Host header. *)
Definition request_without_host (whitelist : option (list jsstring))
  : FastBootRequest.t :=
  {| FastBootRequest._request := empty_request;
     FastBootRequest.hostWhitelist := whitelist;
     FastBootRequest.protocol := lit "https:";
     FastBootRequest.headers := FastBootHeaders.new None;
     FastBootRequest.queryParams := VUndefined;
     FastBootRequest.path := VString (lit "/");
     FastBootRequest.method := VString (lit "GET");
     FastBootRequest.body := VUndefined;
     FastBootRequest.cookies := [] |}.

(** An application whose in-context visit throws an error with an empty
    message. *)
Definition silent_failure : Behaviour :=
  {| run := fun _ _ _ _ => inl (mkError (Some []));
     render := fun _ => ([], [], []) |}.

Definition test_bootOptions : BootOptions :=
  {| location := lit "none"; isBrowser := true; shouldRender := true;
     _renderMode := None |}.

Definition test_globals : gmap jsstring Value := {[ lit "foo" := VNumber 5 ]}.

Definition test_config : AppConfig :=
  {| cfg_appFiles := [lit "app.js"];
     cfg_vendorFiles := [lit "vendor.js"];
     cfg_hostWhitelist := None;
     cfg_config := VObject [];
     cfg_appName := lit "test-app";
     cfg_htmlFile := lit "index.html" |}.

(** The instance [new EmberApp] makes of the configuration. *)
Definition test_app : EmberApp.t :=
  {| EmberApp.appFilePaths := [lit "app.js"];
     EmberApp.vendorFilePaths := [lit "vendor.js"];
     EmberApp.hostWhitelist := None;
     EmberApp.config := VObject [];
     EmberApp.appName := lit "test-app";
     EmberApp.sandboxGlobals := test_globals;
     EmberApp.html := lit "// index.html";
     EmberApp._hasInitialized := false;
     EmberApp.hasInitialized := false;
     EmberApp._bundle := None |}.

(** The window the last in-context visit found. *)
Definition last_run_window (events : list Event) : gmap jsstring Value :=
  foldl (fun wd e => match call e with
                     | CallEvaluate (RunAppInstance _ _ _) => window (found e)
                     | _ => wd
                     end) ∅ events.

(** An application that needs the bundle, fills a shoebox and renders
    the global [foo] it finds. *)
Definition test_behaviour : Behaviour :=
  {| run := fun realm path bootOptions info =>
       if bool_decide (lit "class FastBootInfo {}" ∈ sources realm)
       then inr (Some [ SlotUndefined;
                        SlotResponse empty_response;
                        SlotOptions empty_options;
                        SlotShoebox [ (lit "key1", VString (lit "bar"));
                                      (lit "key4", VString (lit "<script>&</script>")) ] ])
       else inl (Error (lit "Evaluation failed: ReferenceError: FastBootInfo is not defined"));
     render := fun events =>
       let body :=
         lit "foo from sandbox: " ++
         match last_run_window events !! lit "foo" with
         | Some (VNumber n) => decimal n
         | _ => lit "undefined"
         end in
       (lit "<html><head></head><body>" ++ body ++ lit "</body></html>", [], body) |}.

(** An application whose visit fails. *)
Definition failing_behaviour : Behaviour :=
  {| run := fun _ _ _ _ => inl (Error (lit "Evaluation failed: Error: boom"));
     render := fun _ => (lit "<html><head></head><body></body></html>", [], []) |}.

Definition plain_options : VisitOptions :=
  {| o_request := None; o_response := None; o_html := None;
     o_disableShoebox := false; o_destroyAppInstanceInMs := None;
     o_shouldRender := None; o_metadata := VUndefined; o_resilient := None |}.

Definition deadline_options (ms : Z) : VisitOptions :=
  {| o_request := None; o_response := None; o_html := None;
     o_disableShoebox := false; o_destroyAppInstanceInMs := Some ms;
     o_shouldRender := None; o_metadata := VUndefined; o_resilient := None |}.

Definition test_coordinator : PowerBoot.t TestPage :=
  {| PowerBoot.config_resilient := false;
     PowerBoot.config_sandboxGlobals := test_globals;
     PowerBoot._appConfig := test_config;
     PowerBoot._instance := None;
     PowerBoot.isWorking := false;
     PowerBoot._isWorking := false;
     PowerBoot._shouldDestroyInstance := false |}.

(** The visit of a new instance whose deadline of 5 ms fires during the
    in-context visit, and the visit that follows it. *)
Definition deadline_visit : (JSError + Result.t) * (EmberApp.t * TestPage) :=
  @EmberApp.visit _ _ test_runtime (lit "/") (deadline_options 5) true
    (test_app, fresh_page test_behaviour).

Definition visit_after_deadline : (JSError + Result.t) * (EmberApp.t * TestPage) :=
  @EmberApp.visit _ _ test_runtime (lit "/") plain_options false (snd deadline_visit).

(** The error the result of a fulfilled visit carries. *)
Definition carried_error (out : JSError + Result.t) : option JSError :=
  match out with
  | inr result => Result.error result
  | inl _ => None
  end.

(** Two visits of a new instance, one after the other. *)
Definition first_visit : (JSError + Result.t) * (EmberApp.t * TestPage) :=
  @EmberApp.visit _ _ test_runtime (lit "/") plain_options false
    (test_app, fresh_page test_behaviour).

Definition second_visit : (JSError + Result.t) * (EmberApp.t * TestPage) :=
  @EmberApp.visit _ _ test_runtime (lit "/foo") plain_options false (snd first_visit).

(** The document a fulfilled visit has harvested. *)
Definition harvested (out : JSError + Result.t) : option jsstring :=
  match out with
  | inr result => Result._html result
  | inl _ => None
  end.

(** The objects of a visit of the instance that the first visit has
    booted. *)
Definition booted_world : EmberApp.World TestPage :=
  {| EmberApp.this := fst (snd first_visit);
     EmberApp.didDestroy := false;
     EmberApp.result := Result.new None;
     EmberApp.page := snd (snd first_visit) |}.

Definition test_returned : list Slot :=
  [ SlotUndefined;
    SlotResponse empty_response;
    SlotOptions empty_options;
    SlotShoebox [ (lit "key1", VString (lit "bar"));
                  (lit "key4", VString (lit "<script>&</script>")) ] ].

Definition test_fastbootInfo : FastBootInfo.t :=
  {| FastBootInfo._options := empty_options;
     FastBootInfo.request := None;
     FastBootInfo.response := Some (FastBootResponse.new empty_response);
     FastBootInfo.metadata := VUndefined;
     FastBootInfo.shoebox := Some [ (lit "key1", VString (lit "bar"));
                                    (lit "key4", VString (lit "<script>&</script>")) ] |}.





(* ================================================================== *)
(** * Further notions *)
(* ================================================================== *)

(** The instance keeps its configuration, and a flag [hasInitialized]
    that is set stays set. *)
Definition instance_step (a a' : EmberApp.t) : Prop :=
  EmberApp.appFilePaths a' = EmberApp.appFilePaths a /\
  EmberApp.vendorFilePaths a' = EmberApp.vendorFilePaths a /\
  EmberApp.hostWhitelist a' = EmberApp.hostWhitelist a /\
  EmberApp.config a' = EmberApp.config a /\
  EmberApp.appName a' = EmberApp.appName a /\
  EmberApp.sandboxGlobals a' = EmberApp.sandboxGlobals a /\
  EmberApp.html a' = EmberApp.html a /\
  (EmberApp.hasInitialized a = true -> EmberApp.hasInitialized a' = true).

Definition keeps_instance {P : Type} (w w' : EmberApp.World P) : Prop :=
  instance_step (EmberApp.this w) (EmberApp.this w').

(** The timer has not fired. *)
Definition keeps_didDestroy {P : Type} (w w' : EmberApp.World P) : Prop :=
  EmberApp.didDestroy w' = EmberApp.didDestroy w.

(** The document a visit loads, and the render info it builds. *)
Definition visit_html (options : VisitOptions) (app : EmberApp.t) : jsstring :=
  match o_html options with
  | Some h => if truthy h then h else EmberApp.html app
  | None => EmberApp.html app
  end.

Definition visit_info `{Runtime} (options : VisitOptions) (app : EmberApp.t)
  : JSError + FastBootInfo.t :=
  FastBootInfo.new (o_request options) (o_response options)
    (Some {| opt_hostWhitelist := EmberApp.hostWhitelist app;
             opt_metadata := o_metadata options |}) None.

(** The global scope after the page double has evaluated a script. *)
Definition realm_after (r : Realm) (script : Script) : Realm :=
  match script with
  | AssignGlobals g =>
      {| window := g ∪ window r; environment := environment r; sources := sources r |}
  | InitializeAppEnvironment name config =>
      {| window := window r; environment := Some (name, config); sources := sources r |}
  | Source text =>
      {| window := window r; environment := environment r; sources := sources r ++ [text] |}
  | _ => r
  end.

(** The objects of a visit after the page double has evaluated the
    scripts, one after the other: the instance, the variable of the timer
    and the result, its cached strings apart, are as before. *)
Definition served (scripts : list Script) (w w' : EmberApp.World TestPage) : Prop :=
  EmberApp.this w' = EmberApp.this w /\
  EmberApp.didDestroy w' = EmberApp.didDestroy w /\
  Result._instanceDestroyed (EmberApp.result w')
    = Result._instanceDestroyed (EmberApp.result w) /\
  Result._fastbootInfo (EmberApp.result w') = Result._fastbootInfo (EmberApp.result w) /\
  Result.error (EmberApp.result w') = Result.error (EmberApp.result w) /\
  Result.finalized (EmberApp.result w') = Result.finalized (EmberApp.result w) /\
  closed (EmberApp.page w') = closed (EmberApp.page w) /\
  behaviour (EmberApp.page w') = behaviour (EmberApp.page w) /\
  evaluated (EmberApp.page w') = evaluated (EmberApp.page w) ++ scripts /\
  realm (EmberApp.page w') = foldl realm_after (realm (EmberApp.page w)) scripts.

(** An open page and a live result. *)
Definition ready (w : EmberApp.World TestPage) : Prop :=
  closed (EmberApp.page w) = false /\
  Result._instanceDestroyed (EmberApp.result w) = false.

(** [this._bundle || await bundle()]. *)
Definition bundle_text `{Runtime} (app : EmberApp.t) : JSError + jsstring :=
  match EmberApp._bundle app with
  | Some text => if truthy text then inr text else bundle
  | None => bundle
  end.

(** The objects of a visit with the instance or the result updated. *)
Definition with_this (f : EmberApp.t -> EmberApp.t) (w : EmberApp.World TestPage)
  : EmberApp.World TestPage :=
  {| EmberApp.this := f (EmberApp.this w); EmberApp.didDestroy := EmberApp.didDestroy w;
     EmberApp.result := EmberApp.result w; EmberApp.page := EmberApp.page w |}.

Definition with_result (f : Result.t -> Result.t) (w : EmberApp.World TestPage)
  : EmberApp.World TestPage :=
  {| EmberApp.this := EmberApp.this w; EmberApp.didDestroy := EmberApp.didDestroy w;
     EmberApp.result := f (EmberApp.result w); EmberApp.page := EmberApp.page w |}.

(** The scripts of the boot of an instance, given the texts of its
    files and of the bundle. *)
Definition boot_sequence (app : EmberApp.t) (texts : list jsstring)
    (bundleText : jsstring) : list Script :=
  [ AssignGlobals (EmberApp.sandboxGlobals app);
    InitializeAppEnvironment (EmberApp.appName app) (EmberApp.config app) ]
  ++ map Source (texts ++ [bundleText]).

(** Every file can be read, and [texts] are their contents in order. *)
Definition readable `{Runtime} (paths texts : list jsstring) : Prop :=
  Forall2 (fun filePath text => readFileSync filePath = inr text) paths texts.

(* ================================================================== *)
(** * The options of the coordinator *)
(* ================================================================== *)

(** [Boolean(v)]. *)
Definition truthy_value (v : Value) : bool :=
  match v with
  | VUndefined | VNull => false
  | VBool b => b
  | VNumber n => negb (n =? 0)%Z
  | VString s => truthy s
  | VArray _ | VObject _ => true
  end.

(** [typeof v]. *)
Definition typeof (v : Value) : jsstring :=
  match v with
  | VUndefined => lit "undefined"
  | VBool _ => lit "boolean"
  | VNumber _ => lit "number"
  | VString _ => lit "string"
  | VNull | VArray _ | VObject _ => lit "object"
  end.

(** [isNil] of [src/utils.js]. *)
Definition isNil (object : Value) : bool :=
  let type := typeof object in
  bool_decide (type = lit "undefined") || bool_decide (type = lit "NaN")
  || match object with VNull => true | _ => false end.

(** The methods of [PowerBoot] that set its options, [_setOptions] and
    [_setOption], and its constructor. An options object is the finite
    map of its own properties; the configuration [this.config] is one
    too. The listeners the constructor registers on the process are left
    out. *)
Module Settings.
Record t := {
  config : gmap jsstring Value;
  _appConfig : option AppConfig
}.

Definition set_config (c : gmap jsstring Value) (s : t) : t :=
  {| config := c; _appConfig := _appConfig s |}.

Definition set_appConfig (a : AppConfig) (s : t) : t :=
  {| config := config s; _appConfig := Some a |}.

(** [_setOption(options, key, _default)] on [this.config]; [_default]
    is [None] for a call with two arguments. *)
Definition _setOption (options : gmap jsstring Value) (key : jsstring)
    (_default : option Value) (config : gmap jsstring Value)
  : JSError + gmap jsstring Value :=
  let by_default :=
    match _default with
    | Some d =>
        let current := default VUndefined (config !! key) in
        <[key := if truthy_value current then current else d]> config
    | None => config
    end in
  match options !! key with
  | Some value =>
      if truthy_value value then inr (<[key := value]> config)
      else match _default with
           | Some _ => inr by_default
           | None => inl (Error (lit "The option `" ++ key
                                   ++ lit "` was provided is null or undefined."))
           end
  | None => inr by_default
  end.

Definition setOption (options : gmap jsstring Value) (key : jsstring)
    (_default : Value) : M t unit :=
  fun s =>
    match _setOption options key (Some _default) (config s) with
    | inl e => (inl e, s)
    | inr c => (inr tt, set_config c s)
    end.

Definition distPath_message : jsstring :=
  lit "You must provide PowerBoot with a distPath option that contains a path to a dist directory produced by running ember fastboot:build in your Ember app:"
    ++ [10%N; 10%N] ++ lit "new PowerBoot({" ++ [10%N]
    ++ lit "  distPath: 'path/to/dist'" ++ [10%N] ++ lit "});".

Section WithManifest.
(** [readPackageJSON(distPath)] of [src/utils.js], which reads the
    manifest of the built application from the disk. *)
Variable readPackageJSON : Value -> JSError + AppConfig.

(** [_setOptions(options)]; [None] is an argument that is [null]. The
    copy of [this.config] the method starts with holds what the
    configuration held. *)
Definition _setOptions (options : option (gmap jsstring Value)) : M t unit :=
  match options with
  | None => throw (Error (lit "An `options` object was expected but not found."))
  | Some options =>
      match options !! lit "distPath" with
      | Some distPath =>
          if isNil distPath then throw (Error distPath_message)
          else
            modify (fun s => set_config (<[lit "distPath" := distPath]> (config s)) s) ;;
            match readPackageJSON distPath with
            | inl e => throw e
            | inr appConfig => modify (set_appConfig appConfig)
            end
      | None => ret tt
      end ;;
      setOption options (lit "browser") VNull ;;
      setOption options (lit "sandboxGlobals") (VObject []) ;;
      setOption options (lit "resilient") (VBool false) ;;
      setOption options (lit "disableShoebox") (VBool false) ;;
      setOption options (lit "puppeteer") (VObject [])
  end.

(** [new PowerBoot(options)], for an options object or, with [None],
    for no argument: what it leaves in [this.config] and
    [this._appConfig]. The other properties it sets are constants: no
    instance, not working, no instance to destroy. *)
Definition new (options : option (gmap jsstring Value)) : JSError + t :=
  let options := default ∅ options in
  let distPath := default VUndefined (options !! lit "distPath") in
  let options :=
    <[lit "distPath" := if truthy_value distPath then distPath else VNull]> options in
  match _setOptions (Some options) {| config := ∅; _appConfig := None |} with
  | (inl e, _) => inl e
  | (inr _, s) => inr s
  end.
End WithManifest.
End Settings.

(** [reload(options)] of [PowerBoot], given what [_setOptions(options)]
    does to the coordinator. *)
Definition reload {P : Type} (_setOptions : M (PowerBoot.t P) unit)
  : M (PowerBoot.t P) unit :=
  _setOptions ;;
  modify (PowerBoot.set_shouldDestroyInstance true) ;;
  instance <- gets PowerBoot._instance ;;
  match instance with
  | None => ret tt
  | Some _ =>
      working <- gets PowerBoot._isWorking ;;
      if working : bool
      then modify (PowerBoot.set_shouldDestroyInstance true)
      else modify PowerBoot._releaseInstance
  end.

(** [_setOptions] assigns [this.config] and [this._appConfig] only. *)
Definition sets_options_only {P : Type} (_setOptions : M (PowerBoot.t P) unit) : Prop :=
  forall pb,
    PowerBoot._instance (snd (_setOptions pb)) = PowerBoot._instance pb /\
    PowerBoot.isWorking (snd (_setOptions pb)) = PowerBoot.isWorking pb /\
    PowerBoot._isWorking (snd (_setOptions pb)) = PowerBoot._isWorking pb /\
    PowerBoot._shouldDestroyInstance (snd (_setOptions pb))
      = PowerBoot._shouldDestroyInstance pb.

(* ================================================================== *)
(** * Further fixtures *)
(* ================================================================== *)

(** A document without a head, and one that ends with its head. *)
Definition headless_result : Result.t :=
  Result.set_contents (Some (lit "<p>no head</p>")) None None (Result.new None).

Definition bare_head_result : Result.t :=
  Result.set_contents (Some (lit "<html><head></head>")) None None (Result.new None).

(** The objects of the first visit of the instance on a new page. *)
Definition test_world : EmberApp.World TestPage :=
  {| EmberApp.this := test_app; EmberApp.didDestroy := false;
     EmberApp.result := Result.new None; EmberApp.page := fresh_page test_behaviour |}.

(** The render info of a visit without request and response. *)
Definition plain_info : FastBootInfo.t :=
  {| FastBootInfo._options := {| opt_hostWhitelist := None; opt_metadata := VUndefined |};
     FastBootInfo.request := None;
     FastBootInfo.response := Some (FastBootResponse.new empty_response);
     FastBootInfo.metadata := VUndefined;
     FastBootInfo.shoebox := None |}.

(** A visit for a request that has neither headers nor cookies. *)
Definition headerless_options : VisitOptions :=
  {| o_request := Some empty_request; o_response := None; o_html := None;
     o_disableShoebox := false; o_destroyAppInstanceInMs := None;
     o_shouldRender := None; o_metadata := VUndefined; o_resilient := None |}.

(** A runtime whose app file is missing. *)
Definition missing_file : JSError :=
  Error (lit "ENOENT: no such file or directory, open 'app.js'").

Definition broken_runtime : Runtime := {|
  JSON_stringify := fun _ => lit "null";
  RegExp_new := fun source => inr (includes source);
  cookie_parse := fun _ => [];
  readFileSync := fun path =>
    if bool_decide (path = lit "app.js") then inl missing_file
    else inr (lit "// " ++ path);
  bundle := inr (lit "class FastBootInfo {}");
  EXPERIMENTAL_RENDER_MODE_SERIALIZE := false
|}.

(** A browser that opens pages of the test application, and the first
    visit of the coordinator through it. *)
Definition test_browser : JSError + TestPage := inr (fresh_page test_behaviour).

Definition coordinator_visit : Settled Result.t * PowerBoot.t TestPage :=
  @PowerBoot.visit TestPage _ test_runtime test_browser (lit "/") plain_options false
    test_coordinator.

Definition coordinator_result : Result.t :=
  match fst coordinator_visit with
  | Fulfilled result => result
  | _ => Result.new None
  end.

(** The visit of a coordinator that was reloaded before it had an
    instance. *)
Definition reloaded_visit : Settled Result.t * PowerBoot.t TestPage :=
  @PowerBoot.visit TestPage _ test_runtime test_browser (lit "/") plain_options false
    (PowerBoot.set_shouldDestroyInstance true test_coordinator).

Definition reloaded_result : Result.t :=
  match fst reloaded_visit with
  | Fulfilled result => result
  | _ => Result.new None
  end.

(** A configuration that is resilient, and options that ask for the
    contrary. *)
Definition resilient_settings : Settings.t :=
  {| Settings.config := {[ lit "resilient" := VBool true ]};
     Settings._appConfig := None |}.

Definition unresilient_options : gmap jsstring Value :=
  {[ lit "resilient" := VBool false ]}.

Definition test_manifest (distPath : Value) : JSError + AppConfig := inr test_config.

(** The objects of a visit whose page has been closed. *)
Definition closed_world : EmberApp.World TestPage :=
  {| EmberApp.this := test_app; EmberApp.didDestroy := false;
     EmberApp.result := Result.new None;
     EmberApp.page := TestPage_close (fresh_page test_behaviour) |}.

(* ================================================================== *)
(** * Facts about strings *)
(* ================================================================== *)

Lemma starts_with_spec p s :
  starts_with p s = true <-> exists t, s = p ++ t.
Proof.
  revert s; induction p as [|a p IH]; intros s; simpl.
  - split; [intros _; exists s; reflexivity | reflexivity].
  - destruct s as [|b s].
    + split; [discriminate | intros [t Ht]; discriminate].
    + rewrite andb_true_iff, N.eqb_eq, IH. split.
      * intros [-> [t ->]]. exists t. reflexivity.
      * intros [t Ht]. injection Ht as -> ->. split; [reflexivity | exists t; reflexivity].
Qed.

Lemma starts_with_app p t : starts_with p (p ++ t) = true.
Proof. apply starts_with_spec. exists t. reflexivity. Qed.

Lemma includes_spec p s :
  includes p s = true <-> exists u t, s = u ++ p ++ t.
Proof.
  induction s as [|c s IH].
  - simpl. rewrite orb_false_r, starts_with_spec. split.
    + intros [t Ht]. exists [], t. exact Ht.
    + intros (u & t & Ht). destruct u; [exists t; exact Ht|discriminate].
  - cbn [includes]. rewrite orb_true_iff, starts_with_spec, IH. split.
    + intros [[t Ht] | (u & t & Ht)].
      * exists [], t. exact Ht.
      * exists (c :: u), t. rewrite Ht. reflexivity.
    + intros (u & t & Ht). destruct u as [|d u].
      * left. exists t. exact Ht.
      * right. injection Ht as _ Ht. exists u, t. exact Ht.
Qed.

(** Gluing the pieces of a split back together with the separator in
    front of every piece but the first gives the string back. The
    statement covers a scan that resumes behind an occurrence. *)
Lemma split_scan_glue sep s : forall skip,
  sep <> [] ->
  skip <= length s ->
  fst (split_scan sep skip s)
    ++ concat (map (app sep) (snd (split_scan sep skip s)))
  = drop skip s.
Proof.
  induction s as [|c s IH]; intros skip Hsep Hle.
  - simpl in *. destruct skip; reflexivity.
  - destruct skip as [|k].
    + cbn [split_scan drop].
      destruct (starts_with sep (c :: s)) eqn:Hsw.
      * apply starts_with_spec in Hsw. destruct Hsw as [t Ht].
        destruct sep as [|a sep'].
        -- congruence.
        -- injection Ht as <- ->.
           cbn [length]. replace (S (length sep') - 1) with (length sep') by lia.
           specialize (IH (length sep') Hsep ltac:(rewrite length_app; lia)).
           destruct (split_scan (c :: sep') (length sep') (sep' ++ t)) as [p ps].
           cbn [fst snd map concat] in *.
           rewrite app_nil_l, <- app_assoc, IH, drop_app_length. reflexivity.
      * specialize (IH 0 Hsep ltac:(lia)).
        destruct (split_scan sep 0 s) as [p ps]. cbn [fst snd] in *.
        rewrite drop_0 in IH. rewrite <- app_comm_cons, IH. reflexivity.
    + cbn [split_scan drop]. apply IH; [exact Hsep | simpl in Hle; lia].
Qed.

Lemma split_glue sep s p ps :
  sep <> [] ->
  split sep s = p :: ps ->
  p ++ concat (map (app sep) ps) = s.
Proof.
  intros Hsep Hsplit. destruct sep as [|a sep']; [congruence|].
  unfold split in Hsplit.
  pose proof (split_scan_glue (a :: sep') s 0 Hsep ltac:(lia)) as Hglue.
  destruct (split_scan (a :: sep') 0 s) as [q qs].
  injection Hsplit as <- <-. rewrite drop_0 in Hglue. exact Hglue.
Qed.

(* ================================================================== *)
(** * Chunks of the cached document *)
(* ================================================================== *)

Lemma match_HTML_HEAD_REGEX_glue s head body :
  Result.match_HTML_HEAD_REGEX s = Some (head, body) -> head ++ body = s.
Proof.
  revert head body. induction s as [|c s IH]; intros head body Hm; [discriminate|].
  cbn [Result.match_HTML_HEAD_REGEX] in Hm.
  destruct (Result.match_HTML_HEAD_REGEX s) as [[h b]|].
  - injection Hm as <- <-. cbn. f_equal. apply IH. reflexivity.
  - destruct (starts_with (lit "</head>") (c :: s)) eqn:Hsw; [|discriminate].
    apply starts_with_spec in Hsw. destruct Hsw as [t Ht].
    injection Hm as <- <-. cbn in Ht. injection Ht as -> ->. reflexivity.
Qed.

Lemma SHOEBOX_TAG_PATTERN_nonempty : SHOEBOX_TAG_PATTERN <> [].
Proof. discriminate. Qed.

(** The regular expression finds a head exactly in the documents that
    contain [</head>]. *)
Lemma match_HTML_HEAD_REGEX_None s :
  Result.match_HTML_HEAD_REGEX s = None <-> includes (lit "</head>") s = false.
Proof.
  induction s as [|c s IH].
  - split; reflexivity.
  - cbn [Result.match_HTML_HEAD_REGEX includes].
    destruct (Result.match_HTML_HEAD_REGEX s) as [[h b]|].
    + split; [discriminate|]. intros Hf. apply orb_false_elim in Hf.
      destruct Hf as [_ Hf]. apply IH in Hf. discriminate.
    + destruct (starts_with (lit "</head>") (c :: s)); cbn [orb].
      * split; discriminate.
      * rewrite <- IH. split; reflexivity.
Qed.

(** C2. For every cached document, the strings [chunks()] returns,
    concatenated in order, are the cached document: whether the document
    has no head (one chunk), a head and no shoebox tag (two chunks) or a
    head and any number of shoebox tags (one more chunk per tag). *)
Theorem chunks_concat (r r' : Result.t) (html : jsstring) (cs : list jsstring) :
  Result._html r = Some html ->
  Result.chunks r = (inr cs, r') ->
  concat cs = html.
Proof.
  intros Hhtml. unfold Result.chunks, bind, gets. rewrite Hhtml.
  destruct (Result.match_HTML_HEAD_REGEX html) as [[head body]|] eqn:Hm.
  - apply match_HTML_HEAD_REGEX_glue in Hm.
    destruct (negb (truthy head) || negb (truthy body)); [discriminate|].
    destruct (split SHOEBOX_TAG_PATTERN body) as [|plainBody shoeboxes] eqn:Hsplit.
    + unfold split in Hsplit. cbn in Hsplit.
      destruct (split_scan _ 0 body); discriminate.
    + apply split_glue in Hsplit; [|exact SHOEBOX_TAG_PATTERN_nonempty].
      intros [= <- _].
      change (head ++ plainBody ++ concat (map (app SHOEBOX_TAG_PATTERN) shoeboxes) = html).
      rewrite Hsplit. exact Hm.
  - intros [= <- _]. cbn. apply app_nil_r.
Qed.

(** [chunks()] reads the cache and leaves the result as it is. *)
Lemma chunks_pure (r : Result.t) : snd (Result.chunks r) = r.
Proof.
  unfold Result.chunks, bind, gets. destruct (Result._html r) as [html|]; [|reflexivity].
  destruct (Result.match_HTML_HEAD_REGEX html) as [[head body]|]; [|reflexivity].
  destruct (negb (truthy head) || negb (truthy body)); [reflexivity|].
  destruct (split SHOEBOX_TAG_PATTERN body); reflexivity.
Qed.

(** It fails only for a document with nothing behind its last [</head>],
    and returns chunks for every other one. *)
Lemma chunks_returns (r : Result.t) (html : jsstring) :
  Result._html r = Some html ->
  (forall head, Result.match_HTML_HEAD_REGEX html <> Some (head, [])) ->
  exists cs, Result.chunks r = (inr cs, r).
Proof.
  intros Hhtml Hbody. unfold Result.chunks, bind, gets. rewrite Hhtml.
  destruct (Result.match_HTML_HEAD_REGEX html) as [[head body]|] eqn:Hm.
  - assert (truthy head = true) as ->.
    { destruct head; [|reflexivity]. exfalso.
      clear Hbody Hhtml. revert body Hm. induction html as [|c s IH]; intros body Hm; [discriminate|].
      cbn [Result.match_HTML_HEAD_REGEX] in Hm.
      destruct (Result.match_HTML_HEAD_REGEX s) as [[h b]|]; [discriminate|].
      destruct (starts_with _ _); discriminate. }
    assert (truthy body = true) as ->.
    { destruct body; [|reflexivity]. exfalso. apply (Hbody head). reflexivity. }
    cbn [negb orb].
    destruct (split SHOEBOX_TAG_PATTERN body); eexists; reflexivity.
  - eexists; reflexivity.
Qed.

(* ================================================================== *)
(** * The overrides of [html()] *)
(* ================================================================== *)

Section HtmlOverrides.
Variable r : Result.t.
Variable info : FastBootInfo.t.
Variable response : FastBootResponse.t.
Hypothesis Hinfo : Result._fastbootInfo r = Some info.
Hypothesis Hresponse : FastBootInfo.response info = Some response.

Let statusCode := FastBootResponse.statusCode response.
Let location := FastBootHeaders.get (lit "location") (FastBootResponse.headers response).

Lemma html_204 :
  statusCode = 204%Z ->
  Result.html r = (inr (Some []), Result.set_contents (Some []) (Some []) (Some []) r).
Proof using Hinfo Hresponse.
  unfold statusCode. intros Hcode.
  unfold Result.html, bind, gets. rewrite Hinfo, Hresponse.
  cbn [fmap option_fmap option_map]. rewrite Hcode. reflexivity.
Qed.

Lemma html_3xx :
  (300 <= statusCode <= 399)%Z ->
  Result.html r =
    match location with
    | Some l => if truthy l
                then (inr (Some (Result.redirect_document l)),
                      Result.set_contents (Some (Result.redirect_document l)) (Some []) (Some []) r)
                else (inr (Some Result.placeholder_document),
                      Result.set_contents (Some Result.placeholder_document) (Some []) (Some []) r)
    | None => (inr (Some Result.placeholder_document),
               Result.set_contents (Some Result.placeholder_document) (Some []) (Some []) r)
    end.
Proof using Hinfo Hresponse.
  unfold statusCode, location. intros [Hlo Hhi].
  unfold Result.html, bind, gets. rewrite Hinfo, Hresponse.
  cbn [fmap option_fmap option_map].
  destruct (Z.eqb_spec (FastBootResponse.statusCode response) 204) as [E|_]; [lia|].
  destruct (Z.leb_spec 300 (FastBootResponse.statusCode response)); [|lia].
  destruct (Z.leb_spec (FastBootResponse.statusCode response) 399); [|lia].
  cbv beta iota.
  destruct (FastBootHeaders.get _ _) as [l|]; [|reflexivity].
  destruct (truthy l); reflexivity.
Qed.

Lemma html_other :
  statusCode <> 204%Z -> ~ (300 <= statusCode <= 399)%Z ->
  Result.html r = (inr (Result._html r), r).
Proof using Hinfo Hresponse.
  unfold statusCode. intros H204 H3xx.
  unfold Result.html, bind, gets. rewrite Hinfo, Hresponse.
  cbn [fmap option_fmap option_map].
  destruct (Z.eqb_spec (FastBootResponse.statusCode response) 204) as [E|_];
    [contradiction|].
  destruct (Z.leb_spec 300 (FastBootResponse.statusCode response));
    destruct (Z.leb_spec (FastBootResponse.statusCode response) 399);
    try reflexivity. exfalso. apply H3xx. lia.
Qed.

End HtmlOverrides.

(** C3 (as stated) fails: a [location] header that is present with the
    empty string for its value does not give the redirect anchor; [html()]
    tests the truth value of the header, and the empty string is falsy. *)
Lemma html_empty_location_counterexample :
  FastBootResponse.statusCode (response_with 307 (Some [])) = 307%Z /\
  FastBootHeaders.get (lit "location")
    (FastBootResponse.headers (response_with 307 (Some []))) = Some [] /\
  fst (Result.html (result_with 307 (Some []))) = inr (Some Result.placeholder_document) /\
  fst (Result.html (result_with 307 (Some []))) <> inr (Some (Result.redirect_document [])).
Proof.
  split; [reflexivity|]. split; [vm_compute; reflexivity|].
  split; [vm_compute; reflexivity|]. vm_compute. discriminate.
Qed.

(** C3 (as amended). [html()] applies overrides driven by the status
    code of the response: for 204 it returns the empty string and all
    three cached strings become empty; for a code from 300 to 399 it
    returns a minimal document whose body is the "Redirecting to" anchor
    when the [location] header has a non-empty value, and the boundary
    comment placeholder when the header is absent or empty; for any other
    code it returns the harvested markup unmodified. *)
Theorem html_status_overrides (r : Result.t) (info : FastBootInfo.t)
    (response : FastBootResponse.t) :
  Result._fastbootInfo r = Some info ->
  FastBootInfo.response info = Some response ->
  (FastBootResponse.statusCode response = 204%Z ->
     fst (Result.html r) = inr (Some []) /\
     Result._html (snd (Result.html r)) = Some [] /\
     Result._head (snd (Result.html r)) = Some [] /\
     Result._body (snd (Result.html r)) = Some [])
  /\
  ((300 <= FastBootResponse.statusCode response <= 399)%Z ->
     (forall l,
        FastBootHeaders.get (lit "location") (FastBootResponse.headers response) = Some l ->
        l <> [] ->
        fst (Result.html r) = inr (Some (Result.redirect_document l)))
     /\
     (FastBootHeaders.get (lit "location") (FastBootResponse.headers response) = None \/
      FastBootHeaders.get (lit "location") (FastBootResponse.headers response) = Some [] ->
      fst (Result.html r) = inr (Some Result.placeholder_document)))
  /\
  (FastBootResponse.statusCode response <> 204%Z ->
   ~ (300 <= FastBootResponse.statusCode response <= 399)%Z ->
   Result.html r = (inr (Result._html r), r)).
Proof.
  intros Hinfo Hresponse. split; [|split].
  - intros Hcode. rewrite (html_204 r info response Hinfo Hresponse Hcode).
    repeat split.
  - intros Hcode. rewrite (html_3xx r info response Hinfo Hresponse Hcode). split.
    + intros l -> Hl. destruct l; [contradiction|]. reflexivity.
    + intros [-> | ->]; reflexivity.
  - apply (html_other r info response Hinfo Hresponse).
Qed.

Lemma html_status_overrides_witness :
  Result._fastbootInfo (result_with 307 (Some (lit "http://x/y")))
    = Some (info_with (response_with 307 (Some (lit "http://x/y")))) /\
  FastBootInfo.response (info_with (response_with 307 (Some (lit "http://x/y"))))
    = Some (response_with 307 (Some (lit "http://x/y"))) /\
  fst (Result.html (result_with 307 (Some (lit "http://x/y"))))
    = inr (Some (lit "<html><head></head><body><h1>Redirecting to <a href="
                 ++ dq ++ lit "http://x/y" ++ dq
                 ++ lit ">http://x/y</a></h1></body></html>")).
Proof.
  split; [reflexivity|]. split; [reflexivity|].
  destruct (html_status_overrides
              (result_with 307 (Some (lit "http://x/y")))
              (info_with (response_with 307 (Some (lit "http://x/y"))))
              (response_with 307 (Some (lit "http://x/y")))
              eq_refl eq_refl) as (_ & H3xx & _).
  destruct (H3xx ltac:(vm_compute; split; discriminate)) as [Hredirect _].
  rewrite (Hredirect (lit "http://x/y") ltac:(vm_compute; reflexivity) ltac:(discriminate)).
  vm_compute. reflexivity.
Defined.

(** C10. [html()] called with a status code of 204 or from 300 to 399
    overwrites the cached head and body, so [domContents()] afterwards
    returns the pair of empty strings and no longer what was harvested;
    with any other status code it leaves the cached head and body as
    they were. *)
Theorem html_overwrites_domContents (r : Result.t) (info : FastBootInfo.t)
    (response : FastBootResponse.t) :
  Result._fastbootInfo r = Some info ->
  FastBootInfo.response info = Some response ->
  (FastBootResponse.statusCode response = 204%Z \/
   (300 <= FastBootResponse.statusCode response <= 399)%Z ->
   Result.domContents (snd (Result.html r)) = (Some [], Some []))
  /\
  (FastBootResponse.statusCode response <> 204%Z ->
   ~ (300 <= FastBootResponse.statusCode response <= 399)%Z ->
   Result.domContents (snd (Result.html r)) = Result.domContents r).
Proof.
  intros Hinfo Hresponse. split.
  - intros [Hcode | Hcode].
    + rewrite (html_204 r info response Hinfo Hresponse Hcode). reflexivity.
    + rewrite (html_3xx r info response Hinfo Hresponse Hcode).
      destruct (FastBootHeaders.get _ _) as [l|]; [destruct (truthy l)|]; reflexivity.
  - intros H204 H3xx.
    rewrite (html_other r info response Hinfo Hresponse H204 H3xx). reflexivity.
Qed.

Lemma html_overwrites_domContents_witness :
  Result._fastbootInfo (result_with 204 None) = Some (info_with (response_with 204 None)) /\
  FastBootInfo.response (info_with (response_with 204 None)) = Some (response_with 204 None) /\
  Result.domContents (result_with 204 None)
    = (Some (lit "<title>t</title>"), Some (lit "<h1>A normal response document</h1>")) /\
  Result.domContents (snd (Result.html (result_with 204 None))) = (Some [], Some []).
Proof.
  split; [reflexivity|]. split; [reflexivity|]. split; [reflexivity|].
  apply (html_overwrites_domContents (result_with 204 None)
           (info_with (response_with 204 None)) (response_with 204 None)
           eq_refl eq_refl).
  left. reflexivity.
Defined.

Lemma chunks_concat_witness :
  Result.chunks shoebox_result =
    (inr [ lit "<html><head><title>t</title></head>";
           lit "<body><h1>x</h1>";
           shoebox_script (lit "a") (lit "1");
           shoebox_script (lit "b") (lit "2") ++ lit "</body></html>" ],
     shoebox_result) /\
  concat [ lit "<html><head><title>t</title></head>";
           lit "<body><h1>x</h1>";
           shoebox_script (lit "a") (lit "1");
           shoebox_script (lit "b") (lit "2") ++ lit "</body></html>" ]
    = lit "<html><head><title>t</title></head><body><h1>x</h1>"
        ++ shoebox_script (lit "a") (lit "1")
        ++ shoebox_script (lit "b") (lit "2")
        ++ lit "</body></html>".
Proof.
  split; [vm_compute; reflexivity|].
  apply (chunks_concat shoebox_result shoebox_result); vm_compute; reflexivity.
Defined.

(* ================================================================== *)
(** * The host whitelist *)
(* ================================================================== *)

Lemma slash_delimited_spec entry :
  FastBootRequest.slash_delimited entry = true <-> exists source, delimited entry source.
Proof.
  unfold FastBootRequest.slash_delimited. destruct entry as [|c rest].
  - split; [discriminate | intros [source Hd]; inversion Hd].
  - rewrite andb_true_iff, N.eqb_eq. split.
    + intros [-> Hlast]. destruct (last (47%N :: rest)) as [d|] eqn:Hl; [|discriminate].
      apply N.eqb_eq in Hlast. subst d.
      destruct rest as [|x rest _] using rev_ind; [exists []; constructor|].
      exists rest. rewrite app_comm_cons, last_snoc in Hl.
      injection Hl as ->. constructor.
    + intros [source Hd]. inversion Hd; subst.
      * split; [reflexivity|]. rewrite app_comm_cons, last_snoc. reflexivity.
      * split; reflexivity.
Qed.

Lemma slice_1_m1_delimited entry source :
  delimited entry source -> FastBootRequest.slice_1_m1 entry = source.
Proof.
  intros Hd. destruct Hd as [source|]; [|reflexivity].
  unfold FastBootRequest.slice_1_m1. cbn [length drop].
  rewrite length_app. cbn [length].
  replace (S (length source + 1) - 2) with (length source) by lia.
  apply take_app_length.
Qed.

Lemma tested_default (header : option jsstring) :
  default (lit "null") header = tested header.
Proof. destruct header; reflexivity. Qed.

Lemma entry_matches_admits `{Runtime} (entry : jsstring) (header : option jsstring) :
  entry_admits entry header -> FastBootRequest.entry_matches header entry = inr true.
Proof.
  unfold FastBootRequest.entry_matches.
  intros [(source & regexp & Hd & Hnew & Htest) | [Hnot ->]].
  - rewrite (proj2 (slash_delimited_spec entry) (ex_intro _ source Hd)).
    rewrite (slice_1_m1_delimited _ _ Hd), Hnew, tested_default, Htest. reflexivity.
  - destruct (FastBootRequest.slash_delimited entry) eqn:Hs.
    + apply slash_delimited_spec in Hs. destruct Hs as [source Hd].
      destruct (Hnot source Hd).
    + rewrite bool_decide_eq_true_2 by reflexivity. reflexivity.
Qed.

Lemma entry_matches_refuses `{Runtime} (entry : jsstring) (header : option jsstring) :
  entry_refuses entry header -> FastBootRequest.entry_matches header entry = inr false.
Proof.
  unfold FastBootRequest.entry_matches.
  intros [(source & regexp & Hd & Hnew & Htest) | [Hnot Hne]].
  - rewrite (proj2 (slash_delimited_spec entry) (ex_intro _ source Hd)).
    rewrite (slice_1_m1_delimited _ _ Hd), Hnew, tested_default, Htest. reflexivity.
  - destruct (FastBootRequest.slash_delimited entry) eqn:Hs.
    + apply slash_delimited_spec in Hs. destruct Hs as [source Hd].
      destruct (Hnot source Hd).
    + destruct header as [h|]; [|reflexivity].
      rewrite bool_decide_eq_false_2; [reflexivity|]. intros ->. apply Hne. reflexivity.
Qed.

Lemma entry_matches_invalid `{Runtime} (entry : jsstring) (header : option jsstring)
    (e : JSError) :
  entry_invalid entry e -> FastBootRequest.entry_matches header entry = inl e.
Proof.
  unfold FastBootRequest.entry_matches. intros (source & Hd & Hnew).
  rewrite (proj2 (slash_delimited_spec entry) (ex_intro _ source Hd)).
  rewrite (slice_1_m1_delimited _ _ Hd), Hnew. reflexivity.
Qed.

(** Every entry admits the header, refuses it, or is invalid. *)
Lemma entry_cases `{Runtime} (entry : jsstring) (header : option jsstring) :
  entry_admits entry header \/ entry_refuses entry header \/
  exists e, entry_invalid entry e.
Proof.
  destruct (FastBootRequest.slash_delimited entry) eqn:Hs.
  - apply slash_delimited_spec in Hs. destruct Hs as [source Hd].
    destruct (RegExp_new source) as [e|regexp] eqn:Hnew.
    + right. right. exists e, source. split; assumption.
    + destruct (regexp (tested header)) eqn:Htest.
      * left. left. exists source, regexp. repeat split; assumption.
      * right. left. left. exists source, regexp. repeat split; assumption.
  - assert (forall source, ~ delimited entry source) as Hnot.
    { intros source Hd.
      rewrite (proj2 (slash_delimited_spec entry) (ex_intro _ source Hd)) in Hs.
      discriminate. }
    destruct (decide (header = Some entry)) as [E|E].
    + left. right. split; assumption.
    + right. left. right. split; assumption.
Qed.

Lemma some_refused `{Runtime} (header : option jsstring) (before rest : list jsstring) :
  Forall (fun earlier => entry_refuses earlier header) before ->
  FastBootRequest.some (FastBootRequest.entry_matches header) (before ++ rest)
    = FastBootRequest.some (FastBootRequest.entry_matches header) rest.
Proof.
  induction 1 as [|earlier before Hr _ IH]; [reflexivity|].
  cbn [List.app FastBootRequest.some]. rewrite (entry_matches_refuses _ _ Hr). exact IH.
Qed.

(** C5. The host accessor fails when no whitelist is configured,
    whatever the headers. With a whitelist the entries are tried in
    order, a slash-delimited entry by the test of the regular expression
    between its slashes and any other by exact string equality, against
    the value of the Host header ([null] without one, tested as its
    text): the accessor returns the value of the Host header at the
    first entry that admits it, throws the error of the regular
    expression constructor at an entry whose source is no regular
    expression, when that entry is reached before any that admits, and
    fails with the validation error when every entry refuses. These are
    all the cases. *)
Theorem host_whitelist `{Runtime} (this : FastBootRequest.t) :
  let header := FastBootHeaders.get (lit "host") (FastBootRequest.headers this) in
  (FastBootRequest.hostWhitelist this = None ->
   FastBootRequest.host this
     = inl (Error (lit "You must provide a hostWhitelist to retrieve the host")))
  /\
  (forall whitelist,
     FastBootRequest.hostWhitelist this = Some whitelist ->
     (forall entry,
        reached whitelist entry header -> entry_admits entry header ->
        FastBootRequest.host this = inr header)
     /\
     (forall entry e,
        reached whitelist entry header -> entry_invalid entry e ->
        FastBootRequest.host this = inl e)
     /\
     (Forall (fun entry => entry_refuses entry header) whitelist ->
      FastBootRequest.host this
        = inl (Error (lit "The host header did not match a hostWhitelist entry. Host header: "
                        ++ tested header)))
     /\
     ((exists entry,
         reached whitelist entry header /\
         (entry_admits entry header \/ exists e, entry_invalid entry e))
      \/ Forall (fun entry => entry_refuses entry header) whitelist)).
Proof.
  intros header. unfold FastBootRequest.host. fold header. split.
  - intros ->. reflexivity.
  - intros whitelist ->. repeat split.
    + intros entry (before & after & -> & Hbefore) Hadm.
      rewrite (some_refused _ _ _ Hbefore). cbn [FastBootRequest.some].
      rewrite (entry_matches_admits _ _ Hadm). reflexivity.
    + intros entry e (before & after & -> & Hbefore) Hinv.
      rewrite (some_refused _ _ _ Hbefore). cbn [FastBootRequest.some].
      rewrite (entry_matches_invalid _ _ _ Hinv). reflexivity.
    + intros Hall. rewrite <- (app_nil_r whitelist), (some_refused _ _ _ Hall).
      cbn [FastBootRequest.some negb]. rewrite tested_default. reflexivity.
    + clear. induction whitelist as [|entry rest IH].
      * right. constructor.
      * destruct (entry_cases entry header) as [Hadm | [Href | Hinv]].
        -- left. exists entry. split; [|left; exact Hadm].
           exists [], rest. split; [reflexivity | constructor].
        -- destruct IH as [(next & (before & after & -> & Hbefore) & Hnext) | Hall].
           ++ left. exists next. split; [|exact Hnext].
              exists (entry :: before), after. split; [reflexivity|].
              constructor; assumption.
           ++ right. constructor; assumption.
        -- left. exists entry. split; [|right; exact Hinv].
           exists [], rest. split; [reflexivity | constructor].
Qed.

(* ================================================================== *)
(** * The serialized render info *)
(* ================================================================== *)

Lemma from_tuple_serialize `{Runtime} (info : FastBootInfo.t) :
  exists info',
    FastBootInfo.from_tuple (FastBootInfo.serialize info) = inr info' /\
    (FastBootInfo.request info' = None <-> FastBootInfo.request info = None) /\
    FastBootInfo.response info' <> None /\
    FastBootInfo.metadata info' = FastBootInfo.metadata info /\
    FastBootInfo.shoebox info' = FastBootInfo.shoebox info.
Proof.
  unfold FastBootInfo.from_tuple, FastBootInfo.serialize. cbn [nth].
  cbn [FastBootInfo.options_arg]. unfold FastBootInfo.new.
  assert (Hshoebox : FastBootInfo.shoebox_arg
            match FastBootInfo.shoebox info with
            | Some s => SlotShoebox s
            | None => SlotUndefined
            end = FastBootInfo.shoebox info).
  { destruct (FastBootInfo.shoebox info); reflexivity. }
  rewrite Hshoebox.
  destruct (FastBootInfo.request info) as [req|]; cbn [FastBootInfo.request_arg].
  - unfold FastBootRequest.new, FastBootRequest.extractCookies. cbn.
    eexists. split; [reflexivity|]. cbn. repeat split; congruence.
  - eexists. split; [reflexivity|]. cbn. repeat split; congruence.
Qed.

(** C6 (as stated) fails: a render info constructed without a response
    does not serialize to an undefined second slot; the constructor puts
    an empty response, of status 200, in the place of an absent one. *)
Lemma serialize_absent_response_counterexample :
  exists info,
    @FastBootInfo.new test_runtime None None (Some empty_options) None = inr info /\
    nth 1 (FastBootInfo.serialize info) SlotUndefined
      = SlotResponse {| rs__headers := None;
                        rs_headers := Some (FastBootHeaders.new None);
                        rs_statusCode := Some 200%Z |} /\
    nth 1 (FastBootInfo.serialize info) SlotUndefined <> SlotUndefined.
Proof.
  eexists. split; [reflexivity|]. split; [reflexivity|]. discriminate.
Qed.

(** C6 (as amended). A render info serializes to an ordered tuple of
    four slots: the request data or undefined, the response data or
    undefined, the options with the host whitelist and the metadata, and
    the shoebox. The first slot is undefined exactly when the info has no
    request, the second exactly when its response property is unset,
    which the constructor never leaves so: an info constructed without
    a response holds an empty response of status 200 and serializes it
    into the second slot. Reconstructing from the tuple
    gives an info that serializes to four slots again, with the first
    slot undefined exactly when it was and the second slot defined. *)
Theorem serialize_four_slots `{Runtime} (info : FastBootInfo.t) :
  (exists s0 s1 s3,
     FastBootInfo.serialize info
       = [ s0; s1;
           SlotOptions
             {| opt_hostWhitelist :=
                  match FastBootInfo.request info with
                  | Some req => FastBootRequest.hostWhitelist req
                  | None => None
                  end;
                opt_metadata := FastBootInfo.metadata info |};
           s3 ] /\
     (is_undefined s0 <-> FastBootInfo.request info = None) /\
     (is_undefined s1 <-> FastBootInfo.response info = None) /\
     (is_undefined s3 <-> FastBootInfo.shoebox info = None))
  /\
  (forall request response options shoebox constructed,
     FastBootInfo.new request response (Some options) shoebox = inr constructed ->
     (is_undefined (nth 0 (FastBootInfo.serialize constructed) SlotUndefined)
        <-> request = None) /\
     ~ is_undefined (nth 1 (FastBootInfo.serialize constructed) SlotUndefined) /\
     (response = None ->
      nth 1 (FastBootInfo.serialize constructed) SlotUndefined
        = SlotResponse {| rs__headers := None;
                          rs_headers := Some (FastBootHeaders.new None);
                          rs_statusCode := Some 200%Z |}))
  /\
  (exists info',
     FastBootInfo.from_tuple (FastBootInfo.serialize info) = inr info' /\
     length (FastBootInfo.serialize info') = 4 /\
     (is_undefined (nth 0 (FastBootInfo.serialize info') SlotUndefined) <->
      is_undefined (nth 0 (FastBootInfo.serialize info) SlotUndefined)) /\
     ~ is_undefined (nth 1 (FastBootInfo.serialize info') SlotUndefined) /\
     (is_undefined (nth 3 (FastBootInfo.serialize info') SlotUndefined) <->
      is_undefined (nth 3 (FastBootInfo.serialize info) SlotUndefined))).
Proof.
  unfold is_undefined. split; [|split].
  - unfold FastBootInfo.serialize. do 3 eexists. split; [reflexivity|].
    destruct (FastBootInfo.request info), (FastBootInfo.response info),
      (FastBootInfo.shoebox info); repeat split; congruence.
  - intros request response options shoebox constructed Hnew.
    unfold FastBootInfo.new in Hnew.
    destruct request as [request|].
    + destruct (FastBootRequest.new request (opt_hostWhitelist options)); [discriminate|].
      injection Hnew as <-. cbn [FastBootInfo.serialize FastBootInfo.request
                                   FastBootInfo.response nth].
      split; [split; discriminate|]. split; [discriminate|]. intros ->. reflexivity.
    + injection Hnew as <-. cbn [FastBootInfo.serialize FastBootInfo.request
                                   FastBootInfo.response nth].
      split; [split; reflexivity|]. split; [discriminate|]. intros ->. reflexivity.
  - destruct (from_tuple_serialize info) as (info' & Htuple & Hreq & Hres & _ & Hbox).
    exists info'. split; [exact Htuple|]. split; [reflexivity|].
    unfold FastBootInfo.serialize. cbn [nth]. rewrite Hbox.
    destruct (FastBootInfo.request info'), (FastBootInfo.request info),
      (FastBootInfo.response info'), (FastBootInfo.shoebox info);
      repeat split; try congruence;
      try (destruct Hreq as [Hreq1 Hreq2]; try (specialize (Hreq1 eq_refl));
           try (specialize (Hreq2 eq_refl)); congruence).
Qed.

Lemma host_whitelist_witness :
  @FastBootRequest.host test_runtime
    (request_with (lit "app.example.com") (Some [lit "localhost"; lit "/example/"]))
    = inr (Some (lit "app.example.com")) /\
  @FastBootRequest.host test_runtime
    (request_with (lit "evil.com") (Some [lit "localhost"; lit "/example/"]))
    = inl (Error (lit "The host header did not match a hostWhitelist entry. Host header: evil.com")) /\
  @FastBootRequest.host test_runtime
    (request_with (lit "localhost") (Some [lit "/(/"; lit "localhost"]))
    = inl (SyntaxError (lit "Invalid regular expression: /(/: Unterminated group")) /\
  @FastBootRequest.host test_runtime (request_without_host (Some [lit "/nul/"]))
    = inr None.
Proof.
  split; [|split; [|split]].
  - destruct (@host_whitelist test_runtime
                (request_with (lit "app.example.com")
                   (Some [lit "localhost"; lit "/example/"]))) as [_ Hwl].
    destruct (Hwl [lit "localhost"; lit "/example/"] eq_refl) as [Hadmits _].
    apply (Hadmits (lit "/example/")).
    + exists [lit "localhost"], []. split; [reflexivity|].
      constructor; [|constructor]. right. split; [|discriminate].
      intros source Hd. inversion Hd.
    + left. exists (lit "example"), (includes (lit "example")).
      split; [exact (delimited_by (lit "example"))|].
      split; vm_compute; reflexivity.
  - destruct (@host_whitelist test_runtime
                (request_with (lit "evil.com")
                   (Some [lit "localhost"; lit "/example/"]))) as [_ Hwl].
    destruct (Hwl [lit "localhost"; lit "/example/"] eq_refl) as (_ & _ & Hrefuse & _).
    apply Hrefuse. constructor; [|constructor; [|constructor]].
    + right. split; [|discriminate]. intros source Hd. inversion Hd.
    + left. exists (lit "example"), (includes (lit "example")).
      split; [exact (delimited_by (lit "example"))|].
      split; vm_compute; reflexivity.
  - destruct (@host_whitelist test_runtime
                (request_with (lit "localhost")
                   (Some [lit "/(/"; lit "localhost"]))) as [_ Hwl].
    destruct (Hwl [lit "/(/"; lit "localhost"] eq_refl) as (_ & Hinvalid & _).
    apply (Hinvalid (lit "/(/")).
    + exists [], [lit "localhost"]. split; [reflexivity | constructor].
    + exists (lit "("). split; [exact (delimited_by (lit "("))|].
      vm_compute; reflexivity.
  - destruct (@host_whitelist test_runtime
                (request_without_host (Some [lit "/nul/"]))) as [_ Hwl].
    destruct (Hwl [lit "/nul/"] eq_refl) as [Hadmits _].
    apply (Hadmits (lit "/nul/")).
    + exists [], []. split; [reflexivity | constructor].
    + left. exists (lit "nul"), (includes (lit "nul")).
      split; [exact (delimited_by (lit "nul"))|].
      split; vm_compute; reflexivity.
Defined.

(** Host [localhost] is equal to an entry of the whitelist, and the
    accessor throws the error of the regular expression constructor,
    for the entry tried before it. *)
Lemma host_invalid_entry_counterexample :
  FastBootHeaders.get (lit "host")
    (FastBootRequest.headers
       (request_with (lit "localhost") (Some [lit "/(/"; lit "localhost"])))
    = Some (lit "localhost") /\
  FastBootRequest.hostWhitelist
    (request_with (lit "localhost") (Some [lit "/(/"; lit "localhost"]))
    = Some [lit "/(/"; lit "localhost"] /\
  In (lit "localhost") [lit "/(/"; lit "localhost"] /\
  @FastBootRequest.host test_runtime
    (request_with (lit "localhost") (Some [lit "/(/"; lit "localhost"]))
    = inl (SyntaxError (lit "Invalid regular expression: /(/: Unterminated group")) /\
  @FastBootRequest.host test_runtime
    (request_with (lit "localhost") (Some [lit "/(/"; lit "localhost"]))
    <> inr (Some (lit "localhost")).
Proof.
  split; [vm_compute; reflexivity|].
  split; [reflexivity|].
  split; [right; left; reflexivity|].
  split; [vm_compute; reflexivity|].
  vm_compute. discriminate.
Qed.

(* ================================================================== *)
(** * Tolerance of a closed page *)
(* ================================================================== *)

Lemma page_closed_message_spec (e : JSError) (msg : jsstring) :
  message e = Some msg ->
  page_closed_message msg = true <-> indicates_closed e.
Proof.
  intros Hmsg. unfold page_closed_message, indicates_closed.
  rewrite orb_true_iff, !includes_spec. split.
  - intros [(u & t & E) | (u & t & E)]; exists msg, u, t; auto.
  - intros (msg' & u & t & Hmsg' & E). rewrite Hmsg in Hmsg'. injection Hmsg' as <-.
    destruct E as [E | E]; [left | right]; exists u, t; exact E.
Qed.

Section TryWithPageAwareness.
Context {S A : Type}.
Variable callback : M S A.
Variable s s' : S.

Lemma tryWithPageAwareness_returns (a : A) :
  callback s = (inr a, s') ->
  tryWithPageAwareness callback s = (inr (Some a), s').
Proof. intros E. unfold tryWithPageAwareness, catch, bind, ret. rewrite E. reflexivity. Qed.

Lemma tryWithPageAwareness_swallows (e : JSError) :
  callback s = (inl e, s') ->
  indicates_closed e \/ ~ has_message e ->
  tryWithPageAwareness callback s = (inr None, s').
Proof.
  intros E Hsw. unfold tryWithPageAwareness, catch, bind, ret. rewrite E.
  destruct (message e) as [msg|] eqn:Hmsg; [|reflexivity].
  destruct Hsw as [Hclosed | Hnone].
  - apply (page_closed_message_spec e msg Hmsg) in Hclosed. rewrite Hclosed.
    rewrite andb_false_r. reflexivity.
  - destruct msg; [reflexivity|]. exfalso. apply Hnone. eexists. split; [exact Hmsg | discriminate].
Qed.

Lemma tryWithPageAwareness_throws (e : JSError) :
  callback s = (inl e, s') ->
  has_message e -> ~ indicates_closed e ->
  tryWithPageAwareness callback s = (inl e, s').
Proof.
  intros E (msg & Hmsg & Hne) Hopen. unfold tryWithPageAwareness, catch, bind, ret, throw.
  rewrite E, Hmsg.
  destruct (page_closed_message msg) eqn:Hc.
  - exfalso. apply Hopen. apply (page_closed_message_spec e msg Hmsg). exact Hc.
  - destruct msg; [contradiction|]. reflexivity.
Qed.

End TryWithPageAwareness.

(** C7 (as amended). [setContent] and [evaluate] do nothing and return
    undefined once the result is marked destroyed. Otherwise they return
    what the calls to the page return; an error of these calls is
    swallowed, the method returning undefined, when its message tells
    that the target or its session was closed and also when it has no
    message or an empty one; every other error propagates to the
    caller. *)
Theorem page_awareness {P : Type} `{Page P} (s : Result.t * P)
    (html : jsstring) (script : Script) :
  (Result._instanceDestroyed (fst s) = true ->
   Result.setContent html s = (inr tt, s) /\
   Result.evaluate script s = (inr None, s))
  /\
  (Result._instanceDestroyed (fst s) = false ->
   (forall s', (Result.on_page (page_setContent html) ;; Result._reflectContents) s = (inr tt, s') ->
      Result.setContent html s = (inr tt, s'))
   /\
   (forall v s',
      (evalResult <- Result.on_page (page_evaluate script) ;;
       Result._reflectContents ;; ret evalResult) s = (inr v, s') ->
      Result.evaluate script s = (inr v, s'))
   /\
   (forall e s',
      (Result.on_page (page_setContent html) ;; Result._reflectContents) s = (inl e, s') ->
      (indicates_closed e \/ ~ has_message e -> Result.setContent html s = (inr tt, s')) /\
      (has_message e -> ~ indicates_closed e -> Result.setContent html s = (inl e, s')))
   /\
   (forall e s',
      (evalResult <- Result.on_page (page_evaluate script) ;;
       Result._reflectContents ;; ret evalResult) s = (inl e, s') ->
      (indicates_closed e \/ ~ has_message e -> Result.evaluate script s = (inr None, s')) /\
      (has_message e -> ~ indicates_closed e -> Result.evaluate script s = (inl e, s')))).
Proof.
  split.
  - intros Hd. unfold Result.setContent, Result.evaluate, bind, gets.
    rewrite Hd. split; reflexivity.
  - intros Hd. repeat split.
    + intros s' E. unfold Result.setContent. unfold bind at 1, gets. rewrite Hd.
      unfold bind at 1. rewrite (tryWithPageAwareness_returns _ s s' tt E). reflexivity.
    + intros v s' E. unfold Result.evaluate. unfold bind at 1, gets. rewrite Hd.
      unfold bind at 1. rewrite (tryWithPageAwareness_returns _ s s' v E). reflexivity.
    + intros Hsw. unfold Result.setContent. unfold bind at 1, gets. rewrite Hd.
      unfold bind at 1. rewrite (tryWithPageAwareness_swallows _ s s' e H0 Hsw). reflexivity.
    + intros Hm Ho. unfold Result.setContent. unfold bind at 1, gets. rewrite Hd.
      unfold bind at 1. rewrite (tryWithPageAwareness_throws _ s s' e H0 Hm Ho). reflexivity.
    + intros Hsw. unfold Result.evaluate. unfold bind at 1, gets. rewrite Hd.
      unfold bind at 1. rewrite (tryWithPageAwareness_swallows _ s s' e H0 Hsw). reflexivity.
    + intros Hm Ho. unfold Result.evaluate. unfold bind at 1, gets. rewrite Hd.
      unfold bind at 1. rewrite (tryWithPageAwareness_throws _ s s' e H0 Hm Ho). reflexivity.
Qed.

(** C7 (as stated) fails: an error with an empty message does not tell
    that the page was closed, and yet [evaluate] swallows it. *)
Lemma evaluate_empty_message_counterexample :
  fst (page_evaluate (RunAppInstance (lit "/") test_bootOptions [])
         (fresh_page silent_failure)) = inl (mkError (Some [])) /\
  ~ indicates_closed (mkError (Some [])) /\
  fst (Result.evaluate (RunAppInstance (lit "/") test_bootOptions [])
         (Result.new None, fresh_page silent_failure)) = inr None.
Proof.
  split; [reflexivity|]. split; [|reflexivity].
  intros (msg & u & t & Hmsg & E). injection Hmsg as <-.
  destruct E as [E | E]; destruct u; discriminate.
Qed.

(* ================================================================== *)
(** * The visit of the coordinator *)
(* ================================================================== *)


(** The generator yields the value [true] for an instance at rest, and
    the visit that follows the first one through the same coordinator
    calls [visit] on that value. *)
Lemma visit_of_instance_at_rest {P : Type} `{Page P} `{Runtime}
    (newPage : JSError + P) (path : jsstring) (options : VisitOptions)
    (fires : bool) (pb : PowerBoot.t P) :
  PowerBoot._instance pb <> None ->
  PowerBoot.isWorking pb = false ->
  PowerBoot.visit newPage path options fires pb
    = (Rejected (TypeError (lit "instance.visit is not a function")),
       PowerBoot.set_isWorking true pb).
Proof.
  intros Hinst Hwork. unfold PowerBoot.visit, PowerBoot.acquire.
  destruct (PowerBoot._instance pb); [|contradiction]. rewrite Hwork. reflexivity.
Qed.

(* ================================================================== *)
(** * The shoebox *)
(* ================================================================== *)

Lemma escapeJSONString_escaped (text : jsstring) :
  escapeJSONString text = escaped text.
Proof.
  unfold escapeJSONString, escaped. induction text as [|c text IH]; [reflexivity|].
  cbn [flat_map]. rewrite IH. f_equal.
  unfold JSON_ESCAPE_REGEXP, JSON_ESCAPE_lookup, JSON_ESCAPE. cbn [existsb find fst snd].
  destruct (decide (escaped_character c)) as [Hc | Hc].
  - destruct Hc as [-> | [-> | [-> | [-> | ->]]]]; reflexivity.
  - unfold escaped_character in Hc.
    destruct (N.eqb_spec c 8232); [tauto|]. destruct (N.eqb_spec c 8233); [tauto|].
    destruct (N.eqb_spec c 38); [tauto|]. destruct (N.eqb_spec c 62); [tauto|].
    destruct (N.eqb_spec c 60); [tauto|]. reflexivity.
Qed.

(** No escaped character is left in an escaped text. *)
Lemma escaped_clean (text : jsstring) (c : N) :
  In c (escaped text) -> ~ escaped_character c.
Proof.
  unfold escaped. rewrite in_flat_map. intros (d & _ & Hin).
  destruct (decide (escaped_character d)) as [Hd | Hd].
  - intros Hc. destruct Hd as [-> | [-> | [-> | [-> | ->]]]];
      cbn in Hin; unfold escaped_character in Hc;
      repeat (destruct Hin as [<- | Hin]; [destruct Hc as [? | [? | [? | [? | ?]]]]; discriminate|]);
      exact Hin.
  - destruct Hin as [<- | []]. exact Hd.
Qed.

(** ** What an open page double does for a result *)

Section OpenPage.
Variable r : Result.t.
Variable p : TestPage.
Hypothesis Hopen : closed p = false.
Hypothesis Hlive : Result._instanceDestroyed r = false.

(** A script that returns normally is evaluated and the document is
    harvested. *)
Lemma evaluate_open (script : Script) (v : option (list Slot)) (p1 : TestPage) :
  TestPage_evaluate script p = (inr v, p1) ->
  Result.evaluate script (r, p)
    = (inr v,
       (Result.set_contents
          (Some (render (behaviour p1) (history (record CallHarvest (realm p1) p1))).1.1)
          (Some (render (behaviour p1) (history (record CallHarvest (realm p1) p1))).1.2)
          (Some (render (behaviour p1) (history (record CallHarvest (realm p1) p1))).2)
          r,
        record CallHarvest (realm p1) p1)).
Proof using Hopen Hlive.
  intros Heval.
  assert (Hopen1 : closed p1 = false).
  { unfold TestPage_evaluate in Heval. rewrite Hopen in Heval.
    destruct script; injection Heval as _ <-; exact Hopen. }
  unfold Result.evaluate, bind, gets, tryWithPageAwareness, catch, ret,
    Result._reflectContents, Result.on_page, Result.on_result, zoom, modify, bind.
  cbv beta iota delta [fst snd]. rewrite Hlive.
  cbn [page_evaluate page_harvest TestPage_Page].
  rewrite Heval. cbv beta iota delta [fst snd]. unfold TestPage_harvest. rewrite Hopen1.
  destruct (render _ _) as [[html head] body]. destruct v; reflexivity.
Qed.

End OpenPage.

(** A closed page rejects the evaluation, and the result swallows the
    error. *)
Lemma evaluate_closed (r : Result.t) (p : TestPage) (script : Script) :
  closed p = true ->
  Result._instanceDestroyed r = false ->
  Result.evaluate script (r, p) = (inr None, (r, p)).
Proof.
  intros Hcl Hlive. unfold Result.evaluate. unfold bind at 1, gets. cbn [fst].
  rewrite Hlive. unfold bind at 1, tryWithPageAwareness, catch.
  unfold bind at 1. unfold bind at 1. unfold Result.on_page, zoom.
  cbn [fst snd page_evaluate TestPage_Page]. unfold TestPage_evaluate. rewrite Hcl.
  reflexivity.
Qed.

Lemma record_closed c rl p : closed (record c rl p) = closed p.
Proof. reflexivity. Qed.

Lemma evaluated_record_evaluate script rl p :
  evaluated (record (CallEvaluate script) rl p) = evaluated p ++ [script].
Proof. unfold evaluated, record. cbn [history]. rewrite omap_app. reflexivity. Qed.

Lemma evaluated_record_harvest rl p :
  evaluated (record CallHarvest rl p) = evaluated p.
Proof.
  unfold evaluated, record. cbn [history]. rewrite omap_app. cbn. apply app_nil_r.
Qed.

(** The same for the result and the page of a visit. *)
Lemma on_result_evaluate_open (w : EmberApp.World TestPage) :
  closed (EmberApp.page w) = false ->
  Result._instanceDestroyed (EmberApp.result w) = false ->
  forall (script : Script) (v : option (list Slot)) (p1 : TestPage),
    TestPage_evaluate script (EmberApp.page w) = (inr v, p1) ->
    exists w',
      EmberApp.on_result (Result.evaluate script) w = (inr v, w') /\
      EmberApp.this w' = EmberApp.this w /\
      Result._instanceDestroyed (EmberApp.result w') = false /\
      Result.finalized (EmberApp.result w') = Result.finalized (EmberApp.result w) /\
      Result._fastbootInfo (EmberApp.result w') = Result._fastbootInfo (EmberApp.result w) /\
      Result.error (EmberApp.result w') = Result.error (EmberApp.result w) /\
      EmberApp.page w' = record CallHarvest (realm p1) p1.
Proof.
  intros Hopen Hlive script v p1 Heval. unfold EmberApp.on_result, zoom.
  rewrite (evaluate_open _ _ Hopen Hlive script v p1 Heval).
  eexists. split; [reflexivity|]. cbn. repeat split; assumption.
Qed.

Lemma on_result_evaluate_closed (w : EmberApp.World TestPage) (script : Script) :
  closed (EmberApp.page w) = true ->
  Result._instanceDestroyed (EmberApp.result w) = false ->
  EmberApp.on_result (Result.evaluate script) w = (inr None, w).
Proof.
  intros Hcl Hlive. unfold EmberApp.on_result, zoom.
  rewrite (evaluate_closed _ _ _ Hcl Hlive). destruct w. reflexivity.
Qed.

Lemma finalize_open (w : EmberApp.World TestPage) :
  closed (EmberApp.page w) = false ->
  Result._instanceDestroyed (EmberApp.result w) = false ->
  Result.finalized (EmberApp.result w) = false ->
  exists w',
    EmberApp.on_result Result._finalize w = (inr tt, w') /\
    EmberApp.this w' = EmberApp.this w /\
    Result.finalized (EmberApp.result w') = true /\
    Result._fastbootInfo (EmberApp.result w') = Result._fastbootInfo (EmberApp.result w) /\
    Result.error (EmberApp.result w') = Result.error (EmberApp.result w) /\
    closed (EmberApp.page w') = false /\
    evaluated (EmberApp.page w') = evaluated (EmberApp.page w) ++ [RemoveEmberApplicationClass].
Proof.
  intros Hopen Hlive Hfin. unfold EmberApp.on_result, zoom, Result._finalize.
  unfold bind at 1, gets at 1. cbn [fst]. rewrite Hfin. unfold bind at 1.
  rewrite (evaluate_open _ _ Hopen Hlive RemoveEmberApplicationClass None
             (record (CallEvaluate RemoveEmberApplicationClass)
                (realm (EmberApp.page w)) (EmberApp.page w)))
    by (unfold TestPage_evaluate; rewrite Hopen; reflexivity).
  eexists. split; [reflexivity|].
  cbn [EmberApp.this EmberApp.result EmberApp.page fst snd].
  rewrite evaluated_record_harvest, evaluated_record_evaluate.
  repeat split; assumption.
Qed.

Section CreateShoebox.
Context `{Runtime}.

Lemma createShoebox_open (info : FastBootInfo.t) (shoebox : Shoebox) :
  FastBootInfo.shoebox info = Some shoebox ->
  forall w : EmberApp.World TestPage,
    closed (EmberApp.page w) = false ->
    Result._instanceDestroyed (EmberApp.result w) = false ->
    exists w',
      EmberApp.createShoebox info w = (inr tt, w') /\
      closed (EmberApp.page w') = false /\
      Result._instanceDestroyed (EmberApp.result w') = false /\
      Result.finalized (EmberApp.result w') = Result.finalized (EmberApp.result w) /\
      Result._fastbootInfo (EmberApp.result w') = Result._fastbootInfo (EmberApp.result w) /\
      EmberApp.this w' = EmberApp.this w /\
      evaluated (EmberApp.page w')
        = evaluated (EmberApp.page w) ++ map shoebox_insertion shoebox.
Proof.
  intros Hbox. unfold EmberApp.createShoebox. rewrite Hbox. clear Hbox.
  induction shoebox as [|[key value] rest IH]; intros w Hopen Hlive.
  - exists w. cbn. rewrite app_nil_r. repeat split; assumption.
  - destruct (on_result_evaluate_open w Hopen Hlive
                (shoebox_insertion (key, value)) None
                (record (CallEvaluate (shoebox_insertion (key, value)))
                   (realm (EmberApp.page w)) (EmberApp.page w)))
      as (w1 & E1 & Hthis1 & Hlive1 & Hfin1 & Hinfo1 & _ & Hpage1).
    { unfold TestPage_evaluate. rewrite Hopen. reflexivity. }
    destruct (IH w1) as (w' & E & Hopen' & Hlive' & Hfin' & Hinfo' & Hthis' & Hev').
    { rewrite Hpage1. exact Hopen. }
    { exact Hlive1. }
    exists w'. cbn [for_each]. unfold bind at 1. unfold bind at 1.
    change (EmberApp.on_result
              (Result.evaluate
                 (InsertBodyBeforeEnd
                    (shoebox_script key (escapeJSONString (JSON_stringify value))))) w)
      with (EmberApp.on_result (Result.evaluate (shoebox_insertion (key, value))) w).
    rewrite E1. unfold ret at 1. rewrite E. split; [reflexivity|].
    split; [exact Hopen'|]. split; [exact Hlive'|].
    split; [congruence|]. split; [congruence|]. split; [congruence|].
    rewrite Hev', Hpage1, evaluated_record_harvest, evaluated_record_evaluate, <- app_assoc.
    reflexivity.
Qed.

End CreateShoebox.

Lemma shoebox_insertion_escaped `{Runtime} (shoebox : Shoebox) :
  map shoebox_insertion shoebox
    = map (fun entry =>
             InsertBodyBeforeEnd
               (lit "<script type=" ++ dq ++ lit "fastboot/shoebox" ++ dq
                  ++ lit " id=" ++ dq ++ lit "shoebox-" ++ fst entry ++ dq
                  ++ lit ">" ++ escaped (JSON_stringify (snd entry))
                  ++ lit "</script>"))
          shoebox.
Proof.
  apply map_ext. intros [key value]. unfold shoebox_insertion, shoebox_script.
  cbn [fst snd]. rewrite escapeJSONString_escaped. reflexivity.
Qed.

(** C4. On an open page, [createShoebox] inserts at the end of the
    document body, for every key of the shoebox in iteration order, one
    script element of type [fastboot/shoebox] and id [shoebox-{key}]
    holding the JSON text of the value with [&], [<], [>], U+2028 and
    U+2029 replaced by their escape forms, and evaluates nothing else.
    When the in-context visit of a booted instance returns the shoebox,
    [_visitRoute] writes it so after the visit and before it finalizes
    the result, unless the shoebox is disabled: then it inserts none. *)
Theorem shoebox_written `{Runtime} (w : EmberApp.World TestPage)
    (fastbootInfo : FastBootInfo.t) (shoebox : Shoebox) :
  closed (EmberApp.page w) = false ->
  Result._instanceDestroyed (EmberApp.result w) = false ->
  FastBootInfo.shoebox fastbootInfo = Some shoebox ->
  (exists w',
     EmberApp.createShoebox fastbootInfo w = (inr tt, w') /\
     evaluated (EmberApp.page w')
       = evaluated (EmberApp.page w)
           ++ map (fun entry =>
                     InsertBodyBeforeEnd
                       (lit "<script type=" ++ dq ++ lit "fastboot/shoebox" ++ dq
                          ++ lit " id=" ++ dq ++ lit "shoebox-" ++ fst entry ++ dq
                          ++ lit ">" ++ escaped (JSON_stringify (snd entry))
                          ++ lit "</script>"))
                  shoebox) /\
  (forall (path : jsstring) (bootOptions : BootOptions) (info : FastBootInfo.t)
          (disableShoebox : bool) (returned : list Slot),
     Result.finalized (EmberApp.result w) = false ->
     EmberApp.hasInitialized (EmberApp.this w) = true ->
     run (behaviour (EmberApp.page w)) (realm (EmberApp.page w)) path bootOptions
         (FastBootInfo.serialize info) = inr (Some returned) ->
     FastBootInfo.from_tuple returned = inr fastbootInfo ->
     exists w',
       EmberApp._visitRoute path info bootOptions disableShoebox None w = (inr tt, w') /\
       Result._fastbootInfo (EmberApp.result w') = Some fastbootInfo /\
       Result.finalized (EmberApp.result w') = true /\
       evaluated (EmberApp.page w')
         = evaluated (EmberApp.page w)
             ++ [RunAppInstance path bootOptions (FastBootInfo.serialize info)]
             ++ (if disableShoebox then []
                 else map (fun entry =>
                             InsertBodyBeforeEnd
                               (lit "<script type=" ++ dq ++ lit "fastboot/shoebox" ++ dq
                                  ++ lit " id=" ++ dq ++ lit "shoebox-" ++ fst entry ++ dq
                                  ++ lit ">" ++ escaped (JSON_stringify (snd entry))
                                  ++ lit "</script>"))
                          shoebox)
             ++ [RemoveEmberApplicationClass]).
Proof.
  intros Hopen Hlive Hbox. split.
  { destruct (createShoebox_open fastbootInfo shoebox Hbox w Hopen Hlive)
      as (w' & E & _ & _ & _ & _ & _ & Hev).
    exists w'. split; [exact E|]. rewrite Hev, shoebox_insertion_escaped. reflexivity. }
  intros path bootOptions info disableShoebox returned Hfin Hinit Hrun Htuple.
  (* the in-context visit *)
  destruct (on_result_evaluate_open w Hopen Hlive
              (RunAppInstance path bootOptions (FastBootInfo.serialize info))
              (Some returned)
              (record (CallEvaluate (RunAppInstance path bootOptions (FastBootInfo.serialize info)))
                 (realm (EmberApp.page w)) (EmberApp.page w)))
    as (w1 & E1 & Hthis1 & Hlive1 & Hfin1 & _ & _ & Hpage1).
  { unfold TestPage_evaluate. rewrite Hopen, Hrun. reflexivity. }
  (* the info of the result *)
  set (w2 := snd (EmberApp.on_result
                    (Result.on_result (modify (Result.set_fastbootInfo fastbootInfo))) w1)).
  assert (Hopen2 : closed (EmberApp.page w2) = false).
  { subst w2. cbn. rewrite Hpage1. exact Hopen. }
  assert (Hlive2 : Result._instanceDestroyed (EmberApp.result w2) = false).
  { subst w2. cbn. exact Hlive1. }
  (* the shoebox *)
  assert (Hshoebox : exists w3,
             (if disableShoebox then ret tt else EmberApp.createShoebox fastbootInfo) w2
               = (inr tt, w3) /\
             closed (EmberApp.page w3) = false /\
             Result._instanceDestroyed (EmberApp.result w3) = false /\
             Result.finalized (EmberApp.result w3) = false /\
             Result._fastbootInfo (EmberApp.result w3) = Some fastbootInfo /\
             evaluated (EmberApp.page w3)
               = evaluated (EmberApp.page w2)
                   ++ (if disableShoebox then [] else map shoebox_insertion shoebox)).
  { destruct disableShoebox.
    - exists w2. rewrite app_nil_r. subst w2. cbn. repeat split; try assumption.
      congruence.
    - destruct (createShoebox_open fastbootInfo shoebox Hbox w2 Hopen2 Hlive2)
        as (w3 & E3 & Hopen3 & Hlive3 & Hfin3 & Hinfo3 & _ & Hev3).
      exists w3. split; [exact E3|]. split; [exact Hopen3|]. split; [exact Hlive3|].
      split; [rewrite Hfin3; subst w2; cbn; congruence|].
      split; [rewrite Hinfo3; reflexivity|]. exact Hev3. }
  destruct Hshoebox as (w3 & E3 & Hopen3 & Hlive3 & Hfin3 & Hinfo3 & Hev3).
  (* the finalization *)
  destruct (finalize_open w3 Hopen3 Hlive3 Hfin3)
    as (w4 & E4 & _ & Hfin4 & Hinfo4 & _ & _ & Hev4).
  exists w4. split.
  - unfold EmberApp._visitRoute. unfold bind at 1, gets at 1. rewrite Hinit.
    unfold bind at 1, ret at 1. unfold bind at 1, catch at 1, bind at 1.
    unfold EmberApp.runAppInstance. rewrite E1. cbn [default].
    unfold ret at 1. cbv beta iota. change (id returned) with returned.
    rewrite Htuple.
    unfold bind at 1.
    replace (EmberApp.on_result
               (Result.on_result (modify (Result.set_fastbootInfo fastbootInfo))) w1)
      with (@inr JSError unit tt, w2) by reflexivity.
    unfold bind at 1. rewrite E3.
    unfold bind at 1. rewrite E4. reflexivity.
  - split; [congruence|]. split; [exact Hfin4|].
    rewrite Hev4, Hev3.
    subst w2. cbn. rewrite Hpage1, evaluated_record_harvest, evaluated_record_evaluate.
    rewrite <- !app_assoc. do 2 f_equal.
    destruct disableShoebox; [reflexivity|]. f_equal.
    apply shoebox_insertion_escaped.
Qed.

(* ================================================================== *)
(** * Steps of a computation *)
(* ================================================================== *)

Section Steps.
Context {S : Type} (R : relation S) `{!PreOrder R}.

Lemma steps_ret {A} (a : A) : steps R (ret a).
Proof. intros s. reflexivity. Qed.

Lemma steps_throw {A} (e : JSError) : steps R (throw e : M S A).
Proof. intros s. reflexivity. Qed.

Lemma steps_gets {A} (f : S -> A) : steps R (gets f).
Proof. intros s. reflexivity. Qed.

Lemma steps_modify (f : S -> S) : (forall s, R s (f s)) -> steps R (modify f).
Proof. intros Hf s. apply Hf. Qed.

Lemma steps_bind {A B} (c : M S A) (k : A -> M S B) :
  steps R c -> (forall a, steps R (k a)) -> steps R (bind c k).
Proof.
  intros Hc Hk s. unfold bind. specialize (Hc s).
  destruct (c s) as [[e|a] s1]; [exact Hc|].
  etransitivity; [exact Hc | apply Hk].
Qed.

Lemma steps_catch {A} (c : M S A) (h : JSError -> M S A) :
  steps R c -> (forall e, steps R (h e)) -> steps R (catch c h).
Proof.
  intros Hc Hh s. unfold catch. specialize (Hc s).
  destruct (c s) as [[e|a] s1]; [|exact Hc].
  etransitivity; [exact Hc | apply Hh].
Qed.

Lemma steps_for_each {A} (f : A -> M S unit) (l : list A) :
  (forall x, steps R (f x)) -> steps R (for_each f l).
Proof.
  intros Hf. induction l as [|x l IH]; [apply steps_ret|].
  cbn [for_each]. apply steps_bind; [apply Hf | intros _; exact IH].
Qed.

Lemma steps_tryWithPageAwareness {A} (c : M S A) :
  steps R c -> steps R (tryWithPageAwareness c).
Proof.
  intros Hc. unfold tryWithPageAwareness. apply steps_catch.
  - apply steps_bind; [exact Hc | intros a; apply steps_ret].
  - intros e. destruct (message e) as [msg|]; [|apply steps_ret].
    destruct (truthy msg && negb (page_closed_message msg));
      [apply steps_throw | apply steps_ret].
Qed.

Lemma steps_zoom {T A} (R' : relation T) (get : S -> T) (set : T -> S -> S)
    (c : M T A) :
  steps R' c ->
  (forall s t, R' (get s) t -> R s (set t s)) ->
  steps R (zoom get set c).
Proof.
  intros Hc Hset s. unfold zoom. specialize (Hc (get s)).
  destruct (c (get s)) as [r t]. apply Hset. exact Hc.
Qed.

End Steps.

(* ================================================================== *)
(** * Boot-time injection happens once *)
(* ================================================================== *)

#[export] Instance page_step_preorder phase : PreOrder (page_step phase).
Proof.
  split.
  - intros p. repeat split. exists []. rewrite app_nil_r. repeat split. constructor.
  - intros p1 p2 p3 (Hc1 & Hb1 & Hw1 & ev1 & Hh1 & Hn1 & Hq1)
      (Hc2 & Hb2 & Hw2 & ev2 & Hh2 & Hn2 & Hq2).
    split; [congruence|]. split; [congruence|]. split; [congruence|].
    exists (ev1 ++ ev2). split; [rewrite Hh2, Hh1, app_assoc; reflexivity|]. split.
    + intros Hcl. rewrite (Hn1 Hcl), (Hn2 ltac:(congruence)). reflexivity.
    + apply Forall_app. split; [exact Hq1|]. rewrite <- Hw1. exact Hq2.
Qed.

#[export] Instance result_step_preorder phase : PreOrder (result_step phase).
Proof.
  split.
  - intros s. split; reflexivity.
  - intros s1 s2 s3 [Hd1 Hp1] [Hd2 Hp2]. split; [congruence|].
    etransitivity; eassumption.
Qed.

#[export] Instance world_step_preorder phase : PreOrder (world_step phase).
Proof.
  split.
  - intros w. split; [reflexivity|]. split; reflexivity.
  - intros w1 w2 w3 (Hg1 & Hi1 & Hr1) (Hg2 & Hi2 & Hr2).
    split; [congruence|]. split; [congruence|]. etransitivity; eassumption.
Qed.

Lemma page_step_weaken phase p p' : page_step Idle p p' -> page_step phase p p'.
Proof.
  intros (Hc & Hb & Hw & events & Hh & Hn & Hq).
  split; [exact Hc|]. split; [exact Hb|]. split; [exact Hw|].
  exists events. split; [exact Hh|]. split; [exact Hn|].
  eapply Forall_impl; [exact Hq|]. intros e [He1 He2]. split; [exact He1|].
  destruct (call e) as [| [] | |]; try exact He2; discriminate.
Qed.

Lemma world_step_weaken phase w w' : world_step Idle w w' -> world_step phase w w'.
Proof.
  intros (Hg & Hi & Hd & Hp). split; [exact Hg|]. split; [exact Hi|].
  split; [exact Hd|]. apply page_step_weaken. exact Hp.
Qed.

(** One quiet event. *)
Lemma page_step_record phase (c : Call) (rl : Realm) (p : TestPage) :
  closed p = false ->
  window rl = window (realm p) ->
  quiet_event phase (window (realm p)) {| call := c; found := realm p |} ->
  page_step phase p (record c rl p).
Proof.
  intros Hopen Hw Hq. split; [reflexivity|]. split; [reflexivity|]. split; [exact Hw|].
  eexists. split; [reflexivity|]. split; [congruence|].
  constructor; [exact Hq | constructor].
Qed.

Lemma steps_TestPage_setContent phase html :
  steps (page_step phase) (TestPage_setContent html).
Proof.
  intros p. unfold TestPage_setContent. destruct (closed p) eqn:Hc; [reflexivity|].
  apply page_step_record; [exact Hc | reflexivity | split; [reflexivity | exact I]].
Qed.

Lemma steps_TestPage_harvest phase : steps (page_step phase) TestPage_harvest.
Proof.
  intros p. unfold TestPage_harvest. destruct (closed p) eqn:Hc; [reflexivity|].
  apply page_step_record; [exact Hc | reflexivity | split; [reflexivity | exact I]].
Qed.

Lemma steps_TestPage_evaluate phase script :
  quiet_script phase script ->
  steps (page_step phase) (TestPage_evaluate script).
Proof.
  intros Hq p. unfold TestPage_evaluate. destruct (closed p) eqn:Hc; [reflexivity|].
  destruct script; try contradiction; cbn [snd];
    (apply page_step_record; [exact Hc | reflexivity | split; [reflexivity | exact Hq]]).
Qed.

Section QuietSteps.
Context `{Runtime}.
Variable phase : Phase.

Lemma steps_on_page {A} (c : M TestPage A) :
  steps (page_step phase) c -> steps (result_step phase) (Result.on_page c).
Proof.
  intros Hc. unfold Result.on_page.
  apply (steps_zoom (result_step phase) (page_step phase)); [exact Hc|].
  intros s t Ht. split; [reflexivity | exact Ht].
Qed.

Lemma steps_on_result_modify (f : Result.t -> Result.t) :
  (forall r, Result._instanceDestroyed (f r) = Result._instanceDestroyed r) ->
  steps (result_step phase) (Result.on_result (modify f)).
Proof.
  intros Hf s. unfold Result.on_result, zoom, modify. cbn [fst snd].
  split; [apply Hf | reflexivity].
Qed.

Lemma steps_reflectContents : steps (result_step phase) Result._reflectContents.
Proof.
  unfold Result._reflectContents. apply steps_bind; [apply _| |].
  - apply steps_on_page. apply steps_TestPage_harvest.
  - intros [[html head] body]. apply steps_on_result_modify. reflexivity.
Qed.

Lemma steps_setContent html : steps (result_step phase) (Result.setContent html).
Proof.
  unfold Result.setContent. apply steps_bind; [apply _ | apply steps_gets; apply _ |].
  intros [|]; [apply steps_ret; apply _|].
  apply steps_bind; [apply _ | | intros _; apply steps_ret; apply _].
  apply steps_tryWithPageAwareness; [apply _|].
  apply steps_bind; [apply _ | | intros _; apply steps_reflectContents].
  apply steps_on_page. apply steps_TestPage_setContent.
Qed.

Lemma steps_evaluate script :
  quiet_script phase script -> steps (result_step phase) (Result.evaluate script).
Proof.
  intros Hq. unfold Result.evaluate.
  apply steps_bind; [apply _ | apply steps_gets; apply _ |].
  intros [|]; [apply steps_ret; apply _|].
  apply steps_bind; [apply _ | | intros r; apply steps_ret; apply _].
  apply steps_tryWithPageAwareness; [apply _|].
  apply steps_bind; [apply _ | |].
  - apply steps_on_page. apply steps_TestPage_evaluate. exact Hq.
  - intros v. apply steps_bind; [apply _ | apply steps_reflectContents |].
    intros _. apply steps_ret; apply _.
Qed.

Lemma steps_finalize : steps (result_step phase) Result._finalize.
Proof.
  unfold Result._finalize. apply steps_bind; [apply _ | apply steps_gets; apply _ |].
  intros [|]; [apply steps_throw; apply _|].
  apply steps_bind; [apply _ | apply steps_evaluate; exact I |].
  intros _. apply steps_on_result_modify. reflexivity.
Qed.

(** ** The objects of a visit *)

Lemma steps_world_on_result {A} (c : M (Result.t * TestPage) A) :
  steps (result_step phase) c -> steps (world_step phase) (EmberApp.on_result c).
Proof.
  intros Hc. unfold EmberApp.on_result.
  apply (steps_zoom (world_step phase) (result_step phase)); [exact Hc|].
  intros w [r p] Ht. split; [reflexivity|]. split; [reflexivity|]. exact Ht.
Qed.

Lemma steps_world_on_this (f : EmberApp.t -> EmberApp.t) :
  (forall a, EmberApp.sandboxGlobals (f a) = EmberApp.sandboxGlobals a) ->
  (forall a, EmberApp.hasInitialized (f a) = EmberApp.hasInitialized a) ->
  steps (world_step phase) (EmberApp.on_this (modify f)).
Proof.
  intros Hg Hi w. unfold EmberApp.on_this, zoom, modify. cbn [snd].
  split; [apply Hg|]. split; [apply Hi|]. reflexivity.
Qed.

Lemma steps_set_result_error e : steps (world_step phase) (EmberApp.set_result_error e).
Proof.
  unfold EmberApp.set_result_error. apply steps_world_on_result.
  apply steps_on_result_modify. reflexivity.
Qed.

Lemma steps_world_evaluate script :
  quiet_script phase script ->
  steps (world_step phase) (EmberApp.on_result (Result.evaluate script)).
Proof. intros Hq. apply steps_world_on_result. apply steps_evaluate. exact Hq. Qed.

Lemma steps_loadAppFiles apps vendors :
  phase = Booting ->
  steps (world_step phase) (EmberApp.loadAppFiles apps vendors).
Proof.
  intros Hbooting. unfold EmberApp.loadAppFiles.
  assert (Hfile : forall filePath,
             steps (world_step phase)
               (match readFileSync filePath with
                | inl e => throw e
                | inr file =>
                    EmberApp.on_result (Result.evaluate (Source file)) ;; ret tt
                end)).
  { intros filePath. destruct (readFileSync filePath); [apply steps_throw; apply _|].
    apply steps_bind; [apply _ | apply steps_world_evaluate; exact Hbooting |].
    intros _. apply steps_ret; apply _. }
  apply steps_bind; [apply _ | apply steps_for_each; [apply _ | exact Hfile] |].
  intros _. apply steps_for_each; [apply _ | exact Hfile].
Qed.

Lemma steps_createShoebox info : steps (world_step phase) (EmberApp.createShoebox info).
Proof.
  unfold EmberApp.createShoebox. destruct (FastBootInfo.shoebox info) as [shoebox|];
    [|apply steps_ret; apply _].
  apply steps_for_each; [apply _|]. intros [key value].
  apply steps_bind; [apply _ | apply steps_world_evaluate; exact I |].
  intros _. apply steps_ret; apply _.
Qed.

End QuietSteps.

Lemma boots_app p events :
  length (filter is_boot (omap (fun e => match call e with
                                         | CallEvaluate s => Some s
                                         | _ => None
                                         end) (history p ++ events)))
  = boots p
    + length (filter is_boot (omap (fun e => match call e with
                                             | CallEvaluate s => Some s
                                             | _ => None
                                             end) events)).
Proof. unfold boots, evaluated. rewrite omap_app, filter_app, length_app. reflexivity. Qed.

Lemma quiet_events_no_boot phase wd events :
  Forall (quiet_event phase wd) events ->
  filter is_boot (omap (fun e => match call e with
                                 | CallEvaluate s => Some s
                                 | _ => None
                                 end) events) = [].
Proof.
  induction 1 as [|e events [_ He] _ IH]; [reflexivity|].
  cbn [omap list_omap]. destruct (call e) as [| script | |]; try exact IH.
  destruct script; try contradiction;
    (rewrite filter_cons_False; [exact IH | intros []]).
Qed.

(** Outside the boot the events evaluate no script of the boot. *)
Lemma quiet_events_no_boot_script phase wd events :
  phase <> Booting ->
  Forall (quiet_event phase wd) events ->
  filter is_boot_script (omap (fun e => match call e with
                                        | CallEvaluate s => Some s
                                        | _ => None
                                        end) events) = [].
Proof.
  intros Hphase. induction 1 as [|e events [_ He] _ IH]; [reflexivity|].
  cbn [omap list_omap]. destruct (call e) as [| script | |]; try exact IH.
  destruct script; try contradiction;
    (rewrite filter_cons_False; [exact IH | intros []]).
Qed.

Lemma page_step_boot_scripts phase p p' :
  phase <> Booting -> page_step phase p p' -> boot_scripts p' = boot_scripts p.
Proof.
  intros Hphase (_ & _ & _ & events & Hh & _ & Hq). unfold boot_scripts, evaluated.
  rewrite Hh, omap_app, filter_app, (quiet_events_no_boot_script _ _ _ Hphase Hq).
  apply app_nil_r.
Qed.

Lemma page_step_boots phase p p' : page_step phase p p' -> boots p' = boots p.
Proof.
  intros (_ & _ & _ & events & Hh & _ & Hq). unfold boots at 1, evaluated.
  rewrite Hh, boots_app, (quiet_events_no_boot _ _ _ Hq). cbn. lia.
Qed.

Lemma page_step_observes phase g p p' :
  page_step phase p p' ->
  (phase = Visiting -> closed p = true \/ g ⊆ window (realm p)) ->
  observes g (history p) ->
  observes g (history p').
Proof.
  intros (_ & _ & _ & events & Hh & Hn & Hq) Hruns Hobs. unfold observes.
  rewrite Hh. apply Forall_app. split; [exact Hobs|].
  destruct (closed p) eqn:Hcl.
  - rewrite (Hn eq_refl). constructor.
  - eapply Forall_impl; [exact Hq|]. intros e [He1 He2].
    destruct (call e) as [| script | |]; try exact I.
    destruct script; try exact I.
    destruct (Hruns He2) as [Habs | Hsub]; [discriminate|].
    rewrite He1. exact Hsub.
Qed.

(** Quiet steps keep the invariant; those that comprise an in-context
    visit keep it for an instance that has booted. *)
Lemma world_inv_step phase g n w w' :
  world_inv g n w ->
  (phase = Visiting -> EmberApp.hasInitialized (EmberApp.this w) = true) ->
  world_step phase w w' ->
  world_inv g n w'.
Proof.
  intros [(Hglobals & Hn & Hboots & Hobs & Hinit) Hlive] Hruns (Hg & Hi & Hd & Hp).
  cbn [fst snd] in *. split; [|congruence]. unfold boot_inv. cbn [fst snd].
  split; [congruence|].
  split; [exact Hn|]. split; [rewrite (page_step_boots _ _ _ Hp); exact Hboots|].
  rewrite Hi. split.
  - apply (page_step_observes phase _ _ _ Hp); [|exact Hobs].
    intros Hr. rewrite (Hruns Hr) in Hinit. exact Hinit.
  - destruct Hp as (Hc & _ & Hw & _). rewrite Hc, Hw. exact Hinit.
Qed.

Section BootOnce.
Context `{Runtime}.

(** The first steps of the boot: the flag and the sandbox globals. *)
Lemma boot_block_inv g (w : EmberApp.World TestPage) :
  world_inv g 0 w ->
  EmberApp.hasInitialized (EmberApp.this w) = false ->
  exists n,
    world_inv g n
      (snd (EmberApp.on_result
              (Result.evaluate (AssignGlobals (EmberApp.sandboxGlobals (EmberApp.this w))))
              (snd (EmberApp.on_this (modify (EmberApp.set_hasInitialized true)) w)))) /\
    EmberApp.hasInitialized
      (EmberApp.this
         (snd (EmberApp.on_result
                 (Result.evaluate (AssignGlobals (EmberApp.sandboxGlobals (EmberApp.this w))))
                 (snd (EmberApp.on_this (modify (EmberApp.set_hasInitialized true)) w)))))
      = true.
Proof.
  intros [(Hglobals & Hn & Hboots & Hobs & Hinit) Hlive] Hflag. cbn [fst snd] in *.
  rewrite Hglobals.
  set (w1 := snd (EmberApp.on_this (modify (EmberApp.set_hasInitialized true)) w)).
  assert (Hthis1 : EmberApp.this w1 = EmberApp.set_hasInitialized true (EmberApp.this w))
    by reflexivity.
  assert (Hpage1 : EmberApp.page w1 = EmberApp.page w) by reflexivity.
  assert (Hlive1 : Result._instanceDestroyed (EmberApp.result w1) = false) by exact Hlive.
  clearbody w1.
  destruct (closed (EmberApp.page w)) eqn:Hcl.
  - (* a closed page rejects the call, the result swallows the error *)
    exists 0. rewrite on_result_evaluate_closed by congruence. cbn [snd].
    split; [|rewrite Hthis1; reflexivity]. split; [|exact Hlive1].
    unfold boot_inv. cbn [fst snd]. rewrite Hthis1, Hpage1.
    cbn [EmberApp.hasInitialized EmberApp.sandboxGlobals EmberApp.set_hasInitialized].
    split; [exact Hglobals|].
    split; [lia|]. split; [exact Hboots|]. split; [exact Hobs|]. left. exact Hcl.
  - (* an open page assigns the globals *)
    exists 1.
    destruct (on_result_evaluate_open w1 ltac:(congruence) Hlive1
                (AssignGlobals g) None
                (record (CallEvaluate (AssignGlobals g))
                   {| window := g ∪ window (realm (EmberApp.page w));
                      environment := environment (realm (EmberApp.page w));
                      sources := sources (realm (EmberApp.page w)) |}
                   (EmberApp.page w)))
      as (w2 & E2 & Hthis2 & Hlive2 & _ & _ & _ & Hpage2).
    { rewrite Hpage1. unfold TestPage_evaluate. rewrite Hcl. reflexivity. }
    rewrite E2. cbn [snd].
    split; [|rewrite Hthis2, Hthis1; reflexivity]. split; [|exact Hlive2].
    unfold boot_inv. cbn [fst snd]. rewrite Hthis2, Hthis1, Hpage2.
    cbn [EmberApp.hasInitialized EmberApp.sandboxGlobals EmberApp.set_hasInitialized].
    split; [exact Hglobals|].
    split; [lia|]. split; [|split].
    + unfold boots. rewrite evaluated_record_harvest, evaluated_record_evaluate.
      rewrite filter_app, length_app. fold (boots (EmberApp.page w)). rewrite Hboots.
      reflexivity.
    + unfold observes, record. cbn [history]. rewrite !Forall_app.
      split; [split; [exact Hobs|]|]; constructor; try constructor; exact I.
    + right. cbn [realm record window]. apply map_union_subseteq_l.
Qed.

End BootOnce.

Section VisitsBootOnce.
Context `{Runtime}.

Lemma booted_step phase g w w' : booted g w -> world_step phase w w' -> booted g w'.
Proof.
  intros (n & Hinv & Hinit) Hstep. exists n. split.
  - apply (world_inv_step phase g n w w' Hinv (fun _ => Hinit) Hstep).
  - destruct Hstep as (_ & Hi & _). congruence.
Qed.

Lemma booted_bind {A B} phase g (c : M (EmberApp.World TestPage) A)
    (k : A -> M (EmberApp.World TestPage) B) w :
  booted g (snd (c w)) ->
  (forall a, steps (world_step phase) (k a)) ->
  booted g (snd (bind c k w)).
Proof.
  intros Hc Hk. unfold bind. destruct (c w) as [[e|a] w1]; [exact Hc|].
  apply (booted_step phase g w1); [exact Hc | apply Hk].
Qed.

(** What [_visitRoute] does once the boot is over, without a deadline. *)
Lemma steps_after_boot path info bootOptions (disableShoebox : bool) :
  steps (world_step Visiting)
    ((ran <- catch
        (returned <- EmberApp.runAppInstance path bootOptions info None ;;
         ret (default default_returnedInfo returned, None))
        (fun err => ret (default_returnedInfo, Some err)) ;;
      let '(returnedInfo, error) := ran in
      match FastBootInfo.from_tuple returnedInfo with
      | inl e => throw e
      | inr fastbootInfo =>
          EmberApp.on_result (Result.on_result (modify (Result.set_fastbootInfo fastbootInfo))) ;;
          (if disableShoebox then ret tt else EmberApp.createShoebox fastbootInfo) ;;
          EmberApp.on_result Result._finalize ;;
          match error with
          | Some e => throw e
          | None => ret tt
          end
      end) : M (EmberApp.World TestPage) unit).
Proof.
  apply steps_bind; [apply _| |].
  - apply steps_catch; [apply _| |].
    + apply steps_bind; [apply _| |].
      * unfold EmberApp.runAppInstance. apply steps_world_evaluate. reflexivity.
      * intros returned. apply steps_ret; apply _.
    + intros err. apply steps_ret; apply _.
  - intros [returnedInfo error].
    destruct (FastBootInfo.from_tuple returnedInfo) as [e|fastbootInfo];
      [apply steps_throw; apply _|].
    apply steps_bind; [apply _| |].
    + apply steps_world_on_result. apply steps_on_result_modify. reflexivity.
    + intros _. apply steps_bind; [apply _| |].
      * destruct disableShoebox; [apply steps_ret; apply _ | apply steps_createShoebox].
      * intros _. apply steps_bind; [apply _| |].
        -- apply steps_world_on_result. apply steps_finalize.
        -- intros _. destruct error; [apply steps_throw | apply steps_ret]; apply _.
Qed.

(** The rest of the boot, after the sandbox globals. *)
Lemma steps_rest_of_boot (w0 : EmberApp.World TestPage) :
  steps (world_step Booting)
    (name <- gets (fun w => EmberApp.appName (EmberApp.this w)) ;;
     conf <- gets (fun w => EmberApp.config (EmberApp.this w)) ;;
     EmberApp.initializeAppEnvironment name conf ;;
     apps <- gets (fun w => EmberApp.appFilePaths (EmberApp.this w)) ;;
     vendors <- gets (fun w => EmberApp.vendorFilePaths (EmberApp.this w)) ;;
     EmberApp.loadAppFiles apps vendors ;;
     cached <- gets (fun w => EmberApp._bundle (EmberApp.this w)) ;;
     text <- match cached with
             | Some text => if truthy text then ret text
                            else match bundle with inl e => throw e | inr b => ret b end
             | None => match bundle with inl e => throw e | inr b => ret b end
             end ;;
     EmberApp.on_this (modify (EmberApp.set__bundle text)) ;;
     EmberApp.on_result (Result.evaluate (Source text)) ;;
     ret tt).
Proof.
  apply steps_bind; [apply _ | apply steps_gets; apply _ |]. intros name.
  apply steps_bind; [apply _ | apply steps_gets; apply _ |]. intros conf.
  apply steps_bind; [apply _ | |].
  { unfold EmberApp.initializeAppEnvironment.
    apply steps_bind; [apply _ | apply steps_world_evaluate; reflexivity |].
    intros _. apply steps_ret; apply _. }
  intros _. apply steps_bind; [apply _ | apply steps_gets; apply _ |]. intros apps.
  apply steps_bind; [apply _ | apply steps_gets; apply _ |]. intros vendors.
  apply steps_bind; [apply _ | apply steps_loadAppFiles; reflexivity |]. intros _.
  apply steps_bind; [apply _ | apply steps_gets; apply _ |]. intros cached.
  apply steps_bind; [apply _ | |].
  { destruct cached as [text|]; [destruct (truthy text); [apply steps_ret; apply _|]|];
      (destruct bundle; [apply steps_throw | apply steps_ret]; apply _). }
  intros text. apply steps_bind; [apply _ | |].
  { apply steps_world_on_this; reflexivity. }
  intros _. apply steps_bind; [apply _ | apply steps_world_evaluate; reflexivity |].
  intros _. apply steps_ret; apply _.
Qed.

Lemma visitRoute_inv path info bootOptions disableShoebox g n w :
  world_inv g n w ->
  exists n',
    world_inv g n' (snd (EmberApp._visitRoute path info bootOptions disableShoebox None w)) /\
    EmberApp.hasInitialized
      (EmberApp.this (snd (EmberApp._visitRoute path info bootOptions disableShoebox None w)))
      = true /\
    (EmberApp.hasInitialized (EmberApp.this w) = true ->
     n' = n /\
     boot_scripts
       (EmberApp.page (snd (EmberApp._visitRoute path info bootOptions disableShoebox None w)))
       = boot_scripts (EmberApp.page w)).
Proof.
  intros Hinv.
  destruct (EmberApp.hasInitialized (EmberApp.this w)) eqn:Hinit.
  - (* booted: nothing is injected *)
    assert (Hstep : world_step Visiting w
              (snd (EmberApp._visitRoute path info bootOptions disableShoebox None w))).
    { unfold EmberApp._visitRoute. unfold bind at 1, gets at 1. rewrite Hinit.
      apply steps_bind; [apply _ | apply steps_ret; apply _ |].
      intros _. apply steps_after_boot. }
    exists n. split; [|split; [|intros _; split; [reflexivity|]]].
    + apply (world_inv_step Visiting g n w _ Hinv (fun _ => Hinit) Hstep).
    + destruct Hstep as (_ & Hi & _). congruence.
    + destruct Hstep as (_ & _ & _ & Hp).
      apply (page_step_boot_scripts Visiting); [discriminate | exact Hp].
  - (* not booted: the boot, then the rest *)
    assert (Hzero : n = 0).
    { destruct Hinv as [(_ & _ & _ & _ & Hn) _]. cbn [fst] in Hn. rewrite Hinit in Hn. exact Hn. }
    subst n.
    assert (Hbooted : booted g
      (snd ((EmberApp.on_this (modify (EmberApp.set_hasInitialized true)) ;;
             globals <- gets (fun w => EmberApp.sandboxGlobals (EmberApp.this w)) ;;
             EmberApp.on_result (Result.evaluate (AssignGlobals globals)) ;;
             name <- gets (fun w => EmberApp.appName (EmberApp.this w)) ;;
             conf <- gets (fun w => EmberApp.config (EmberApp.this w)) ;;
             EmberApp.initializeAppEnvironment name conf ;;
             apps <- gets (fun w => EmberApp.appFilePaths (EmberApp.this w)) ;;
             vendors <- gets (fun w => EmberApp.vendorFilePaths (EmberApp.this w)) ;;
             EmberApp.loadAppFiles apps vendors ;;
             cached <- gets (fun w => EmberApp._bundle (EmberApp.this w)) ;;
             text <- match cached with
                     | Some text => if truthy text then ret text
                                    else match bundle with inl e => throw e | inr b => ret b end
                     | None => match bundle with inl e => throw e | inr b => ret b end
                     end ;;
             EmberApp.on_this (modify (EmberApp.set__bundle text)) ;;
             EmberApp.on_result (Result.evaluate (Source text)) ;;
             ret tt) w))).
    { unfold bind at 1.
      change (EmberApp.on_this (modify (EmberApp.set_hasInitialized true)) w)
        with (@inr JSError unit tt,
              snd (EmberApp.on_this (modify (EmberApp.set_hasInitialized true)) w)).
      cbv beta iota. unfold bind at 1, gets at 1.
      change (EmberApp.sandboxGlobals
                (EmberApp.this
                   (snd (EmberApp.on_this (modify (EmberApp.set_hasInitialized true)) w))))
        with (EmberApp.sandboxGlobals (EmberApp.this w)).
      apply (booted_bind Booting); [|intros _; apply (steps_rest_of_boot w)].
      destruct (boot_block_inv g w Hinv Hinit) as (n1 & Hinv1 & Hinit1).
      exists n1. split; assumption. }
    assert (Hfinal : booted g
      (snd (EmberApp._visitRoute path info bootOptions disableShoebox None w))).
    { unfold EmberApp._visitRoute. unfold bind at 1, gets at 1. rewrite Hinit.
      apply (booted_bind Visiting); [exact Hbooted | intros _; apply steps_after_boot]. }
    destruct Hfinal as (n' & Hinv' & Hinit'). exists n'.
    split; [exact Hinv' | split; [exact Hinit' | discriminate]].
Qed.

Lemma keeps_bind {S A B} (Q : S -> Prop) (c : M S A) (k : A -> M S B) :
  keeps Q c -> (forall a, keeps Q (k a)) -> keeps Q (bind c k).
Proof.
  intros Hc Hk s Hs. unfold bind. specialize (Hc s Hs).
  destruct (c s) as [[e|a] s1]; [exact Hc | apply Hk; exact Hc].
Qed.

Lemma keeps_catch {S A} (Q : S -> Prop) (c : M S A) (h : JSError -> M S A) :
  keeps Q c -> (forall e, keeps Q (h e)) -> keeps Q (catch c h).
Proof.
  intros Hc Hh s Hs. unfold catch. specialize (Hc s Hs).
  destruct (c s) as [[e|a] s1]; [apply Hh; exact Hc | exact Hc].
Qed.

Lemma keeps_visiting_steps {A} g was_booted n bs (c : M (EmberApp.World TestPage) A) :
  steps (world_step Idle) c -> keeps (visiting g was_booted n bs) c.
Proof.
  intros Hc w (n' & Hinv & Hsame). specialize (Hc w). exists n'. split.
  - apply (world_inv_step Idle g n' w _ Hinv); [discriminate | exact Hc].
  - intros Hb. destruct (Hsame Hb) as (-> & Hinit & Hbs). split; [reflexivity|].
    destruct Hc as (_ & Hi & _ & Hp). split; [congruence|].
    rewrite <- Hbs. apply (page_step_boot_scripts Idle); [discriminate | exact Hp].
Qed.

Lemma keeps_visiting_visitRoute g was_booted n bs path info bootOptions disableShoebox :
  keeps (visiting g was_booted n bs)
    (EmberApp._visitRoute path info bootOptions disableShoebox None).
Proof.
  intros w (n' & Hinv & Hsame).
  destruct (visitRoute_inv path info bootOptions disableShoebox g n' w Hinv)
    as (n'' & Hinv' & Hinit' & Hkeep).
  exists n''. split; [exact Hinv'|]. intros Hb. destruct (Hsame Hb) as (-> & Hinit & Hbs).
  destruct (Hkeep Hinit) as [-> Hbs']. split; [reflexivity|].
  split; [exact Hinit' | congruence].
Qed.

(** A visit whose deadline timer does not fire keeps the invariant; on
    a booted instance it injects nothing, and the instance stays
    booted. *)
Lemma visit_inv path options g n (s : EmberApp.t * TestPage) :
  boot_inv g n s ->
  exists n',
    boot_inv g n' (snd (EmberApp.visit path options false s)) /\
    (EmberApp.hasInitialized (fst s) = true ->
     n' = n /\
     EmberApp.hasInitialized (fst (snd (EmberApp.visit path options false s))) = true /\
     boot_scripts (snd (snd (EmberApp.visit path options false s))) = boot_scripts (snd s)).
Proof.
  intros Hinv. unfold EmberApp.visit.
  destruct (FastBootInfo.new _ _ _ _) as [e|info].
  - exists n. split; [exact Hinv|]. intros Hinit. repeat split. exact Hinit.
  - replace (match o_destroyAppInstanceInMs options with
             | Some ms => if (0 <? ms)%Z && false then Some ms else None
             | None => None
             end) with (@None Z)
      by (destruct (o_destroyAppInstanceInMs options); [rewrite andb_false_r|]; reflexivity).
    match goal with |- context [?c {| EmberApp.this := fst s; EmberApp.didDestroy := false;
                                      EmberApp.result := Result.new None;
                                      EmberApp.page := snd s |}] =>
      assert (Hkeeps : keeps (visiting g (EmberApp.hasInitialized (fst s)) n
                                (boot_scripts (snd s))) c)
    end.
    { apply keeps_bind.
      { apply keeps_visiting_steps. apply steps_world_on_result. apply steps_setContent. }
      intros _. apply keeps_bind.
      { apply keeps_catch.
        - apply keeps_bind.
          + apply keeps_visiting_steps. apply steps_world_on_result.
            apply steps_on_page. apply steps_TestPage_evaluate. exact I.
          + intros _. apply keeps_visiting_visitRoute.
        - intros error. apply keeps_visiting_steps.
          apply steps_bind; [apply _ | apply steps_gets; apply _ |].
          intros [|]; [|apply steps_set_result_error].
          destruct (message error) as [msg|]; [|apply steps_throw; apply _].
          destruct (includes _ msg || includes _ msg);
            [apply steps_ret; apply _ | apply steps_set_result_error]. }
      intros _. apply keeps_visiting_steps. apply steps_gets. apply _. }
    specialize (Hkeeps {| EmberApp.this := fst s; EmberApp.didDestroy := false;
                          EmberApp.result := Result.new None;
                          EmberApp.page := snd s |}).
    destruct Hkeeps as (n' & [Hinv' _] & Hsame).
    { exists n. split; [split; [destruct s; exact Hinv | reflexivity]|].
      intros Hb. repeat split. exact Hb. }
    match type of Hinv' with boot_inv _ _ (EmberApp.this (snd ?x), _) =>
      destruct x as [r w] end.
    exists n'. split; [exact Hinv' | exact Hsame].
Qed.

End VisitsBootOnce.

Lemma visit_each_app `{Runtime} visits later s :
  visit_each (visits ++ later) s = visit_each later (visit_each visits s).
Proof.
  revert s. induction visits as [|[path options] visits IH]; intros s; [reflexivity|].
  cbn [app visit_each]. apply IH.
Qed.

Lemma visit_each_inv `{Runtime} visits g : forall n s,
  boot_inv g n s ->
  exists n',
    boot_inv g n' (visit_each visits s) /\
    (EmberApp.hasInitialized (fst s) = true ->
     n' = n /\ boot_scripts (snd (visit_each visits s)) = boot_scripts (snd s)).
Proof.
  induction visits as [|[path options] visits IH]; intros n s Hinv.
  - exists n. split; [exact Hinv | intros _; split; reflexivity].
  - cbn [visit_each]. destruct (visit_inv path options g n s Hinv) as (n1 & Hinv1 & Hsame1).
    destruct (IH n1 _ Hinv1) as (n2 & Hinv2 & Hsame2).
    exists n2. split; [exact Hinv2|]. intros Hinit.
    destruct (Hsame1 Hinit) as (-> & Hinit1 & Hbs1).
    destruct (Hsame2 Hinit1) as [-> Hbs2]. split; [reflexivity | congruence].
Qed.

(** The timer of the deadline writes [_hasInitialized] and leaves
    [hasInitialized], the flag [_visitRoute] reads, as it is: on any
    page, whatever the reload does. *)
Lemma destroyAppInstance_keeps_flag {P : Type} `{Page P} `{Runtime}
    (ms : Z) (w : EmberApp.World P) :
  EmberApp.hasInitialized (EmberApp.this (snd (EmberApp.destroyAppInstance ms w)))
    = EmberApp.hasInitialized (EmberApp.this w).
Proof.
  unfold EmberApp.destroyAppInstance, EmberApp.set_didDestroy, EmberApp.set_result_error,
    EmberApp.on_this, EmberApp.on_result, Result.on_result, Result.on_page,
    bind, catch, zoom, modify, ret, throw.
  cbv beta iota delta [fst snd]. cbn [EmberApp.this EmberApp.result EmberApp.page].
  destruct (page_reload (EmberApp.page w)) as [[e|[]] p1].
  - destruct (message e) as [msg|]; [|reflexivity].
    destruct (negb (includes _ msg)); reflexivity.
  - reflexivity.
Qed.

(* ================================================================== *)
(** * Scenarios *)
(* ================================================================== *)

(** C1: the code at the failing input. The deadline timer fires: the
    page is reloaded, its globals are gone and the result carries the
    error of the deadline. The timer has cleared [_hasInitialized], but
    [hasInitialized], the flag [_visitRoute] consults, is still set. The
    next visit on the instance therefore injects nothing, the page has
    served the one injection of the first visit, and the in-context
    visit fails for the lack of the bundle. *)
Theorem deadline_leaves_booted_flag :
  carried_error (fst deadline_visit)
    = Some (Error (lit "App instance was forcefully destroyed in 5ms")) /\
  EmberApp._hasInitialized (fst (snd deadline_visit)) = false /\
  EmberApp.hasInitialized (fst (snd deadline_visit)) = true /\
  realm (snd (snd deadline_visit)) = empty_realm /\
  boots (snd (snd deadline_visit)) = 1 /\
  boots (snd (snd visit_after_deadline)) = 1 /\
  window (realm (snd (snd visit_after_deadline))) !! lit "foo" = None /\
  carried_error (fst visit_after_deadline)
    = Some (Error (lit "Evaluation failed: ReferenceError: FastBootInfo is not defined")).
Proof. vm_compute. repeat split. Qed.

Lemma shoebox_written_witness :
  closed (EmberApp.page booted_world) = false /\
  EmberApp.hasInitialized (EmberApp.this booted_world) = true /\
  @FastBootInfo.from_tuple test_runtime test_returned = inr test_fastbootInfo /\
  exists w',
    @EmberApp._visitRoute _ _ test_runtime (lit "/") test_fastbootInfo
      test_bootOptions false None booted_world = (inr tt, w') /\
    evaluated (EmberApp.page w')
      = evaluated (EmberApp.page booted_world)
          ++ [ RunAppInstance (lit "/") test_bootOptions
                 (FastBootInfo.serialize test_fastbootInfo);
               InsertBodyBeforeEnd
                 (lit "<script type=" ++ dq ++ lit "fastboot/shoebox" ++ dq
                    ++ lit " id=" ++ dq ++ lit "shoebox-key1" ++ dq ++ lit ">"
                    ++ dq ++ lit "bar" ++ dq ++ lit "</script>");
               InsertBodyBeforeEnd
                 (lit "<script type=" ++ dq ++ lit "fastboot/shoebox" ++ dq
                    ++ lit " id=" ++ dq ++ lit "shoebox-key4" ++ dq ++ lit ">"
                    ++ dq ++ u_escape "003c" ++ lit "script" ++ u_escape "003e"
                    ++ u_escape "0026" ++ u_escape "003c" ++ lit "/script"
                    ++ u_escape "003e" ++ dq ++ lit "</script>");
               RemoveEmberApplicationClass ].
Proof.
  split; [vm_compute; reflexivity|]. split; [vm_compute; reflexivity|].
  split; [vm_compute; reflexivity|].
  destruct (@shoebox_written test_runtime booted_world test_fastbootInfo
              [ (lit "key1", VString (lit "bar"));
                (lit "key4", VString (lit "<script>&</script>")) ])
    as [_ Hvisit]; try (vm_compute; reflexivity).
  destruct (Hvisit (lit "/") test_bootOptions test_fastbootInfo false test_returned)
    as (w' & E & _ & _ & Hev); try (vm_compute; reflexivity).
  exists w'. split; [exact E|]. rewrite Hev. vm_compute. reflexivity.
Defined.


(* ================================================================== *)
(** * The escapes of the shoebox, for every text *)
(* ================================================================== *)

Lemma JSON_ESCAPE_lookup_clean (c : N) :
  JSON_ESCAPE_REGEXP c = true ->
  Forall (fun d => JSON_ESCAPE_REGEXP d = false) (JSON_ESCAPE_lookup c).
Proof.
  unfold JSON_ESCAPE_REGEXP at 1. cbn [existsb].
  rewrite !orb_true_iff, !N.eqb_eq.
  intros Hc. apply List.Forall_forall. intros d Hd. apply negb_true_iff.
  revert d Hd. apply forallb_forall.
  destruct Hc as [-> | [-> | [-> | [-> | [-> | Hc]]]]];
    [vm_compute; reflexivity .. | discriminate].
Qed.

Lemma escapeJSONString_clean (text : jsstring) :
  Forall (fun c => JSON_ESCAPE_REGEXP c = false) (escapeJSONString text).
Proof.
  unfold escapeJSONString. induction text as [|c text IH]; [constructor|].
  cbn [flat_map]. apply Forall_app. split; [|exact IH].
  destruct (JSON_ESCAPE_REGEXP c) eqn:Hc.
  - apply JSON_ESCAPE_lookup_clean. exact Hc.
  - constructor; [exact Hc | constructor].
Qed.

Lemma escapeJSONString_fixes (text : jsstring) :
  Forall (fun c => JSON_ESCAPE_REGEXP c = false) text -> escapeJSONString text = text.
Proof.
  unfold escapeJSONString. induction 1 as [|c text Hc _ IH]; [reflexivity|].
  cbn [flat_map]. rewrite Hc, IH. reflexivity.
Qed.

(** X1. For every text, the escaped text holds none of the characters [&],
    [<], [>], U+2028 and U+2029, and so no [</script]: the content of a
    shoebox element cannot close the element. *)
Theorem escapeJSONString_no_markup (text : jsstring) :
  Forall (fun c => JSON_ESCAPE_REGEXP c = false) (escapeJSONString text) /\
  includes (lit "</script") (escapeJSONString text) = false.
Proof.
  split; [apply escapeJSONString_clean|].
  apply not_true_is_false. intros Hin. apply includes_spec in Hin.
  destruct Hin as (u & t & Heq).
  pose proof (escapeJSONString_clean text) as Hclean. rewrite Heq in Hclean.
  apply Forall_app in Hclean. destruct Hclean as [_ Hclean].
  apply Forall_app in Hclean. destruct Hclean as [Hclean _].
  apply Forall_inv in Hclean. vm_compute in Hclean. discriminate.
Qed.

(** X2. Escaping an escaped text changes nothing, and the texts the
    escaping leaves as they are are the texts without a character to
    escape. *)
Theorem escapeJSONString_idempotent (text : jsstring) :
  escapeJSONString (escapeJSONString text) = escapeJSONString text /\
  (escapeJSONString text = text <->
   Forall (fun c => JSON_ESCAPE_REGEXP c = false) text).
Proof.
  split; [apply escapeJSONString_fixes, escapeJSONString_clean|]. split.
  - intros Heq. rewrite <- Heq. apply escapeJSONString_clean.
  - apply escapeJSONString_fixes.
Qed.

(* ================================================================== *)
(** * The chunks, by the shape of the document *)
(* ================================================================== *)

Lemma includes_suffix (p u t : jsstring) :
  includes p (u ++ t) = false -> includes p t = false.
Proof.
  intros Hf. apply not_true_is_false. intros Ht. apply includes_spec in Ht.
  destruct Ht as (v & w & ->).
  assert (includes p (u ++ v ++ p ++ w) = true) as Hin.
  { apply includes_spec. exists (u ++ v), w. rewrite <- app_assoc. reflexivity. }
  congruence.
Qed.

(** The first group ends with [</head>], and the second holds none. *)
Lemma match_HTML_HEAD_REGEX_Some (s head body : jsstring) :
  Result.match_HTML_HEAD_REGEX s = Some (head, body) ->
  (exists u, head = u ++ lit "</head>") /\
  includes (lit "</head>") body = false.
Proof.
  revert head body. induction s as [|c s IH]; intros head body Hm; [discriminate|].
  cbn [Result.match_HTML_HEAD_REGEX] in Hm.
  destruct (Result.match_HTML_HEAD_REGEX s) as [[h b]|] eqn:Hs.
  - injection Hm as <- <-. destruct (IH h b eq_refl) as [[u ->] Hb].
    split; [exists (c :: u); reflexivity | exact Hb].
  - destruct (starts_with (lit "</head>") (c :: s)) eqn:Hsw; [|discriminate].
    injection Hm as <- <-. split; [exists []; reflexivity|].
    apply match_HTML_HEAD_REGEX_None in Hs.
    apply starts_with_spec in Hsw. destruct Hsw as [t Ht].
    change (lit "</head>") with ([60%N] ++ lit "/head>") in Ht.
    injection Ht as -> ->.
    change (drop 7 (60%N :: lit "/head>" ++ t)) with t.
    apply (includes_suffix _ (lit "/head>")). exact Hs.
Qed.

Lemma match_HTML_HEAD_REGEX_bare (u : jsstring) :
  Result.match_HTML_HEAD_REGEX (u ++ lit "</head>") = Some (u ++ lit "</head>", []).
Proof.
  induction u as [|c u IH]; [reflexivity|].
  cbn [app Result.match_HTML_HEAD_REGEX]. rewrite IH. reflexivity.
Qed.

(** X3. A cached document without [</head>] comes back as one chunk, the
    document itself, and the result is left as it is. *)
Theorem chunks_without_head (r : Result.t) (html : jsstring) :
  Result._html r = Some html ->
  includes (lit "</head>") html = false ->
  Result.chunks r = (inr [html], r).
Proof.
  intros Hhtml Hnone. apply match_HTML_HEAD_REGEX_None in Hnone.
  unfold Result.chunks, bind, gets. rewrite Hhtml, Hnone. reflexivity.
Qed.

(** X4. [chunks()] throws its error exactly for the cached documents that
    end with [</head>]: they have a head and nothing behind it. *)
Theorem chunks_bare_head (r : Result.t) (html : jsstring) :
  Result._html r = Some html ->
  (Result.chunks r
     = (inl (Error (lit "Could not idenfity head and body of the document! Make sure the document is well formed.")), r)
   <-> exists u, html = u ++ lit "</head>").
Proof.
  intros Hhtml. unfold Result.chunks, bind, gets. rewrite Hhtml. split.
  - destruct (Result.match_HTML_HEAD_REGEX html) as [[head body]|] eqn:Hm; [|discriminate].
    pose proof (match_HTML_HEAD_REGEX_glue _ _ _ Hm) as Hglue.
    destruct (match_HTML_HEAD_REGEX_Some _ _ _ Hm) as [[u Hu] _].
    destruct body as [|b body].
    + intros _. exists u. rewrite <- Hglue, app_nil_r. exact Hu.
    + assert (truthy head = true) as ->.
      { rewrite Hu. destruct u; reflexivity. }
      cbn [truthy negb orb].
      destruct (split SHOEBOX_TAG_PATTERN (b :: body)); discriminate.
  - intros [u ->]. rewrite match_HTML_HEAD_REGEX_bare.
    assert (truthy (u ++ lit "</head>") = true) as ->.
    { destruct u; reflexivity. }
    reflexivity.
Qed.

Lemma split_scan_first (sep s : jsstring) :
  sep <> [] ->
  (exists t, s = fst (split_scan sep 0 s) ++ t) /\
  includes sep (fst (split_scan sep 0 s)) = false.
Proof.
  intros Hsep. induction s as [|c s [[t Ht] IH]].
  - split; [exists []; reflexivity|]. destruct sep; [congruence | reflexivity].
  - cbn [split_scan]. destruct (starts_with sep (c :: s)) eqn:Hsw.
    + cbn [fst]. split; [exists (c :: s); reflexivity|].
      destruct sep; [congruence | reflexivity].
    + destruct (split_scan sep 0 s) as [p ps]. cbn [fst] in *. split.
      * exists t. rewrite Ht at 1. reflexivity.
      * cbn [includes]. rewrite IH, orb_false_r.
        apply not_true_is_false. intros Hp. apply starts_with_spec in Hp.
        destruct Hp as [x Hx].
        assert (starts_with sep (c :: s) = true) as Habs.
        { apply starts_with_spec. exists (x ++ t). rewrite Ht, app_comm_cons, Hx, <- app_assoc.
          reflexivity. }
        congruence.
Qed.

(** X5. For a cached document with a [</head>], the first chunk runs to
    the end of the last [</head>], no later chunk holds a [</head>], the
    second chunk holds no shoebox tag, and every chunk behind the second
    starts with the shoebox tag. *)
Theorem chunks_shape (r r' : Result.t) (html : jsstring) (cs : list jsstring) :
  Result._html r = Some html ->
  includes (lit "</head>") html = true ->
  Result.chunks r = (inr cs, r') ->
  exists head plainBody shoeboxes,
    cs = head :: plainBody :: map (app SHOEBOX_TAG_PATTERN) shoeboxes /\
    (exists u, head = u ++ lit "</head>") /\
    includes (lit "</head>") (plainBody ++ concat (map (app SHOEBOX_TAG_PATTERN) shoeboxes)) = false /\
    includes SHOEBOX_TAG_PATTERN plainBody = false.
Proof.
  intros Hhtml Hhead. unfold Result.chunks, bind, gets. rewrite Hhtml.
  destruct (Result.match_HTML_HEAD_REGEX html) as [[head body]|] eqn:Hm.
  2:{ apply match_HTML_HEAD_REGEX_None in Hm. congruence. }
  destruct (match_HTML_HEAD_REGEX_Some _ _ _ Hm) as [Hu Hbody].
  destruct (negb (truthy head) || negb (truthy body)); [discriminate|].
  destruct (split SHOEBOX_TAG_PATTERN body) as [|plainBody shoeboxes] eqn:Hsplit.
  { unfold split in Hsplit. cbn in Hsplit. destruct (split_scan _ 0 body); discriminate. }
  intros [= <- _]. exists head, plainBody, shoeboxes.
  split; [reflexivity|]. split; [exact Hu|].
  pose proof (split_glue _ _ _ _ SHOEBOX_TAG_PATTERN_nonempty Hsplit) as Hglue.
  split; [rewrite Hglue; exact Hbody|].
  destruct (split_scan_first SHOEBOX_TAG_PATTERN body SHOEBOX_TAG_PATTERN_nonempty) as [_ Hfirst].
  unfold split in Hsplit. change SHOEBOX_TAG_PATTERN with (60%N :: tl SHOEBOX_TAG_PATTERN) in Hsplit at 1.
  cbv beta iota in Hsplit.
  change (60%N :: tl SHOEBOX_TAG_PATTERN) with SHOEBOX_TAG_PATTERN in Hsplit.
  destruct (split_scan SHOEBOX_TAG_PATTERN 0 body) as [p ps].
  injection Hsplit as <- <-. exact Hfirst.
Qed.

(* ================================================================== *)
(** * Reading the document twice *)
(* ================================================================== *)

(** X6. Reading the document a second time gives what the first reading
    gave and changes nothing more, for every result: with or without
    render info, whatever the status code and the headers. *)
Theorem html_idempotent (r : Result.t) :
  Result.html (snd (Result.html r)) = Result.html r.
Proof.
  unfold Result.html, bind, gets.
  destruct (Result._fastbootInfo r) as [info|] eqn:Hinfo.
  2:{ cbn. rewrite Hinfo. reflexivity. }
  destruct (FastBootInfo.response info) as [response|] eqn:Hresponse;
    cbn [fmap option_fmap option_map].
  2:{ cbn. rewrite Hinfo, Hresponse. reflexivity. }
  destruct (FastBootResponse.statusCode response =? 204)%Z eqn:H204.
  { cbn. rewrite Hinfo, Hresponse. cbn. rewrite H204. reflexivity. }
  destruct ((300 <=? FastBootResponse.statusCode response)%Z
            && (FastBootResponse.statusCode response <=? 399)%Z) eqn:H3xx.
  2:{ cbn. rewrite Hinfo, Hresponse. cbn. rewrite H204, H3xx. reflexivity. }
  destruct (FastBootHeaders.get (lit "location") (FastBootResponse.headers response))
    as [location|] eqn:Hlocation.
  2:{ cbn. rewrite Hinfo, Hresponse. cbn. rewrite H204, H3xx, Hlocation. reflexivity. }
  destruct (truthy location) eqn:Htruthy;
    cbn; rewrite Hinfo, Hresponse; cbn; rewrite H204, H3xx, Hlocation, Htruthy; reflexivity.
Qed.

(* ================================================================== *)
(** * What crosses the boundary of the execution context *)
(* ================================================================== *)

Lemma statusCode_nonzero (this : FastBootResponse.t) :
  FastBootResponse.statusCode this <> 0%Z.
Proof.
  unfold FastBootResponse.statusCode.
  destruct (rs_statusCode _) as [code|]; [|discriminate].
  destruct (Z.eqb_spec code 0); [discriminate | assumption].
Qed.

Lemma statusCode_serialize (this : FastBootResponse.t) :
  FastBootResponse.statusCode (FastBootResponse.new (FastBootResponse.serialize this))
    = FastBootResponse.statusCode this.
Proof.
  unfold FastBootResponse.new, FastBootResponse.serialize.
  unfold FastBootResponse.statusCode at 1.
  cbn [FastBootResponse._response rs_statusCode].
  destruct (Z.eqb_spec (FastBootResponse.statusCode this) 0) as [E|_]; [|reflexivity].
  exfalso. exact (statusCode_nonzero this E).
Qed.

(** X7. A response built from the serialized form of a response has its
    status code, and the headers of a response without headers: the
    constructor reads [_headers], which the serialized form does not
    have. A status code that is set is read back, except 0, which reads
    as 200. *)
Theorem response_round_trip (this : FastBootResponse.t) (code : Z) :
  FastBootResponse.statusCode (FastBootResponse.new (FastBootResponse.serialize this))
    = FastBootResponse.statusCode this /\
  FastBootResponse.headers (FastBootResponse.new (FastBootResponse.serialize this))
    = FastBootHeaders.new None /\
  FastBootResponse.statusCode (FastBootResponse.set_statusCode code this)
    = (if (code =? 0)%Z then 200%Z else code).
Proof.
  split; [apply statusCode_serialize|]. split; reflexivity.
Qed.

(** X8. A request built from the serialized form of a request, with the
    same whitelist, is built without error and has its cookies, query
    parameters, path, method and body; its protocol has one more colon at
    its end. *)
Theorem request_round_trip `{Runtime} (this : FastBootRequest.t) :
  exists this',
    FastBootRequest.new (FastBootRequest.serialize this) (FastBootRequest.hostWhitelist this)
      = inr this' /\
    FastBootRequest.protocol this' = FastBootRequest.protocol this ++ lit ":" /\
    FastBootRequest.hostWhitelist this' = FastBootRequest.hostWhitelist this /\
    FastBootRequest.cookies this' = FastBootRequest.cookies this /\
    FastBootRequest.queryParams this' = FastBootRequest.queryParams this /\
    FastBootRequest.path this' = FastBootRequest.path this /\
    FastBootRequest.method this' = FastBootRequest.method this /\
    FastBootRequest.body this' = FastBootRequest.body this.
Proof.
  eexists. split; [reflexivity|]. cbn. repeat split.
Qed.

(** X9. The render info built from the serialized form of a render info
    has its metadata, its shoebox and the status code of its response,
    200 where it had no response. It has a request exactly where the
    first one had, with the host whitelist of that request; without a
    request, the host whitelist of the options is lost. *)
Theorem info_round_trip `{Runtime} (info : FastBootInfo.t) :
  exists info',
    FastBootInfo.from_tuple (FastBootInfo.serialize info) = inr info' /\
    FastBootInfo.metadata info' = FastBootInfo.metadata info /\
    FastBootInfo.shoebox info' = FastBootInfo.shoebox info /\
    (FastBootResponse.statusCode <$> FastBootInfo.response info'
       = Some (default 200%Z (FastBootResponse.statusCode <$> FastBootInfo.response info))) /\
    match FastBootInfo.request info, FastBootInfo.request info' with
    | Some request, Some request' =>
        FastBootRequest.hostWhitelist request' = FastBootRequest.hostWhitelist request
    | None, None => opt_hostWhitelist (FastBootInfo._options info') = None
    | _, _ => False
    end.
Proof.
  unfold FastBootInfo.from_tuple, FastBootInfo.serialize. cbn [nth].
  cbn [FastBootInfo.options_arg]. unfold FastBootInfo.new.
  assert (Hshoebox : FastBootInfo.shoebox_arg
            match FastBootInfo.shoebox info with
            | Some s => SlotShoebox s
            | None => SlotUndefined
            end = FastBootInfo.shoebox info).
  { destruct (FastBootInfo.shoebox info); reflexivity. }
  rewrite Hshoebox.
  assert (Hstatus : forall response,
    FastBootResponse.statusCode
      (FastBootResponse.new (default empty_response
         (FastBootInfo.response_arg
            match response with
            | Some res => SlotResponse (FastBootResponse.serialize res)
            | None => SlotUndefined
            end)))
    = default 200%Z (FastBootResponse.statusCode <$> response)).
  { intros [res|]; [|reflexivity]. cbn. apply statusCode_serialize. }
  destruct (FastBootInfo.request info) as [req|]; cbn [FastBootInfo.request_arg].
  - unfold FastBootRequest.new, FastBootRequest.extractCookies. cbn.
    eexists. split; [reflexivity|]. cbn. rewrite Hstatus. repeat split.
  - eexists. split; [reflexivity|]. cbn. rewrite Hstatus. repeat split.
Qed.

(* ================================================================== *)
(** * What a visit does to its instance, on any page *)
(* ================================================================== *)

#[export] Instance instance_step_preorder : PreOrder instance_step.
Proof.
  split.
  - intros a. repeat split; auto.
  - intros a1 a2 a3 (E1 & E2 & E3 & E4 & E5 & E6 & E7 & E8)
      (F1 & F2 & F3 & F4 & F5 & F6 & F7 & F8).
    repeat split; try congruence. intros Hinit. apply F8, E8, Hinit.
Qed.

#[export] Instance keeps_instance_preorder {P : Type} : PreOrder (@keeps_instance P).
Proof.
  split.
  - intros w. unfold keeps_instance. reflexivity.
  - intros w1 w2 w3 H1 H2. unfold keeps_instance in *. etransitivity; eassumption.
Qed.

#[export] Instance keeps_didDestroy_preorder {P : Type} : PreOrder (@keeps_didDestroy P).
Proof.
  split.
  - intros w. reflexivity.
  - intros w1 w2 w3 H1 H2. unfold keeps_didDestroy in *. congruence.
Qed.

Section VisitSteps.
Context {P : Type} `{Page P} `{Runtime}.
Variable R : relation (EmberApp.World P).
Context `{!PreOrder R}.
Hypothesis R_on_result :
  forall A (c : M (Result.t * P) A), steps R (EmberApp.on_result c).
Hypothesis R_set_hasInitialized :
  steps R (EmberApp.on_this (P:=P) (modify (EmberApp.set_hasInitialized true))).
Hypothesis R_set__bundle :
  forall text, steps R (EmberApp.on_this (P:=P) (modify (EmberApp.set__bundle text))).

Lemma frame_loadAppFiles apps vendors :
  steps R (EmberApp.loadAppFiles apps vendors).
Proof using R_on_result PreOrder0.
  unfold EmberApp.loadAppFiles.
  assert (Hfile : forall filePath,
             steps R
               (match readFileSync filePath with
                | inl e => throw e
                | inr file => EmberApp.on_result (Result.evaluate (Source file)) ;; ret tt
                end : M (EmberApp.World P) unit)).
  { intros filePath. destruct (readFileSync filePath); [apply steps_throw; apply _|].
    apply steps_bind; [apply _ | apply R_on_result |].
    intros _. apply steps_ret; apply _. }
  apply steps_bind; [apply _ | apply steps_for_each; [apply _ | exact Hfile] |].
  intros _. apply steps_for_each; [apply _ | exact Hfile].
Qed.

Lemma frame_createShoebox info : steps R (EmberApp.createShoebox info).
Proof using R_on_result PreOrder0.
  unfold EmberApp.createShoebox. destruct (FastBootInfo.shoebox info); [|apply steps_ret; apply _].
  apply steps_for_each; [apply _|]. intros [key value].
  apply steps_bind; [apply _ | apply R_on_result |].
  intros _. apply steps_ret; apply _.
Qed.

(** The route, given what the in-context visit does. *)
Lemma frame_visitRoute path info bootOptions (disableShoebox : bool) deadline :
  steps R (EmberApp.runAppInstance path bootOptions info deadline) ->
  steps R (EmberApp._visitRoute path info bootOptions disableShoebox deadline).
Proof using R_on_result R_set_hasInitialized R_set__bundle PreOrder0.
  intros Hrun. unfold EmberApp._visitRoute.
  apply steps_bind; [apply _ | apply steps_gets; apply _ |]. intros initialized.
  apply steps_bind; [apply _ | |].
  - destruct initialized; [apply steps_ret; apply _|].
    apply steps_bind; [apply _ | apply R_set_hasInitialized |].
    intros _. apply steps_bind; [apply _ | apply steps_gets; apply _ |]. intros globals.
    apply steps_bind; [apply _ | apply R_on_result |]. intros _.
    apply steps_bind; [apply _ | apply steps_gets; apply _ |]. intros name.
    apply steps_bind; [apply _ | apply steps_gets; apply _ |]. intros conf.
    apply steps_bind; [apply _ | |].
    { unfold EmberApp.initializeAppEnvironment.
      apply steps_bind; [apply _ | apply R_on_result |].
      intros _. apply steps_ret; apply _. }
    intros _. apply steps_bind; [apply _ | apply steps_gets; apply _ |]. intros apps.
    apply steps_bind; [apply _ | apply steps_gets; apply _ |]. intros vendors.
    apply steps_bind; [apply _ | apply frame_loadAppFiles |]. intros _.
    apply steps_bind; [apply _ | apply steps_gets; apply _ |]. intros cached.
    apply steps_bind; [apply _ | |].
    { destruct cached as [text|]; [destruct (truthy text); [apply steps_ret; apply _|]|];
        (destruct bundle; [apply steps_throw; apply _ | apply steps_ret; apply _]). }
    intros text. apply steps_bind; [apply _ | apply R_set__bundle |].
    intros _. apply steps_bind; [apply _ | apply R_on_result |].
    intros _. apply steps_ret; apply _.
  - intros _. apply steps_bind; [apply _ | |].
    + apply steps_catch; [apply _ | |].
      * apply steps_bind; [apply _ | exact Hrun |].
        intros r. apply steps_ret; apply _.
      * intros e. apply steps_ret; apply _.
    + intros [returnedInfo error].
      destruct (FastBootInfo.from_tuple returnedInfo) as [e|fastbootInfo];
        [apply steps_throw; apply _|].
      apply steps_bind; [apply _ | apply R_on_result |]. intros _.
      apply steps_bind; [apply _ | |].
      { destruct disableShoebox; [apply steps_ret; apply _ | apply frame_createShoebox]. }
      intros _. apply steps_bind; [apply _ | apply R_on_result |]. intros _.
      destruct error; [apply steps_throw; apply _ | apply steps_ret; apply _].
Qed.

(** The callback of the timer and the in-context visit it interrupts. *)
Hypothesis R_set__hasInitialized :
  steps R (EmberApp.on_this (P:=P) (modify (EmberApp.set__hasInitialized false))).
Hypothesis R_set_didDestroy : steps R (EmberApp.set_didDestroy (P:=P)).

Lemma frame_destroyAppInstance ms : steps R (EmberApp.destroyAppInstance ms).
Proof using R_on_result R_set__hasInitialized R_set_didDestroy PreOrder0.
  unfold EmberApp.destroyAppInstance.
  apply steps_bind; [apply _ | apply R_set_didDestroy |]. intros _.
  apply steps_bind; [apply _ | |].
  - apply steps_catch; [apply _ | |].
    + apply steps_bind; [apply _ | apply R_on_result |]. intros _.
      apply steps_bind; [apply _ | apply R_on_result |]. intros _.
      apply steps_ret; apply _.
    + intros e. destruct (message e) as [msg|]; [|apply steps_throw; apply _].
      apply steps_bind; [apply _ | | intros _; apply steps_ret; apply _].
      destruct (negb _); [apply R_on_result | apply steps_ret; apply _].
  - intros reloaded. apply steps_bind; [apply _ | | intros _; apply steps_ret; apply _].
    apply R_set__hasInitialized.
Qed.

Lemma frame_runAppInstance path bootOptions info deadline :
  steps R (EmberApp.runAppInstance path bootOptions info deadline).
Proof using R_on_result R_set__hasInitialized R_set_didDestroy PreOrder0.
  unfold EmberApp.runAppInstance. destruct deadline as [ms|]; [|apply R_on_result].
  apply steps_bind; [apply _ | apply steps_gets; apply _ |]. intros destroyed.
  destruct destroyed; [apply steps_ret; apply _|].
  apply steps_bind; [apply _ | | intros r; apply steps_ret; apply _].
  apply steps_tryWithPageAwareness; [apply _|].
  apply steps_bind; [apply _ | | intros r; apply steps_throw; apply _].
  apply steps_catch; [apply _ | apply frame_destroyAppInstance |].
  intros e. apply steps_ret; apply _.
Qed.

End VisitSteps.

Section AnyPage.
Context {P : Type} `{Page P} `{Runtime}.

Lemma keeps_instance_on_result {A} (c : M (Result.t * P) A) :
  steps keeps_instance (EmberApp.on_result c).
Proof.
  intros w. unfold EmberApp.on_result, zoom. destruct (c _) as [r rp].
  unfold keeps_instance. cbn. reflexivity.
Qed.

Lemma keeps_instance_on_this (f : EmberApp.t -> EmberApp.t) :
  (forall a, instance_step a (f a)) ->
  steps keeps_instance (EmberApp.on_this (P:=P) (modify f)).
Proof. intros Hf w. unfold keeps_instance. cbn. apply Hf. Qed.

Lemma keeps_instance_visitRoute path info bootOptions (disableShoebox : bool) deadline :
  steps keeps_instance
    (EmberApp._visitRoute path info bootOptions disableShoebox deadline).
Proof.
  apply frame_visitRoute; try apply _.
  - intros A c. apply keeps_instance_on_result.
  - apply keeps_instance_on_this. intros a. repeat split; auto.
  - intros text. apply keeps_instance_on_this. intros a. repeat split; auto.
  - apply frame_runAppInstance; try apply _.
    + intros A c. apply keeps_instance_on_result.
    + apply keeps_instance_on_this. intros a. repeat split; auto.
    + intros w. unfold keeps_instance. cbn. reflexivity.
Qed.

Lemma keeps_didDestroy_on_result {A} (c : M (Result.t * P) A) :
  steps keeps_didDestroy (EmberApp.on_result c).
Proof.
  intros w. unfold EmberApp.on_result, zoom. destruct (c _) as [r rp]. reflexivity.
Qed.

Lemma keeps_didDestroy_on_this {A} (c : M EmberApp.t A) :
  steps keeps_didDestroy (EmberApp.on_this (P:=P) c).
Proof.
  intros w. unfold EmberApp.on_this, zoom. destruct (c _) as [r a]. reflexivity.
Qed.

(** Without a timer that fires, the route leaves [didDestroy] alone. *)
Lemma keeps_didDestroy_visitRoute path info bootOptions (disableShoebox : bool) :
  steps keeps_didDestroy
    (EmberApp._visitRoute path info bootOptions disableShoebox None).
Proof.
  apply frame_visitRoute; try apply _.
  - intros A c. apply keeps_didDestroy_on_result.
  - apply keeps_didDestroy_on_this.
  - intros text. apply keeps_didDestroy_on_this.
  - apply keeps_didDestroy_on_result.
Qed.

End AnyPage.

(** X10. A visit, whatever its options and its outcome and whether or not the
    deadline timer fires, leaves the file paths, the host whitelist, the
    configuration, the name, the sandbox globals and the document of the
    instance as they are, and never clears the flag [hasInitialized]
    that [_visitRoute] consults. *)
Theorem visit_keeps_instance {P : Type} `{Page P} `{Runtime}
    (path : jsstring) (options : VisitOptions) (fires : bool) (s : EmberApp.t * P) :
  instance_step (fst s) (fst (snd (EmberApp.visit path options fires s))).
Proof.
  unfold EmberApp.visit. destruct (FastBootInfo.new _ _ _ _) as [e|info]; [reflexivity|].
  match goal with
  | |- context [let '(r, w) := ?c ?w0 in _] =>
      assert (Hsteps : keeps_instance w0 (snd (c w0)));
      [|destruct (c w0) as [r w]; exact Hsteps]
  end.
  apply steps_bind; [apply _ | apply keeps_instance_on_result |]. intros _.
  apply steps_bind; [apply _ | | intros _; apply steps_gets; apply _].
  apply steps_catch; [apply _ | |].
  - apply steps_bind; [apply _ | apply keeps_instance_on_result |]. intros _.
    apply keeps_instance_visitRoute.
  - intros error. apply steps_bind; [apply _ | apply steps_gets; apply _ |].
    intros destroyed. destruct destroyed; [|apply keeps_instance_on_result].
    destruct (message error) as [msg|]; [|apply steps_throw; apply _].
    destruct (_ || _); [apply steps_ret; apply _ | apply keeps_instance_on_result].
Qed.

(** X11. Without a deadline timer that fires, a visit is rejected only
    where the render info cannot be built or where loading the document
    into the page throws: every error of the clearing of the storage and
    of the route is caught. *)
Theorem visit_rejects_before_route {P : Type} `{Page P} `{Runtime}
    (path : jsstring) (options : VisitOptions) (s s' : EmberApp.t * P) (e : JSError) :
  EmberApp.visit path options false s = (inl e, s') ->
  visit_info options (fst s) = inl e \/
  fst (Result.setContent (visit_html options (fst s)) (Result.new None, snd s)) = inl e.
Proof.
  unfold EmberApp.visit. change (FastBootInfo.new _ _ _ _) with (visit_info options (fst s)).
  destruct (visit_info options (fst s)) as [e0|info]; [intros [= -> _]; left; reflexivity|].
  assert (Hdeadline : match o_destroyAppInstanceInMs options with
                      | Some ms => if (0 <? ms)%Z && false then Some ms else None
                      | None => None
                      end = None).
  { destruct (o_destroyAppInstanceInMs options); [rewrite andb_false_r|]; reflexivity. }
  rewrite Hdeadline. clear Hdeadline.
  change (match o_html options with
          | Some h => if truthy h then h else EmberApp.html (fst s)
          | None => EmberApp.html (fst s)
          end) with (visit_html options (fst s)).
  unfold bind at 1. unfold EmberApp.on_result at 1, zoom at 1.
  cbn [EmberApp.result EmberApp.page EmberApp.this EmberApp.didDestroy].
  destruct (Result.setContent (visit_html options (fst s)) (Result.new None, snd s))
    as [[e1|[]] rp1] eqn:Hcontent.
  { intros [= -> _]. right. reflexivity. }
  unfold bind at 1.
  match goal with
  | |- context [catch ?body ?handler ?w1] =>
      pose proof (steps_bind keeps_didDestroy _ _
                    (keeps_didDestroy_on_result
                       (Result.on_page (page_evaluate ClearPageStorage)))
                    (fun _ => keeps_didDestroy_visitRoute path info
                                (buildBootOptions (default true (o_shouldRender options)))
                                (o_disableShoebox options)) w1) as Hkept;
      unfold catch at 1; destruct (body w1) as [[err|[]] w2]
  end.
  - unfold keeps_didDestroy in Hkept. cbn [snd EmberApp.didDestroy] in Hkept.
    unfold bind at 1, gets at 1. rewrite Hkept.
    unfold EmberApp.set_result_error, EmberApp.on_result, zoom, Result.on_result, zoom, modify.
    cbn. discriminate.
  - cbn. discriminate.
Qed.

(* ================================================================== *)
(** * The scripts a visit evaluates on the page double *)
(* ================================================================== *)

Lemma served_refl w : served [] w w.
Proof. unfold served. rewrite app_nil_r. repeat split. Qed.

Lemma served_trans s1 s2 w w1 w2 :
  served s1 w w1 -> served s2 w1 w2 -> served (s1 ++ s2) w w2.
Proof.
  intros (A1 & A2 & A3 & A4 & A5 & A6 & A7 & A8 & A9 & A10)
         (B1 & B2 & B3 & B4 & B5 & B6 & B7 & B8 & B9 & B10).
  unfold served. rewrite foldl_app, app_assoc, <- A9, <- A10.
  repeat split; congruence.
Qed.

Lemma served_ready s w w' : served s w w' -> ready w -> ready w'.
Proof.
  intros (_ & _ & A3 & _ & _ & _ & A7 & _) [Hopen Hlive]. split; congruence.
Qed.

Lemma TestPage_evaluate_open (script : Script) (p : TestPage) :
  closed p = false ->
  snd (TestPage_evaluate script p)
    = record (CallEvaluate script) (realm_after (realm p) script) p.
Proof.
  intros Hopen. unfold TestPage_evaluate. rewrite Hopen. destruct script; reflexivity.
Qed.

Lemma TestPage_evaluate_quiet (script : Script) (p : TestPage) :
  closed p = false -> is_run script = false ->
  fst (TestPage_evaluate script p) = inr None.
Proof.
  intros Hopen Hrun. unfold TestPage_evaluate. rewrite Hopen.
  destruct script; try reflexivity. discriminate.
Qed.

(** A script that returns normally. *)
Lemma served_evaluate (w : EmberApp.World TestPage) (script : Script)
    (v : option (list Slot)) :
  ready w ->
  fst (TestPage_evaluate script (EmberApp.page w)) = inr v ->
  exists w',
    EmberApp.on_result (Result.evaluate script) w = (inr v, w') /\
    served [script] w w'.
Proof.
  intros [Hopen Hlive] Hv.
  pose proof (TestPage_evaluate_open script _ Hopen) as Hp1.
  destruct (TestPage_evaluate script (EmberApp.page w)) as [out p1] eqn:Heval.
  cbn [fst snd] in Hv, Hp1. subst out.
  unfold EmberApp.on_result, zoom.
  rewrite (evaluate_open _ _ Hopen Hlive script v p1 Heval).
  eexists. split; [reflexivity|].
  unfold served. cbn [EmberApp.this EmberApp.didDestroy EmberApp.result EmberApp.page fst snd].
  rewrite evaluated_record_harvest. subst p1. rewrite evaluated_record_evaluate.
  repeat split.
Qed.

Lemma served_quiet (w : EmberApp.World TestPage) (script : Script) :
  ready w -> is_run script = false ->
  exists w',
    EmberApp.on_result (Result.evaluate script) w = (inr None, w') /\
    served [script] w w'.
Proof.
  intros Hready Hrun. apply served_evaluate; [exact Hready|].
  apply TestPage_evaluate_quiet; [apply Hready | exact Hrun].
Qed.

Lemma on_this_modify (f : EmberApp.t -> EmberApp.t) (w : EmberApp.World TestPage) :
  EmberApp.on_this (modify f) w = (inr tt, with_this f w).
Proof. reflexivity. Qed.

Lemma on_result_modify (f : Result.t -> Result.t) (w : EmberApp.World TestPage) :
  EmberApp.on_result (Result.on_result (modify f)) w = (inr tt, with_result f w).
Proof. reflexivity. Qed.

Lemma for_each_app {S A} (f : A -> M S unit) (l1 l2 : list A) (s : S) :
  for_each f (l1 ++ l2) s = (for_each f l1 ;; for_each f l2) s.
Proof.
  revert s. induction l1 as [|x l1 IH]; intros s; [reflexivity|].
  cbn [app for_each]. unfold bind in *.
  destruct (f x s) as [[e|[]] s1]; [reflexivity|]. apply IH.
Qed.

Section Files.
Context `{Runtime}.

(** The files that can be read are evaluated in order. *)
Lemma served_files (paths : list jsstring) (texts : list jsstring) :
  Forall2 (fun filePath text => readFileSync filePath = inr text) paths texts ->
  forall w, ready w ->
    exists w',
      for_each (fun filePath =>
                  match readFileSync filePath with
                  | inl e => throw e
                  | inr file => EmberApp.on_result (Result.evaluate (Source file)) ;; ret tt
                  end) paths w = (inr tt, w') /\
      served (map Source texts) w w'.
Proof.
  induction 1 as [|filePath text paths texts Hread _ IH]; intros w Hready.
  - exists w. split; [reflexivity | apply served_refl].
  - destruct (served_quiet w (Source text) Hready eq_refl) as (w1 & E1 & Hs1).
    destruct (IH w1 (served_ready _ _ _ Hs1 Hready)) as (w' & E & Hs).
    exists w'. split.
    + cbn [for_each]. unfold bind at 1. rewrite Hread. unfold bind at 1.
      rewrite E1. unfold ret at 1. exact E.
    + apply (served_trans [Source text] (map Source texts) w w1 w'); assumption.
Qed.

End Files.

Lemma bind_inr {S A B} (c : M S A) (k : A -> M S B) (s s' : S) (a : A) :
  c s = (inr a, s') -> bind c k s = k a s'.
Proof. intros E. unfold bind. rewrite E. reflexivity. Qed.

Lemma bind_inl {S A B} (c : M S A) (k : A -> M S B) (s s' : S) (e : JSError) :
  c s = (inl e, s') -> bind c k s = (inl e, s').
Proof. intros E. unfold bind. rewrite E. reflexivity. Qed.

Lemma bind_gets {S A B} (f : S -> A) (k : A -> M S B) (s : S) :
  bind (gets f) k s = k (f s) s.
Proof. reflexivity. Qed.

Lemma bind_ret {S A B} (a : A) (k : A -> M S B) (s : S) :
  bind (ret a) k s = k a s.
Proof. reflexivity. Qed.

Section Boot.
Context `{Runtime}.

(** Behind the files that can be read, [loadAppFiles] goes on with the
    rest. *)
Lemma loadAppFiles_prefix (apps vendors good rest texts : list jsstring)
    (w : EmberApp.World TestPage) :
  ready w ->
  vendors ++ apps = good ++ rest ->
  readable good texts ->
  exists w',
    served (map Source texts) w w' /\
    EmberApp.loadAppFiles apps vendors w
      = for_each (fun filePath =>
                    match readFileSync filePath with
                    | inl e => throw e
                    | inr file =>
                        EmberApp.on_result (Result.evaluate (Source file)) ;; ret tt
                    end) rest w'.
Proof.
  intros Hready Hsplit Hgood.
  destruct (served_files good texts Hgood w Hready) as (w' & E & Hs).
  exists w'. split; [exact Hs|].
  unfold EmberApp.loadAppFiles.
  rewrite <- for_each_app, Hsplit, for_each_app.
  exact (bind_inr _ (fun _ => for_each _ rest) w w' tt E).
Qed.

(** X12. [loadAppFiles] evaluates the vendor files and then the app files,
    each in the order of its list, up to the first file that cannot be
    read: there it throws the error of the read and evaluates no file
    after it. *)
Theorem loadAppFiles_order (apps vendors good rest texts : list jsstring)
    (w : EmberApp.World TestPage) :
  ready w ->
  vendors ++ apps = good ++ rest ->
  readable good texts ->
  exists w',
    served (map Source texts) w w' /\
    match rest with
    | [] => EmberApp.loadAppFiles apps vendors w = (inr tt, w')
    | bad :: _ =>
        forall e, readFileSync bad = inl e ->
                  EmberApp.loadAppFiles apps vendors w = (inl e, w')
    end.
Proof.
  intros Hready Hsplit Hgood.
  destruct (loadAppFiles_prefix apps vendors good rest texts w Hready Hsplit Hgood)
    as (w' & Hs & E).
  exists w'. split; [exact Hs|]. rewrite E. destruct rest as [|bad rest].
  - reflexivity.
  - intros e Hbad. cbn [for_each]. unfold bind. rewrite Hbad. reflexivity.
Qed.

(** The boot of [_visitRoute], up to the first file that cannot be
    read. *)
Lemma boot_prefix (w : EmberApp.World TestPage) (good rest texts : list jsstring) :
  ready w ->
  EmberApp.vendorFilePaths (EmberApp.this w) ++ EmberApp.appFilePaths (EmberApp.this w)
    = good ++ rest ->
  readable good texts ->
  exists w1,
    served ([ AssignGlobals (EmberApp.sandboxGlobals (EmberApp.this w));
              InitializeAppEnvironment (EmberApp.appName (EmberApp.this w))
                (EmberApp.config (EmberApp.this w)) ] ++ map Source texts)
           (with_this (EmberApp.set_hasInitialized true) w) w1 /\
    forall (k : M (EmberApp.World TestPage) unit),
      (EmberApp.on_this (modify (EmberApp.set_hasInitialized true)) ;;
       globals <- gets (fun w => EmberApp.sandboxGlobals (EmberApp.this w)) ;;
       EmberApp.on_result (Result.evaluate (AssignGlobals globals)) ;;
       name <- gets (fun w => EmberApp.appName (EmberApp.this w)) ;;
       conf <- gets (fun w => EmberApp.config (EmberApp.this w)) ;;
       EmberApp.initializeAppEnvironment name conf ;;
       apps <- gets (fun w => EmberApp.appFilePaths (EmberApp.this w)) ;;
       vendors <- gets (fun w => EmberApp.vendorFilePaths (EmberApp.this w)) ;;
       EmberApp.loadAppFiles apps vendors ;;
       k) w
      = (for_each (fun filePath =>
                     match readFileSync filePath with
                     | inl e => throw e
                     | inr file =>
                         EmberApp.on_result (Result.evaluate (Source file)) ;; ret tt
                     end) rest ;; k) w1.
Proof.
  intros Hready Hsplit Hgood.
  set (wa := with_this (EmberApp.set_hasInitialized true) w).
  assert (Hra : ready wa) by exact Hready.
  destruct (served_quiet wa (AssignGlobals (EmberApp.sandboxGlobals (EmberApp.this w)))
              Hra eq_refl) as (wb & Eb & Hsb).
  pose proof (served_ready _ _ _ Hsb Hra) as Hrb.
  destruct (served_quiet wb (InitializeAppEnvironment (EmberApp.appName (EmberApp.this w))
                               (EmberApp.config (EmberApp.this w))) Hrb eq_refl)
    as (wc & Ec & Hsc).
  pose proof (served_ready _ _ _ Hsc Hrb) as Hrc.
  destruct (loadAppFiles_prefix (EmberApp.appFilePaths (EmberApp.this w))
              (EmberApp.vendorFilePaths (EmberApp.this w)) good rest texts wc Hrc Hsplit Hgood)
    as (w1 & Hs1 & E1).
  exists w1. split.
  - apply (served_trans [_; _] (map Source texts) wa wc w1); [|exact Hs1].
    apply (served_trans [_] [_] wa wb wc); assumption.
  - intros k.
    assert (Hthis_b : EmberApp.this wb = EmberApp.set_hasInitialized true (EmberApp.this w))
      by apply Hsb.
    assert (Hthis_c : EmberApp.this wc = EmberApp.set_hasInitialized true (EmberApp.this w)).
    { destruct Hsc as [Hc _]. rewrite Hc. exact Hthis_b. }
    rewrite (bind_inr _ _ w wa tt (on_this_modify _ w)).
    rewrite bind_gets. change (EmberApp.sandboxGlobals (EmberApp.this wa))
      with (EmberApp.sandboxGlobals (EmberApp.this w)).
    rewrite (bind_inr _ _ wa wb None Eb).
    rewrite bind_gets, bind_gets. rewrite Hthis_b.
    cbn [EmberApp.set_hasInitialized EmberApp.appName EmberApp.config].
    unfold EmberApp.initializeAppEnvironment.
    unfold bind at 1. unfold bind at 1. rewrite Ec. unfold ret at 1.
    rewrite bind_gets, bind_gets. rewrite Hthis_c.
    cbn [EmberApp.set_hasInitialized EmberApp.appFilePaths EmberApp.vendorFilePaths].
    unfold bind at 1. rewrite E1. reflexivity.
Qed.

Lemma served_with_this (f : EmberApp.t -> EmberApp.t) scripts w w' :
  served scripts w w' -> served scripts (with_this f w) (with_this f w').
Proof.
  intros (A1 & A2 & A3 & A4 & A5 & A6 & A7 & A8 & A9 & A10).
  unfold served, with_this. cbn. rewrite A1. repeat split; assumption.
Qed.

Lemma bundle_text_spec (app : EmberApp.t) (w : EmberApp.World TestPage) :
  match EmberApp._bundle app with
  | Some text => if truthy text then ret text
                 else match bundle with inl e => throw e | inr b => ret b end
  | None => match bundle with inl e => throw e | inr b => ret b end
  end w
  = match bundle_text app with inl e => (inl e, w) | inr text => (inr text, w) end.
Proof.
  unfold bundle_text. destruct (EmberApp._bundle app) as [text|];
    [destruct (truthy text); [reflexivity|]|]; destruct bundle; reflexivity.
Qed.

(** The boot of an instance whose files and bundle can be read: the
    route goes on as the one of the booted instance. *)
Lemma visitRoute_boot (w : EmberApp.World TestPage) (path : jsstring)
    (info : FastBootInfo.t) (bootOptions : BootOptions) (disableShoebox : bool)
    (deadline : option Z) (texts : list jsstring) (bundleText : jsstring) :
  ready w ->
  EmberApp.hasInitialized (EmberApp.this w) = false ->
  readable (EmberApp.vendorFilePaths (EmberApp.this w)
              ++ EmberApp.appFilePaths (EmberApp.this w)) texts ->
  bundle_text (EmberApp.this w) = inr bundleText ->
  exists w',
    EmberApp._visitRoute path info bootOptions disableShoebox deadline w
      = EmberApp._visitRoute path info bootOptions disableShoebox deadline w' /\
    EmberApp.hasInitialized (EmberApp.this w') = true /\
    served (boot_sequence (EmberApp.this w) texts bundleText)
      (with_this (fun a => EmberApp.set__bundle bundleText
                             (EmberApp.set_hasInitialized true a)) w) w'.
Proof.
  intros Hready Hinit Hfiles Hbundle.
  destruct (boot_prefix w _ [] texts Hready (eq_sym (app_nil_r _)) Hfiles)
    as (w1 & Hs1 & E1).
  pose proof (served_ready _ _ _ Hs1 Hready) as Hr1.
  assert (Hthis1 : EmberApp.this w1 = EmberApp.set_hasInitialized true (EmberApp.this w))
    by apply Hs1.
  set (w2 := with_this (EmberApp.set__bundle bundleText) w1).
  assert (Hr2 : ready w2) by exact Hr1.
  destruct (served_quiet w2 (Source bundleText) Hr2 eq_refl) as (w3 & E3 & Hs3).
  exists w3. split; [|split].
  - unfold EmberApp._visitRoute at 1.
    rewrite bind_gets, Hinit. unfold bind at 1. rewrite E1.
    cbn [for_each]. rewrite bind_ret, bind_gets.
    unfold bind at 1. rewrite bundle_text_spec. rewrite Hthis1.
    change (bundle_text (EmberApp.set_hasInitialized true (EmberApp.this w)))
      with (bundle_text (EmberApp.this w)).
    rewrite Hbundle.
    rewrite (bind_inr _ _ w1 w2 tt (on_this_modify _ w1)).
    unfold bind at 1. rewrite E3. unfold ret at 1.
    unfold EmberApp._visitRoute. rewrite bind_gets.
    assert (EmberApp.hasInitialized (EmberApp.this w3) = true) as ->.
    { destruct Hs3 as [-> _]. cbn. rewrite Hthis1. reflexivity. }
    rewrite bind_ret. reflexivity.
  - destruct Hs3 as [-> _]. cbn. rewrite Hthis1. reflexivity.
  - unfold boot_sequence. rewrite map_app, app_assoc.
    apply (served_trans _ [Source bundleText] _ w2 w3); [|exact Hs3].
    apply (served_with_this (EmberApp.set__bundle bundleText)) in Hs1. exact Hs1.
Qed.

(** [createShoebox] on an open page. *)
Lemma served_createShoebox (fastbootInfo : FastBootInfo.t) :
  forall w, ready w ->
    exists w',
      EmberApp.createShoebox fastbootInfo w = (inr tt, w') /\
      served (map shoebox_insertion (default [] (FastBootInfo.shoebox fastbootInfo))) w w'.
Proof.
  unfold EmberApp.createShoebox. destruct (FastBootInfo.shoebox fastbootInfo) as [shoebox|].
  2:{ intros w _. exists w. split; [reflexivity | apply served_refl]. }
  cbn [default]. induction shoebox as [|[key value] rest IH]; intros w Hready.
  - exists w. split; [reflexivity | apply served_refl].
  - destruct (served_quiet w (shoebox_insertion (key, value)) Hready eq_refl)
      as (w1 & E1 & Hs1).
    destruct (IH w1 (served_ready _ _ _ Hs1 Hready)) as (w' & E & Hs).
    exists w'. split.
    + cbn [for_each]. unfold bind at 1. unfold bind at 1.
      change (EmberApp.on_result
                (Result.evaluate
                   (InsertBodyBeforeEnd
                      (shoebox_script key (escapeJSONString (JSON_stringify value))))) w)
        with (EmberApp.on_result (Result.evaluate (shoebox_insertion (key, value))) w).
      rewrite E1. unfold ret at 1. exact E.
    + apply (served_trans [_] _ w w1 w'); assumption.
Qed.

(** [_finalize] on an open page. *)
Lemma served_finalize (w : EmberApp.World TestPage) :
  ready w ->
  Result.finalized (EmberApp.result w) = false ->
  exists w1,
    served [RemoveEmberApplicationClass] w w1 /\
    EmberApp.on_result Result._finalize w = (inr tt, with_result Result.set_finalized w1).
Proof.
  intros Hready Hfin.
  destruct (served_quiet w RemoveEmberApplicationClass Hready eq_refl) as (w1 & E1 & Hs1).
  exists w1. split; [exact Hs1|].
  unfold EmberApp.on_result, zoom in *. unfold Result._finalize.
  rewrite bind_gets. cbn [fst]. rewrite Hfin. unfold bind at 1.
  destruct (Result.evaluate RemoveEmberApplicationClass (EmberApp.result w, EmberApp.page w))
    as [out rp1]. injection E1 as -> <-. reflexivity.
Qed.

(** The route of a booted instance whose in-context visit returns. *)
Lemma visitRoute_booted (w : EmberApp.World TestPage) (path : jsstring)
    (info fastbootInfo : FastBootInfo.t) (bootOptions : BootOptions)
    (disableShoebox : bool) (returned : list Slot) :
  ready w ->
  Result.finalized (EmberApp.result w) = false ->
  EmberApp.hasInitialized (EmberApp.this w) = true ->
  run (behaviour (EmberApp.page w)) (realm (EmberApp.page w)) path bootOptions
      (FastBootInfo.serialize info) = inr (Some returned) ->
  FastBootInfo.from_tuple returned = inr fastbootInfo ->
  exists w1,
    served ([RunAppInstance path bootOptions (FastBootInfo.serialize info)]
            ++ (if disableShoebox then []
                else map shoebox_insertion (default [] (FastBootInfo.shoebox fastbootInfo)))
            ++ [RemoveEmberApplicationClass])
      (with_result (Result.set_fastbootInfo fastbootInfo) w) w1 /\
    EmberApp._visitRoute path info bootOptions disableShoebox None w
      = (inr tt, with_result Result.set_finalized w1).
Proof.
  intros Hready Hfin Hinit Hrun Htuple.
  destruct (served_evaluate w (RunAppInstance path bootOptions (FastBootInfo.serialize info))
              (Some returned) Hready) as (wa & Ea & Hsa).
  { unfold TestPage_evaluate. destruct Hready as [-> _]. exact Hrun. }
  pose proof (served_ready _ _ _ Hsa Hready) as Hra.
  set (wb := with_result (Result.set_fastbootInfo fastbootInfo) wa).
  assert (Hrb : ready wb) by exact Hra.
  assert (Hshoebox : exists wc,
            (if disableShoebox then ret tt else EmberApp.createShoebox fastbootInfo) wb
              = (inr tt, wc) /\
            served (if disableShoebox then []
                    else map shoebox_insertion
                           (default [] (FastBootInfo.shoebox fastbootInfo))) wb wc).
  { destruct disableShoebox.
    - exists wb. split; [reflexivity | apply served_refl].
    - apply served_createShoebox. exact Hrb. }
  destruct Hshoebox as (wc & Ec & Hsc).
  pose proof (served_ready _ _ _ Hsc Hrb) as Hrc.
  destruct (served_finalize wc Hrc) as (wd & Hsd & Ed).
  { destruct Hsc as (_ & _ & _ & _ & _ & -> & _). cbn.
    destruct Hsa as (_ & _ & _ & _ & _ & -> & _). exact Hfin. }
  exists wd. split.
  - apply (served_trans [_] _ _ wb wd).
    + destruct Hsa as (A1 & A2 & A3 & A4 & A5 & A6 & A7 & A8 & A9 & A10).
      unfold served, wb, with_result. cbn. repeat split; assumption.
    + apply (served_trans _ [_] wb wc wd); assumption.
  - unfold EmberApp._visitRoute. rewrite bind_gets, Hinit, bind_ret.
    unfold bind at 1, catch at 1, bind at 1. unfold EmberApp.runAppInstance.
    rewrite Ea. cbn [default]. unfold ret at 1. cbv beta iota.
    change (id returned) with returned. rewrite Htuple.
    rewrite (bind_inr _ _ wa wb tt (on_result_modify _ wa)).
    unfold bind at 1. rewrite Ec. unfold bind at 1. rewrite Ed. reflexivity.
Qed.

Lemma foldl_sources (texts : list jsstring) : forall r,
  foldl realm_after r (map Source texts)
    = {| window := window r; environment := environment r;
         sources := sources r ++ texts |}.
Proof.
  induction texts as [|text texts IH]; intros r.
  - cbn. rewrite app_nil_r. destruct r; reflexivity.
  - cbn [map foldl]. rewrite IH. cbn. rewrite <- app_assoc. reflexivity.
Qed.

(** X13. The first visit of an instance whose files and bundle can be read
    evaluates, in this order: the sandbox globals, the environment shim,
    the vendor files, the app files, the bundle, the in-context visit,
    one insertion per key of the returned shoebox unless the shoebox is
    disabled, and the cleaning of the class names. The in-context visit
    finds the sandbox globals over the window it started from, the
    environment of the instance and the texts of the files and of the
    bundle. The instance is then booted and keeps the bundle; the result
    has the returned info and is finalized. *)
Theorem visitRoute_boot_order (w : EmberApp.World TestPage) (path : jsstring)
    (info fastbootInfo : FastBootInfo.t) (bootOptions : BootOptions)
    (disableShoebox : bool) (texts : list jsstring) (bundleText : jsstring)
    (returned : list Slot) :
  ready w ->
  Result.finalized (EmberApp.result w) = false ->
  EmberApp.hasInitialized (EmberApp.this w) = false ->
  readable (EmberApp.vendorFilePaths (EmberApp.this w)
              ++ EmberApp.appFilePaths (EmberApp.this w)) texts ->
  bundle_text (EmberApp.this w) = inr bundleText ->
  run (behaviour (EmberApp.page w))
      {| window := EmberApp.sandboxGlobals (EmberApp.this w)
                     ∪ window (realm (EmberApp.page w));
         environment := Some (EmberApp.appName (EmberApp.this w),
                              EmberApp.config (EmberApp.this w));
         sources := sources (realm (EmberApp.page w)) ++ texts ++ [bundleText] |}
      path bootOptions (FastBootInfo.serialize info) = inr (Some returned) ->
  FastBootInfo.from_tuple returned = inr fastbootInfo ->
  exists w',
    EmberApp._visitRoute path info bootOptions disableShoebox None w = (inr tt, w') /\
    EmberApp.hasInitialized (EmberApp.this w') = true /\
    EmberApp._bundle (EmberApp.this w') = Some bundleText /\
    Result._fastbootInfo (EmberApp.result w') = Some fastbootInfo /\
    Result.finalized (EmberApp.result w') = true /\
    Result.error (EmberApp.result w') = Result.error (EmberApp.result w) /\
    evaluated (EmberApp.page w')
      = evaluated (EmberApp.page w)
          ++ [ AssignGlobals (EmberApp.sandboxGlobals (EmberApp.this w));
               InitializeAppEnvironment (EmberApp.appName (EmberApp.this w))
                 (EmberApp.config (EmberApp.this w)) ]
          ++ map Source texts
          ++ [ Source bundleText;
               RunAppInstance path bootOptions (FastBootInfo.serialize info) ]
          ++ (if disableShoebox then []
              else map shoebox_insertion (default [] (FastBootInfo.shoebox fastbootInfo)))
          ++ [RemoveEmberApplicationClass].
Proof.
  intros Hready Hfin Hinit Hfiles Hbundle Hrun Htuple.
  destruct (visitRoute_boot w path info bootOptions disableShoebox None texts bundleText
              Hready Hinit Hfiles Hbundle) as (wb & Eb & Hinitb & Hsb).
  assert (Hrb : ready wb) by (apply (served_ready _ _ _ Hsb); exact Hready).
  destruct Hsb as (B1 & B2 & B3 & B4 & B5 & B6 & B7 & B8 & B9 & B10).
  cbn [with_this EmberApp.this EmberApp.didDestroy EmberApp.result EmberApp.page] in *.
  assert (Hrealm : realm (EmberApp.page wb)
            = {| window := EmberApp.sandboxGlobals (EmberApp.this w)
                             ∪ window (realm (EmberApp.page w));
                 environment := Some (EmberApp.appName (EmberApp.this w),
                                      EmberApp.config (EmberApp.this w));
                 sources := sources (realm (EmberApp.page w)) ++ texts ++ [bundleText] |}).
  { rewrite B10. unfold boot_sequence. cbn [app foldl]. rewrite foldl_sources. reflexivity. }
  destruct (visitRoute_booted wb path info fastbootInfo bootOptions disableShoebox returned
              Hrb ltac:(congruence) Hinitb) as (w1 & Hs1 & E1).
  { rewrite B8, Hrealm. exact Hrun. }
  { exact Htuple. }
  destruct Hs1 as (C1 & C2 & C3 & C4 & C5 & C6 & C7 & C8 & C9 & C10).
  cbn [with_result EmberApp.this EmberApp.didDestroy EmberApp.result EmberApp.page
         Result.set_fastbootInfo Result._fastbootInfo Result.error Result.finalized] in *.
  exists (with_result Result.set_finalized w1). split; [rewrite Eb; exact E1|].
  cbn [with_result EmberApp.this EmberApp.didDestroy EmberApp.result EmberApp.page
         Result.set_finalized Result._fastbootInfo Result.error Result.finalized].
  split; [rewrite C1; exact Hinitb|].
  split; [rewrite C1, B1; reflexivity|].
  split; [exact C4|]. split; [reflexivity|]. split; [congruence|].
  rewrite C9, B9. unfold boot_sequence. rewrite map_app.
  rewrite <- !app_assoc. reflexivity.
Qed.

(** Loading the document and clearing the storage, on an open page. *)
Lemma served_setContent (html : jsstring) (w : EmberApp.World TestPage) :
  ready w ->
  exists w',
    EmberApp.on_result (Result.setContent html) w = (inr tt, w') /\ served [] w w'.
Proof.
  intros [Hopen Hlive]. destruct w as [a d r p]. cbn in Hopen, Hlive.
  unfold EmberApp.on_result, zoom, Result.setContent, bind, gets, tryWithPageAwareness,
    catch, ret, Result._reflectContents, Result.on_page, Result.on_result, zoom, modify, bind.
  cbv beta iota delta [fst snd EmberApp.result EmberApp.page EmberApp.this EmberApp.didDestroy].
  rewrite Hlive. cbn [page_setContent page_harvest TestPage_Page].
  unfold TestPage_setContent. rewrite Hopen. cbv beta iota delta [fst snd].
  unfold TestPage_harvest. rewrite record_closed, Hopen.
  destruct (render _ _) as [[html' head] body]. cbv beta iota delta [fst snd].
  eexists. split; [reflexivity|].
  unfold served. cbn [EmberApp.this EmberApp.didDestroy EmberApp.result EmberApp.page].
  rewrite app_nil_r. repeat split; try assumption.
  unfold evaluated, record. cbn [history]. rewrite !omap_app. cbn. rewrite !app_nil_r.
  reflexivity.
Qed.

Lemma served_clearPageStorage (w : EmberApp.World TestPage) :
  ready w ->
  exists w',
    EmberApp.on_result (Result.on_page (page_evaluate ClearPageStorage)) w = (inr None, w') /\
    served [ClearPageStorage] w w'.
Proof.
  intros [Hopen Hlive]. destruct w as [a d r p]. cbn in Hopen, Hlive.
  unfold EmberApp.on_result, zoom, Result.on_page, zoom.
  cbv beta iota delta [fst snd EmberApp.result EmberApp.page EmberApp.this EmberApp.didDestroy].
  cbn [page_evaluate TestPage_Page]. unfold TestPage_evaluate. rewrite Hopen.
  eexists. split; [reflexivity|].
  unfold served. cbn [EmberApp.this EmberApp.didDestroy EmberApp.result EmberApp.page].
  rewrite evaluated_record_evaluate. repeat split; assumption.
Qed.

(** The body of [visit], from the objects it starts with. *)
Lemma visit_body (path : jsstring) (options : VisitOptions) (fires : bool)
    (s : EmberApp.t * TestPage) (info : FastBootInfo.t)
    (r : JSError + Result.t) (w : EmberApp.World TestPage) :
  visit_info options (fst s) = inr info ->
  (EmberApp.on_result (Result.setContent (visit_html options (fst s))) ;;
   catch
     (EmberApp.on_result (Result.on_page (page_evaluate ClearPageStorage)) ;;
      EmberApp._visitRoute path info
        (buildBootOptions (default true (o_shouldRender options)))
        (o_disableShoebox options)
        match o_destroyAppInstanceInMs options with
        | Some ms => if (0 <? ms)%Z && fires then Some ms else None
        | None => None
        end)
     (fun error =>
        destroyed <- gets EmberApp.didDestroy ;;
        if destroyed : bool then
          match message error with
          | None => throw (TypeError (lit "Cannot read property 'match' of undefined"))
          | Some msg =>
              if includes (lit "Execution context was destroyed") msg
                 || includes (lit "Navigation failed because browser has disconnected") msg
              then ret tt
              else EmberApp.set_result_error error
          end
        else EmberApp.set_result_error error) ;;
   gets EmberApp.result)
    {| EmberApp.this := fst s; EmberApp.didDestroy := false;
       EmberApp.result := Result.new None; EmberApp.page := snd s |} = (r, w) ->
  EmberApp.visit path options fires s = (r, (EmberApp.this w, EmberApp.page w)).
Proof.
  intros Hinfo Hbody. unfold EmberApp.visit.
  change (FastBootInfo.new _ _ _ _) with (visit_info options (fst s)). rewrite Hinfo.
  change (match o_html options with
          | Some h => if truthy h then h else EmberApp.html (fst s)
          | None => EmberApp.html (fst s)
          end) with (visit_html options (fst s)).
  rewrite Hbody. reflexivity.
Qed.

(** X14. A file of the instance that cannot be read stops the boot: the
    visit is fulfilled with a result that carries the error of the read,
    has no render info, so that [html()] throws on it, and is not
    finalized. The scripts before the file have been evaluated, the
    in-context visit has not been, and the instance counts as booted. *)
Theorem visit_unreadable_file (path : jsstring) (options : VisitOptions) (fires : bool)
    (app : EmberApp.t) (p : TestPage) (info : FastBootInfo.t)
    (good rest texts : list jsstring) (bad : jsstring) (e : JSError) :
  closed p = false ->
  EmberApp.hasInitialized app = false ->
  visit_info options app = inr info ->
  EmberApp.vendorFilePaths app ++ EmberApp.appFilePaths app = good ++ bad :: rest ->
  readable good texts ->
  readFileSync bad = inl e ->
  exists result p',
    EmberApp.visit path options fires (app, p)
      = (inr result, (EmberApp.set_hasInitialized true app, p')) /\
    Result.error result = Some e /\
    Result._fastbootInfo result = None /\
    Result.finalized result = false /\
    fst (Result.html result)
      = inl (TypeError (lit "Cannot read property 'response' of undefined")) /\
    evaluated p'
      = evaluated p
          ++ [ ClearPageStorage;
               AssignGlobals (EmberApp.sandboxGlobals app);
               InitializeAppEnvironment (EmberApp.appName app) (EmberApp.config app) ]
          ++ map Source texts.
Proof.
  intros Hopen Hinit Hinfo Hsplit Hgood Hbad.
  set (w0 := {| EmberApp.this := app; EmberApp.didDestroy := false;
                EmberApp.result := Result.new None; EmberApp.page := p |}).
  assert (Hr0 : ready w0) by (split; [exact Hopen | reflexivity]).
  destruct (served_setContent (visit_html options app) w0 Hr0) as (w1 & E1 & Hs1).
  pose proof (served_ready _ _ _ Hs1 Hr0) as Hr1.
  destruct (served_clearPageStorage w1 Hr1) as (w2 & E2 & Hs2).
  pose proof (served_ready _ _ _ Hs2 Hr1) as Hr2.
  pose proof (served_trans _ _ _ _ _ Hs1 Hs2) as Hs02. cbn [List.app] in Hs02.
  assert (Hthis2 : EmberApp.this w2 = app) by apply Hs02.
  destruct (boot_prefix w2 good (bad :: rest) texts Hr2) as (w3 & Hs3 & E3).
  { rewrite Hthis2. exact Hsplit. }
  { exact Hgood. }
  rewrite Hthis2 in Hs3.
  pose proof (served_trans _ _ _ _ _
                (served_with_this (EmberApp.set_hasInitialized true) _ _ _ Hs02) Hs3) as Hs03.
  destruct Hs03 as (A1 & A2 & A3 & A4 & A5 & A6 & A7 & A8 & A9 & A10).
  cbn [with_this w0 EmberApp.this EmberApp.didDestroy EmberApp.result EmberApp.page
         Result.new Result._instanceDestroyed Result._fastbootInfo Result.error
         Result.finalized] in *.
  exists (Result.set_error e (EmberApp.result w3)), (EmberApp.page w3).
  split; [|split; [reflexivity|]].
  - replace (EmberApp.set_hasInitialized true app) with (EmberApp.this w3) by exact A1.
    apply (visit_body path options fires (app, p) info _
             (with_result (Result.set_error e) w3)); [exact Hinfo|].
    cbn [fst snd]. fold w0.
    rewrite (bind_inr _ _ w0 w1 tt E1).
    unfold bind at 1, catch at 1.
    rewrite (bind_inr _ _ w1 w2 None E2).
    unfold EmberApp._visitRoute. rewrite bind_gets, Hthis2, Hinit.
    unfold bind at 1. rewrite E3.
    cbn [for_each]. unfold bind at 1. unfold bind at 1. unfold bind at 1.
    rewrite Hbad. unfold throw at 1.
    rewrite bind_gets, A2. reflexivity.
  - cbn [Result.set_error Result._fastbootInfo Result.finalized].
    split; [exact A4|]. split; [exact A6|]. split.
    + unfold Result.html. rewrite bind_gets.
      cbn [Result.set_error Result._fastbootInfo]. rewrite A4. reflexivity.
    + rewrite A9. reflexivity.
Qed.

(** X15. A visit on a page that is closed: the loading of the document
    swallows the error of the closed target, the clearing of the storage
    does not, and the visit is fulfilled with a new result that carries
    it. Nothing is evaluated and the instance is as it was. *)
Theorem visit_closed_page (path : jsstring) (options : VisitOptions) (fires : bool)
    (app : EmberApp.t) (p : TestPage) (info : FastBootInfo.t) :
  closed p = true ->
  visit_info options app = inr info ->
  EmberApp.visit path options fires (app, p)
    = (inr (Result.set_error target_closed (Result.new None)), (app, p)).
Proof.
  intros Hclosed Hinfo.
  apply (visit_body path options fires (app, p) info _
           {| EmberApp.this := app; EmberApp.didDestroy := false;
              EmberApp.result := Result.set_error target_closed (Result.new None);
              EmberApp.page := p |}); [exact Hinfo|].
  cbn [fst snd].
  assert (Hcontent : EmberApp.on_result (Result.setContent (visit_html options app))
            {| EmberApp.this := app; EmberApp.didDestroy := false;
               EmberApp.result := Result.new None; EmberApp.page := p |}
          = (inr tt, {| EmberApp.this := app; EmberApp.didDestroy := false;
                        EmberApp.result := Result.new None; EmberApp.page := p |})).
  { unfold EmberApp.on_result, zoom, Result.setContent, bind, gets, tryWithPageAwareness,
      catch, ret, Result._reflectContents, Result.on_page, Result.on_result, zoom, modify,
      bind.
    cbv beta iota delta [fst snd EmberApp.result EmberApp.page EmberApp.this
                           EmberApp.didDestroy Result.new Result._instanceDestroyed].
    cbn [page_setContent TestPage_Page]. unfold TestPage_setContent. rewrite Hclosed.
    cbv beta iota delta [fst snd].
    assert (Hswallow : truthy (lit "Protocol error (Runtime.callFunctionOn): Target closed.")
                       && negb (page_closed_message
                                  (lit "Protocol error (Runtime.callFunctionOn): Target closed."))
                       = false) by (vm_compute; reflexivity).
    unfold target_closed, Error. cbn [message]. rewrite Hswallow. reflexivity. }
  rewrite (bind_inr _ _ _ _ tt Hcontent).
  unfold bind at 1, catch at 1, bind at 1.
  unfold EmberApp.on_result at 1, zoom at 1, Result.on_page at 1, zoom at 1.
  cbn [EmberApp.result EmberApp.page fst snd page_evaluate TestPage_Page].
  unfold TestPage_evaluate at 1. rewrite Hclosed.
  cbv beta iota delta [fst snd].
  rewrite bind_gets. reflexivity.
Qed.

(** The render info [_visitRoute] builds when the in-context visit has
    returned none. *)
Lemma from_tuple_default :
  exists fastbootInfo,
    FastBootInfo.from_tuple default_returnedInfo = inr fastbootInfo /\
    FastBootInfo.shoebox fastbootInfo = None /\
    FastBootResponse.statusCode <$> FastBootInfo.response fastbootInfo = Some 200%Z.
Proof.
  unfold FastBootInfo.from_tuple, default_returnedInfo. cbn [nth].
  cbn [FastBootInfo.request_arg FastBootInfo.response_arg FastBootInfo.options_arg
         FastBootInfo.shoebox_arg].
  unfold FastBootInfo.new, FastBootRequest.new, FastBootRequest.extractCookies.
  cbn [rq_cookies rq_headers]. rewrite lookup_empty.
  eexists. split; [reflexivity|]. split; reflexivity.
Qed.

(** A script that throws an error that does not tell of a closed
    page: the page has served the call, and the error goes on. *)
Lemma served_throws (w : EmberApp.World TestPage) (script : Script)
    (e : JSError) (msg : jsstring) :
  ready w ->
  fst (TestPage_evaluate script (EmberApp.page w)) = inl e ->
  message e = Some msg ->
  truthy msg = true ->
  page_closed_message msg = false ->
  exists w',
    EmberApp.on_result (Result.evaluate script) w = (inl e, w') /\
    served [script] w w'.
Proof.
  intros [Hopen Hlive] He Hmsg Htruthy Hclosed.
  pose proof (TestPage_evaluate_open script _ Hopen) as Hp1.
  destruct (TestPage_evaluate script (EmberApp.page w)) as [out p1] eqn:Heval.
  cbn [fst snd] in He, Hp1. subst out. destruct w as [a d r p].
  cbn [EmberApp.page EmberApp.result] in *.
  unfold EmberApp.on_result, zoom, Result.evaluate, bind, gets, tryWithPageAwareness,
    catch, ret, throw, Result.on_page, zoom, bind.
  cbv beta iota delta [fst snd EmberApp.result EmberApp.page EmberApp.this EmberApp.didDestroy].
  rewrite Hlive. cbn [page_evaluate TestPage_Page]. rewrite Heval.
  cbv beta iota delta [fst snd]. rewrite Hmsg, Htruthy, Hclosed. cbn [negb andb].
  eexists. split; [reflexivity|].
  unfold served. cbn [EmberApp.this EmberApp.didDestroy EmberApp.result EmberApp.page].
  subst p1. rewrite evaluated_record_evaluate. cbn [record closed behaviour realm foldl].
  repeat split.
Qed.

(** X17. An error the application throws in the in-context visit of a
    booted instance, with a message that does not tell of a closed page:
    the route still builds the render info of an empty response and
    finalizes the result, and the visit is fulfilled with a result that
    carries the error. *)
Theorem visit_app_error (path : jsstring) (options : VisitOptions)
    (app : EmberApp.t) (p : TestPage) (info : FastBootInfo.t)
    (e : JSError) (msg : jsstring) :
  closed p = false ->
  EmberApp.hasInitialized app = true ->
  visit_info options app = inr info ->
  run (behaviour p) (realm p) path
      (buildBootOptions (default true (o_shouldRender options)))
      (FastBootInfo.serialize info) = inl e ->
  message e = Some msg ->
  truthy msg = true ->
  page_closed_message msg = false ->
  exists result p',
    EmberApp.visit path options false (app, p) = (inr result, (app, p')) /\
    Result.error result = Some e /\
    Result.statusCode result = Some 200%Z /\
    Result.finalized result = true /\
    evaluated p'
      = evaluated p
          ++ [ ClearPageStorage;
               RunAppInstance path
                 (buildBootOptions (default true (o_shouldRender options)))
                 (FastBootInfo.serialize info);
               RemoveEmberApplicationClass ].
Proof.
  intros Hopen Hinit Hinfo Hrun Hmsg Htruthy Hclosed.
  set (w0 := {| EmberApp.this := app; EmberApp.didDestroy := false;
                EmberApp.result := Result.new None; EmberApp.page := p |}).
  assert (Hr0 : ready w0) by (split; [exact Hopen | reflexivity]).
  destruct (served_setContent (visit_html options app) w0 Hr0) as (w1 & E1 & Hs1).
  pose proof (served_ready _ _ _ Hs1 Hr0) as Hr1.
  destruct (served_clearPageStorage w1 Hr1) as (w2 & E2 & Hs2).
  pose proof (served_ready _ _ _ Hs2 Hr1) as Hr2.
  pose proof (served_trans _ _ _ _ _ Hs1 Hs2) as Hs02. cbn [List.app] in Hs02.
  destruct (served_throws w2
              (RunAppInstance path (buildBootOptions (default true (o_shouldRender options)))
                 (FastBootInfo.serialize info)) e msg Hr2) as (w3 & E3 & Hs3);
    try assumption.
  { destruct Hs02 as (_ & _ & _ & _ & _ & _ & _ & A8 & _ & A10).
    unfold TestPage_evaluate. destruct Hr2 as [-> _]. cbn [fst].
    rewrite A8, A10. exact Hrun. }
  pose proof (served_ready _ _ _ Hs3 Hr2) as Hr3.
  pose proof (served_trans _ _ _ _ _ Hs02 Hs3) as Hs03. cbn [List.app] in Hs03.
  destruct from_tuple_default as (fastbootInfo & Htuple & Hbox & Hstatus).
  set (w4 := with_result (Result.set_fastbootInfo fastbootInfo) w3).
  assert (Hr4 : ready w4) by exact Hr3.
  destruct Hs03 as (A1 & A2 & A3 & A4 & A5 & A6 & A7 & A8 & A9 & A10).
  cbn [w0 EmberApp.this EmberApp.didDestroy EmberApp.result EmberApp.page
         Result.new Result._instanceDestroyed Result._fastbootInfo Result.error
         Result.finalized] in *.
  destruct (served_finalize w4 Hr4) as (w5 & Hs5 & E5).
  { cbn. exact A6. }
  destruct Hs5 as (B1 & B2 & B3 & B4 & B5 & B6 & B7 & B8 & B9 & B10).
  cbn [w4 with_result EmberApp.this EmberApp.didDestroy EmberApp.result EmberApp.page
         Result.set_fastbootInfo Result._instanceDestroyed Result._fastbootInfo
         Result.error Result.finalized] in *.
  exists (Result.set_error e (Result.set_finalized (EmberApp.result w5))),
    (EmberApp.page w5).
  split; [|split; [reflexivity|split; [|split; [reflexivity|]]]].
  - replace app with (EmberApp.this w5) at 2 by congruence.
    apply (visit_body path options false (app, p) info _
             (with_result (Result.set_error e) (with_result Result.set_finalized w5)));
      [exact Hinfo|].
    cbn [fst snd]. fold w0.
    assert (match o_destroyAppInstanceInMs options with
            | Some ms => if (0 <? ms)%Z && false then Some ms else None
            | None => None
            end = None) as ->.
    { destruct (o_destroyAppInstanceInMs options); [rewrite andb_false_r|]; reflexivity. }
    rewrite (bind_inr _ _ w0 w1 tt E1).
    unfold bind at 1, catch at 1.
    rewrite (bind_inr _ _ w1 w2 None E2).
    unfold EmberApp._visitRoute. rewrite bind_gets.
    assert (EmberApp.hasInitialized (EmberApp.this w2) = true) as ->.
    { destruct Hs02 as [-> _]. exact Hinit. }
    rewrite bind_ret.
    unfold bind at 1, catch at 1, bind at 1. unfold EmberApp.runAppInstance.
    rewrite E3. unfold ret at 1. cbv beta iota. rewrite Htuple.
    rewrite (bind_inr _ _ w3 w4 tt (on_result_modify _ w3)).
    assert (Hshoebox : (if o_disableShoebox options then ret tt
                        else EmberApp.createShoebox fastbootInfo) w4 = (inr tt, w4)).
    { destruct (o_disableShoebox options); [reflexivity|].
      unfold EmberApp.createShoebox. rewrite Hbox. reflexivity. }
    unfold bind at 1. rewrite Hshoebox. unfold bind at 1. rewrite E5. unfold throw at 1.
    rewrite bind_gets. cbn [with_result EmberApp.didDestroy]. rewrite B2, A2. reflexivity.
  - unfold Result.statusCode.
    cbn [Result.set_error Result.set_finalized Result._fastbootInfo]. rewrite B4.
    exact Hstatus.
  - rewrite B9, A9. rewrite <- app_assoc. reflexivity.
Qed.

End Boot.

(* ================================================================== *)
(** * Every visit serves its in-context visit *)
(* ================================================================== *)

(** Outside the visit of the route the events are no in-context
    visits. *)
Lemma quiet_events_no_run phase wd events :
  phase <> Visiting ->
  Forall (quiet_event phase wd) events ->
  filter is_run (omap (fun e => match call e with
                                | CallEvaluate s => Some s
                                | _ => None
                                end) events) = [].
Proof.
  intros Hphase. induction 1 as [|e events [_ He] _ IH]; [reflexivity|].
  cbn [omap list_omap]. destruct (call e) as [| script | |]; try exact IH.
  destruct script; try contradiction;
    (rewrite filter_cons_False; [exact IH | intros []]).
Qed.

Lemma page_step_runs phase p p' :
  phase <> Visiting -> page_step phase p p' -> runs_served p' = runs_served p.
Proof.
  intros Hphase (_ & _ & _ & events & Hh & _ & Hq). unfold runs_served, evaluated.
  rewrite Hh, omap_app, filter_app, (quiet_events_no_run _ _ _ Hphase Hq).
  rewrite app_nil_r. reflexivity.
Qed.

(** Whatever becomes of the evaluation, an open page has served the
    script the result asks it to evaluate. *)
Lemma served_any (w : EmberApp.World TestPage) (script : Script) :
  ready w ->
  served [script] w (snd (EmberApp.on_result (Result.evaluate script) w)).
Proof.
  intros Hready.
  destruct (fst (TestPage_evaluate script (EmberApp.page w))) as [e|v] eqn:Hout.
  - destruct Hready as [Hopen Hlive].
    pose proof (TestPage_evaluate_open script _ Hopen) as Hp1.
    destruct (TestPage_evaluate script (EmberApp.page w)) as [out p1] eqn:Heval.
    cbn [fst snd] in Hout, Hp1. subst out. destruct w as [a d r p].
    cbn [EmberApp.page EmberApp.result] in *.
    unfold EmberApp.on_result, zoom, Result.evaluate, bind, gets, tryWithPageAwareness,
      catch, ret, throw, Result.on_page, zoom, bind.
    cbv beta iota delta [fst snd EmberApp.result EmberApp.page EmberApp.this EmberApp.didDestroy].
    rewrite Hlive. cbn [page_evaluate TestPage_Page]. rewrite Heval.
    cbv beta iota delta [fst snd].
    assert (Hserved : served [script]
              {| EmberApp.this := a; EmberApp.didDestroy := d;
                 EmberApp.result := r; EmberApp.page := p |}
              {| EmberApp.this := a; EmberApp.didDestroy := d;
                 EmberApp.result := r; EmberApp.page := p1 |}).
    { unfold served.
      cbn [EmberApp.this EmberApp.didDestroy EmberApp.result EmberApp.page].
      subst p1. rewrite evaluated_record_evaluate. cbn [record closed behaviour realm foldl].
      repeat split. }
    destruct (message e) as [msg|]; [|exact Hserved].
    destruct (truthy msg && negb (page_closed_message msg)); exact Hserved.
  - destruct (served_evaluate w script v Hready Hout) as (w' & E & Hs).
    rewrite E. exact Hs.
Qed.

Section VisitsServe.
Context `{Runtime}.

(** What [_visitRoute] does with what the in-context visit has
    returned or thrown. *)
Lemma steps_route_rest phase (ran : list Slot * option JSError) (disableShoebox : bool) :
  steps (world_step phase)
    ((let '(returnedInfo, error) := ran in
      match FastBootInfo.from_tuple returnedInfo with
      | inl e => throw e
      | inr fastbootInfo =>
          EmberApp.on_result (Result.on_result (modify (Result.set_fastbootInfo fastbootInfo))) ;;
          (if disableShoebox then ret tt else EmberApp.createShoebox fastbootInfo) ;;
          EmberApp.on_result Result._finalize ;;
          match error with
          | Some e => throw e
          | None => ret tt
          end
      end) : M (EmberApp.World TestPage) unit).
Proof.
  destruct ran as [returnedInfo error].
  destruct (FastBootInfo.from_tuple returnedInfo) as [e|fastbootInfo];
    [apply steps_throw; apply _|].
  apply steps_bind; [apply _| |].
  - apply steps_world_on_result. apply steps_on_result_modify. reflexivity.
  - intros _. apply steps_bind; [apply _| |].
    + destruct disableShoebox; [apply steps_ret; apply _ | apply steps_createShoebox].
    + intros _. apply steps_bind; [apply _| |].
      * apply steps_world_on_result. apply steps_finalize.
      * intros _. destruct error; [apply steps_throw | apply steps_ret]; apply _.
Qed.

(** The route of a booted instance on an open page: the page serves the
    in-context visit, and what the route does then is quiet. *)
Lemma visitRoute_serves (w : EmberApp.World TestPage) (path : jsstring)
    (info : FastBootInfo.t) (bootOptions : BootOptions) (disableShoebox : bool) :
  ready w ->
  EmberApp.hasInitialized (EmberApp.this w) = true ->
  exists w1,
    served [RunAppInstance path bootOptions (FastBootInfo.serialize info)] w w1 /\
    world_step Idle w1
      (snd (EmberApp._visitRoute path info bootOptions disableShoebox None w)).
Proof.
  intros Hready Hinit.
  pose proof (served_any w (RunAppInstance path bootOptions (FastBootInfo.serialize info))
                Hready) as Hserved.
  unfold EmberApp._visitRoute. rewrite bind_gets, Hinit, bind_ret.
  unfold bind at 1, catch at 1, bind at 1. unfold EmberApp.runAppInstance.
  destruct (EmberApp.on_result (Result.evaluate _) w) as [[e|returned] w1].
  - exists w1. split; [exact Hserved|]. unfold ret at 1.
    apply (steps_route_rest Idle (default_returnedInfo, Some e) disableShoebox w1).
  - exists w1. split; [exact Hserved|]. unfold ret at 1.
    apply (steps_route_rest Idle (default default_returnedInfo returned, None)
             disableShoebox w1).
Qed.


(** The scripts of the boot are scripts of the boot, and no in-context
    visits. *)
Lemma boot_sequence_boot_scripts (app : EmberApp.t) (texts : list jsstring)
    (bundleText : jsstring) :
  filter is_boot_script (boot_sequence app texts bundleText)
    = boot_sequence app texts bundleText /\
  filter is_run (boot_sequence app texts bundleText) = [].
Proof.
  unfold boot_sequence. cbn [List.app]. rewrite !filter_cons_True by reflexivity.
  rewrite !filter_cons_False by (intros []).
  induction (texts ++ [bundleText]) as [|text rest [IH1 IH2]]; [split; reflexivity|].
  cbn [map]. rewrite filter_cons_True by reflexivity.
  rewrite filter_cons_False by (intros []). split; [|exact IH2].
  injection IH1 as IH1. rewrite IH1. reflexivity.
Qed.

(** What the page has served once the scripts are evaluated and quiet
    steps have followed. *)
Lemma served_then_quiet (scripts : list Script) (w w1 w2 : EmberApp.World TestPage) :
  served scripts w w1 -> world_step Idle w1 w2 ->
  closed (EmberApp.page w2) = closed (EmberApp.page w) /\
  EmberApp.hasInitialized (EmberApp.this w2) = EmberApp.hasInitialized (EmberApp.this w) /\
  runs_served (EmberApp.page w2)
    = runs_served (EmberApp.page w) + length (filter is_run scripts) /\
  boot_scripts (EmberApp.page w2)
    = boot_scripts (EmberApp.page w) ++ filter is_boot_script scripts.
Proof.
  intros (A1 & _ & _ & _ & _ & _ & A7 & _ & A9 & _) (_ & Hi & _ & Hp).
  cbn [fst snd] in Hp.
  split; [destruct Hp as [-> _]; exact A7|].
  split; [rewrite Hi, A1; reflexivity|].
  split.
  - rewrite (page_step_runs Idle _ _ ltac:(discriminate) Hp). unfold runs_served.
    rewrite A9, filter_app, length_app. reflexivity.
  - rewrite (page_step_boot_scripts Idle _ _ ltac:(discriminate) Hp). unfold boot_scripts.
    rewrite A9, filter_app. reflexivity.
Qed.

(** A visit on an open page, without a deadline timer that fires: the
    document is loaded, the storage of the page is cleared, the route
    is run, and what follows it is quiet. *)
Lemma visit_route (path : jsstring) (options : VisitOptions) (app : EmberApp.t)
    (p : TestPage) (info : FastBootInfo.t) :
  closed p = false ->
  visit_info options app = inr info ->
  exists w2 wf,
    served [ClearPageStorage]
      {| EmberApp.this := app; EmberApp.didDestroy := false;
         EmberApp.result := Result.new None; EmberApp.page := p |} w2 /\
    world_step Idle
      (snd (EmberApp._visitRoute path info
              (buildBootOptions (default true (o_shouldRender options)))
              (o_disableShoebox options) None w2)) wf /\
    snd (EmberApp.visit path options false (app, p)) = (EmberApp.this wf, EmberApp.page wf).
Proof.
  intros Hopen Hinfo.
  set (w0 := {| EmberApp.this := app; EmberApp.didDestroy := false;
                EmberApp.result := Result.new None; EmberApp.page := p |}).
  assert (Hr0 : ready w0) by (split; [exact Hopen | reflexivity]).
  destruct (served_setContent (visit_html options app) w0 Hr0) as (w1 & E1 & Hs1).
  pose proof (served_ready _ _ _ Hs1 Hr0) as Hr1.
  destruct (served_clearPageStorage w1 Hr1) as (w2 & E2 & Hs2).
  pose proof (visit_body path options false (app, p) info) as Hvisit.
  cbn [fst snd] in Hvisit. fold w0 in Hvisit.
  replace (match o_destroyAppInstanceInMs options with
           | Some ms => if (0 <? ms)%Z && false then Some ms else None
           | None => None
           end) with (@None Z) in Hvisit
    by (destruct (o_destroyAppInstanceInMs options); [rewrite andb_false_r|]; reflexivity).
  match type of Hvisit with
  | forall r w, _ -> ?body w0 = _ -> _ => destruct (body w0) as [r wf] eqn:Hbody
  end.
  exists w2, wf. split; [exact (served_trans [] [ClearPageStorage] w0 w1 w2 Hs1 Hs2)|].
  split; [|rewrite (Hvisit r wf Hinfo eq_refl); reflexivity].
  rewrite (bind_inr _ _ w0 w1 tt E1) in Hbody.
  unfold bind at 1, catch at 1 in Hbody.
  rewrite (bind_inr _ _ w1 w2 None E2) in Hbody.
  destruct (EmberApp._visitRoute _ _ _ _ _ w2) as [[e|[]] w3]; cbn [snd].
  - match type of Hbody with
    | context [bind (gets EmberApp.didDestroy) ?k w3] =>
        assert (Hhandler : steps (world_step Idle) (bind (gets EmberApp.didDestroy) k))
    end.
    { apply steps_bind; [apply _ | apply steps_gets; apply _ |].
      intros [|]; [|apply steps_set_result_error].
      destruct (message e) as [msg|]; [|apply steps_throw; apply _].
      destruct (includes _ msg || includes _ msg);
        [apply steps_ret; apply _ | apply steps_set_result_error]. }
    specialize (Hhandler w3).
    destruct (bind (gets EmberApp.didDestroy) _ w3) as [[e'|[]] w4];
      cbn [snd] in Hhandler; injection Hbody as _ <-; exact Hhandler.
  - injection Hbody as _ <-. reflexivity.
Qed.

(** A visit of a booted instance on an open page serves one in-context
    visit and no script of the boot. *)
Lemma visit_serves (path : jsstring) (options : VisitOptions) (app : EmberApp.t)
    (p : TestPage) (info : FastBootInfo.t) :
  closed p = false ->
  visit_info options app = inr info ->
  EmberApp.hasInitialized app = true ->
  closed (snd (snd (EmberApp.visit path options false (app, p)))) = false /\
  EmberApp.hasInitialized (fst (snd (EmberApp.visit path options false (app, p)))) = true /\
  runs_served (snd (snd (EmberApp.visit path options false (app, p)))) = S (runs_served p) /\
  boot_scripts (snd (snd (EmberApp.visit path options false (app, p)))) = boot_scripts p.
Proof.
  intros Hopen Hinfo Hinit.
  destruct (visit_route path options app p info Hopen Hinfo) as (w2 & wf & Hs2 & Hf & ->).
  cbn [fst snd].
  assert (Hr2 : ready w2).
  { apply (served_ready _ _ _ Hs2). split; [exact Hopen | reflexivity]. }
  destruct (visitRoute_serves w2 path info
              (buildBootOptions (default true (o_shouldRender options)))
              (o_disableShoebox options) Hr2) as (w3 & Hs3 & Hq).
  { destruct Hs2 as [-> _]. exact Hinit. }
  pose proof (served_then_quiet _ _ _ wf (served_trans _ _ _ _ _ Hs2 Hs3)
                (transitivity Hq Hf)) as (Hc & Hi & Hruns & Hbs).
  cbn [EmberApp.page EmberApp.this] in Hc, Hi, Hruns, Hbs.
  rewrite Hc, Hi, Hruns, Hbs. cbn [List.app].
  rewrite !filter_cons_False by (intros []). rewrite filter_cons_True by exact I.
  rewrite !filter_nil, app_nil_r. cbn [length].
  repeat split; [exact Hopen | exact Hinit | lia].
Qed.

(** The first visit of an instance whose files and bundle can be read,
    on an open page: the page serves the scripts of the boot and the
    in-context visit. *)
Lemma visit_boots (path : jsstring) (options : VisitOptions) (app : EmberApp.t)
    (p : TestPage) (info : FastBootInfo.t) (texts : list jsstring)
    (bundleText : jsstring) :
  closed p = false ->
  visit_info options app = inr info ->
  EmberApp.hasInitialized app = false ->
  readable (EmberApp.vendorFilePaths app ++ EmberApp.appFilePaths app) texts ->
  bundle_text app = inr bundleText ->
  closed (snd (snd (EmberApp.visit path options false (app, p)))) = false /\
  EmberApp.hasInitialized (fst (snd (EmberApp.visit path options false (app, p)))) = true /\
  runs_served (snd (snd (EmberApp.visit path options false (app, p)))) = S (runs_served p) /\
  boot_scripts (snd (snd (EmberApp.visit path options false (app, p))))
    = boot_scripts p ++ boot_sequence app texts bundleText.
Proof.
  intros Hopen Hinfo Hinit Hfiles Hbundle.
  destruct (visit_route path options app p info Hopen Hinfo) as (w2 & wf & Hs2 & Hf & ->).
  cbn [fst snd].
  assert (Hr2 : ready w2).
  { apply (served_ready _ _ _ Hs2). split; [exact Hopen | reflexivity]. }
  assert (Hthis2 : EmberApp.this w2 = app) by apply Hs2.
  destruct (visitRoute_boot w2 path info
              (buildBootOptions (default true (o_shouldRender options)))
              (o_disableShoebox options) None texts bundleText Hr2)
    as (w2' & Eroute & Hinit' & Hboot);
    [rewrite Hthis2; exact Hinit | rewrite Hthis2; exact Hfiles
    | rewrite Hthis2; exact Hbundle |].
  rewrite Hthis2 in Hboot. rewrite Eroute in Hf.
  assert (Hr2' : ready w2') by (apply (served_ready _ _ _ Hboot); exact Hr2).
  destruct (visitRoute_serves w2' path info
              (buildBootOptions (default true (o_shouldRender options)))
              (o_disableShoebox options) Hr2' Hinit') as (w3 & Hs3 & Hq).
  apply (served_with_this (fun a => EmberApp.set__bundle bundleText
                                      (EmberApp.set_hasInitialized true a))) in Hs2.
  pose proof (served_then_quiet _ _ _ wf
                (served_trans _ _ _ _ _ Hs2 (served_trans _ _ _ _ _ Hboot Hs3))
                (transitivity Hq Hf)) as (Hc & Hi & Hruns & Hbs).
  cbn [EmberApp.page EmberApp.this with_this] in Hc, Hi, Hruns, Hbs.
  rewrite Hc, Hi, Hruns, Hbs.
  destruct (boot_sequence_boot_scripts app texts bundleText) as [Eboot Erun].
  rewrite !filter_app, Eboot, Erun.
  rewrite !filter_cons_False by (intros []). rewrite filter_cons_True by exact I.
  rewrite !filter_nil, app_nil_r. cbn [List.app length].
  repeat split; [exact Hopen | lia].
Qed.

End VisitsServe.

(** A visit keeps the configuration of its instance. *)
Lemma visit_instance_step {P : Type} `{Page P} `{Runtime}
    (path : jsstring) (options : VisitOptions) (fires : bool) (s : EmberApp.t * P) :
  instance_step (fst s) (fst (snd (EmberApp.visit path options fires s))).
Proof.
  unfold EmberApp.visit. destruct (FastBootInfo.new _ _ _ _) as [e|info]; [reflexivity|].
  match goal with
  | |- context [let '(r, w) := ?c ?w0 in _] =>
      assert (Hsteps : keeps_instance w0 (snd (c w0)));
      [|destruct (c w0) as [r w]; exact Hsteps]
  end.
  apply steps_bind; [apply _ | apply keeps_instance_on_result |]. intros _.
  apply steps_bind; [apply _ | | intros _; apply steps_gets; apply _].
  apply steps_catch; [apply _ | |].
  - apply steps_bind; [apply _ | apply keeps_instance_on_result |]. intros _.
    apply keeps_instance_visitRoute.
  - intros error. apply steps_bind; [apply _ | apply steps_gets; apply _ |].
    intros destroyed. destruct destroyed; [|apply keeps_instance_on_result].
    destruct (message error) as [msg|]; [|apply steps_throw; apply _].
    destruct (_ || _); [apply steps_ret; apply _ | apply keeps_instance_on_result].
Qed.

Lemma visit_info_hostWhitelist `{Runtime} (options : VisitOptions) (app app' : EmberApp.t) :
  instance_step app app' -> visit_info options app' = visit_info options app.
Proof. intros (_ & _ & Hwl & _). unfold visit_info. rewrite Hwl. reflexivity. Qed.

(** Every visit of a booted instance on an open page, one after the
    other, serves its in-context visit and no script of the boot. *)
Lemma visit_each_serves `{Runtime} (visits : list (jsstring * VisitOptions)) :
  forall (app : EmberApp.t) (p : TestPage),
    closed p = false ->
    EmberApp.hasInitialized app = true ->
    Forall (fun visit => exists info, visit_info (snd visit) app = inr info) visits ->
    runs_served (snd (visit_each visits (app, p))) = runs_served p + length visits /\
    boot_scripts (snd (visit_each visits (app, p))) = boot_scripts p.
Proof.
  induction visits as [|[path options] visits IH]; intros app p Hopen Hinit Hinfos.
  - cbn. split; [lia | reflexivity].
  - inversion Hinfos as [|visit rest [info Hinfo] Hrest]; subst. cbn [snd] in Hinfo.
    destruct (visit_serves path options app p info Hopen Hinfo Hinit)
      as (Hopen1 & Hinit1 & Hruns1 & Hbs1).
    pose proof (visit_instance_step path options false (app, p)) as Hstep.
    cbn [visit_each].
    destruct (snd (EmberApp.visit path options false (app, p))) as [app1 p1].
    cbn [fst snd] in *.
    destruct (IH app1 p1 Hopen1 Hinit1) as [Hruns Hbs].
    { eapply Forall_impl; [exact Hrest|]. intros visit [info' Hinfo'].
      exists info'. rewrite (visit_info_hostWhitelist _ _ _ Hstep). exact Hinfo'. }
    rewrite Hruns, Hbs, Hruns1, Hbs1. cbn [length]. split; [lia | reflexivity].
Qed.

(** The same from a new instance whose files and bundle can be read:
    the first visit boots it. *)
Lemma visit_each_boots `{Runtime} (visits : list (jsstring * VisitOptions))
    (app : EmberApp.t) (p : TestPage) (texts : list jsstring) (bundleText : jsstring) :
  closed p = false ->
  EmberApp.hasInitialized app = false ->
  readable (EmberApp.vendorFilePaths app ++ EmberApp.appFilePaths app) texts ->
  bundle_text app = inr bundleText ->
  Forall (fun visit => exists info, visit_info (snd visit) app = inr info) visits ->
  visits <> [] ->
  runs_served (snd (visit_each visits (app, p))) = runs_served p + length visits /\
  boot_scripts (snd (visit_each visits (app, p)))
    = boot_scripts p ++ boot_sequence app texts bundleText.
Proof.
  intros Hopen Hinit Hfiles Hbundle Hinfos Hsome.
  destruct visits as [|[path options] visits]; [destruct (Hsome eq_refl)|].
  inversion Hinfos as [|visit rest [info Hinfo] Hrest]; subst. cbn [snd] in Hinfo.
  destruct (visit_boots path options app p info texts bundleText
              Hopen Hinfo Hinit Hfiles Hbundle) as (Hopen1 & Hinit1 & Hruns1 & Hbs1).
  pose proof (visit_instance_step path options false (app, p)) as Hstep.
  cbn [visit_each].
  destruct (snd (EmberApp.visit path options false (app, p))) as [app1 p1].
  cbn [fst snd] in *.
  destruct (visit_each_serves visits app1 p1 Hopen1 Hinit1) as [Hruns Hbs].
  { eapply Forall_impl; [exact Hrest|]. intros visit [info' Hinfo'].
    exists info'. rewrite (visit_info_hostWhitelist _ _ _ Hstep). exact Hinfo'. }
  rewrite Hruns, Hbs, Hruns1, Hbs1. cbn [length]. split; [lia | reflexivity].
Qed.

(** The injections among the scripts of the boot. *)
Lemma boots_boot_scripts (p : TestPage) :
  boots p = length (filter is_boot (boot_scripts p)).
Proof.
  unfold boots, boot_scripts. induction (evaluated p) as [|script rest IH]; [reflexivity|].
  destruct script;
    repeat first [ rewrite filter_cons_True by exact I
                 | rewrite filter_cons_False by (intros []) ];
    cbn [length]; congruence.
Qed.

Lemma boot_sequence_boots (app : EmberApp.t) (texts : list jsstring) (bundleText : jsstring) :
  length (filter is_boot (boot_sequence app texts bundleText)) = 1.
Proof.
  unfold boot_sequence. cbn [List.app]. rewrite filter_cons_True by exact I.
  rewrite filter_cons_False by (intros []). cbn [length]. f_equal.
  induction (texts ++ [bundleText]) as [|text rest IH]; [reflexivity|].
  cbn [map]. rewrite filter_cons_False by (intros []). exact IH.
Qed.

(** C8. Boot-time injection runs once in the life of an instance, and
    the visits reuse what it has left in the page. Over any sequence of
    visits of a new instance on a new page, none with a deadline timer
    that fires, the page serves at most one injection of the sandbox
    globals; once the instance has booted, the visits that follow
    evaluate no script of the boot (sandbox globals, environment shim,
    vendor, app and bundle sources); and every in-context visit finds
    the sandbox globals in the window. Where the files and the bundle of
    the instance can be read and the render info of every visit can be
    built, the scripts of the boot the page has served after all the
    visits are those of the one boot, in its order, with one injection
    of the sandbox globals, and the page has served one in-context
    visit for every visit. *)
Theorem boot_once `{Runtime} (app : EmberApp.t) (b : Behaviour)
    (visits later : list (jsstring * VisitOptions)) :
  EmberApp.hasInitialized app = false ->
  boots (snd (visit_each (visits ++ later) (app, fresh_page b))) <= 1 /\
  observes (EmberApp.sandboxGlobals app)
    (history (snd (visit_each (visits ++ later) (app, fresh_page b)))) /\
  (EmberApp.hasInitialized (fst (visit_each visits (app, fresh_page b))) = true ->
   boot_scripts (snd (visit_each (visits ++ later) (app, fresh_page b)))
     = boot_scripts (snd (visit_each visits (app, fresh_page b)))) /\
  (forall (texts : list jsstring) (bundleText : jsstring),
     readable (EmberApp.vendorFilePaths app ++ EmberApp.appFilePaths app) texts ->
     bundle_text app = inr bundleText ->
     Forall (fun visit => exists info, visit_info (snd visit) app = inr info)
       (visits ++ later) ->
     visits ++ later <> [] ->
     boot_scripts (snd (visit_each (visits ++ later) (app, fresh_page b)))
       = boot_sequence app texts bundleText /\
     boots (snd (visit_each (visits ++ later) (app, fresh_page b))) = 1 /\
     runs_served (snd (visit_each (visits ++ later) (app, fresh_page b)))
       = length (visits ++ later)).
Proof.
  intros Hnew.
  assert (Hinv0 : boot_inv (EmberApp.sandboxGlobals app) 0 (app, fresh_page b)).
  { unfold boot_inv. cbn [fst snd]. rewrite Hnew.
    repeat split; [lia | constructor]. }
  destruct (visit_each_inv visits _ 0 _ Hinv0) as (n1 & Hinv1 & _).
  destruct (visit_each_inv later _ n1 _ Hinv1) as (n2 & Hinv2 & Hsame).
  split; [|split; [|split]].
  - rewrite visit_each_app. destruct Hinv2 as (_ & Hle & Hboots & _). lia.
  - rewrite visit_each_app. apply Hinv2.
  - intros Hinit. rewrite visit_each_app. apply (Hsame Hinit).
  - intros texts bundleText Hfiles Hbundle Hinfos Hsome.
    destruct (visit_each_boots (visits ++ later) app (fresh_page b) texts bundleText
                eq_refl Hnew Hfiles Hbundle Hinfos Hsome) as [Hruns Hbs].
    split; [exact Hbs|]. split; [|exact Hruns].
    rewrite boots_boot_scripts, Hbs. apply boot_sequence_boots.
Qed.

(* ================================================================== *)
(** * Finalizing a result *)
(* ================================================================== *)

(** X18. A result is finalized once: after [_finalize] has returned, a
    second call throws and changes nothing, on any page. *)
Theorem finalize_once {P : Type} `{Page P} (s s' : Result.t * P) :
  Result._finalize s = (inr tt, s') ->
  Result.finalized (fst s') = true /\
  Result._finalize s'
    = (inl (Error (lit "Results cannot be finalized more than once")), s').
Proof.
  unfold Result._finalize at 1. unfold bind at 1, gets at 1.
  destruct (Result.finalized (fst s)); [discriminate|].
  unfold bind at 1.
  destruct (Result.evaluate RemoveEmberApplicationClass s) as [[e|v] s1]; [discriminate|].
  unfold Result.on_result, zoom, modify. intros [= <-]. cbn [fst snd].
  split; [reflexivity|].
  unfold Result._finalize, bind, gets. reflexivity.
Qed.

(* ================================================================== *)
(** * The visits of a coordinator, one after the other *)
(* ================================================================== *)

Section Coordinator.
Context {P : Type} `{Page P} `{Runtime}.
Variable newPage : JSError + P.

(** A visit that ends with a result leaves the instance at rest, or
    none where it was to be destroyed. *)
Lemma visit_settled (path : jsstring) (options : VisitOptions) (fires : bool)
    (pb pb' : PowerBoot.t P) (result : Result.t) :
  PowerBoot._instance pb = None ->
  PowerBoot.visit newPage path options fires pb = (Fulfilled result, pb') ->
  PowerBoot.isWorking pb' = false /\
  PowerBoot._shouldDestroyInstance pb' = false /\
  PowerBoot._isWorking pb' = PowerBoot._isWorking pb /\
  (PowerBoot._shouldDestroyInstance pb = true -> PowerBoot._instance pb' = None) /\
  (PowerBoot._shouldDestroyInstance pb = false -> PowerBoot._instance pb' <> None).
Proof.
  intros Hnone. unfold PowerBoot.visit, PowerBoot.acquire. rewrite Hnone.
  destruct newPage as [e|page]; [discriminate|].
  destruct (EmberApp_new _ _) as [e|app]; [discriminate|].
  destruct (EmberApp.visit path options fires (app, page)) as [[e|r] instance];
    [discriminate|].
  unfold PowerBoot._releaseInstance.
  cbn [PowerBoot.set_instance PowerBoot._shouldDestroyInstance].
  intros Hvisit.
  match type of Hvisit with
  | context [(Fulfilled r, ?x)] => assert (Hpb' : pb' = x)
  end.
  { destruct (Result.error r); [destruct (negb _)|]; congruence. }
  rewrite Hpb'. destruct (PowerBoot._shouldDestroyInstance pb) eqn:Hflag; cbn.
  - repeat split; congruence.
  - rewrite Hflag. repeat split; congruence.
Qed.

(** X19. After a visit of a new coordinator has been fulfilled, the
    coordinator holds its instance at rest. The generator then yields the
    value [true] in its place: the next visit is rejected with a
    [TypeError] and leaves the coordinator marked as working, and every
    visit after that one polls for ever. *)
Theorem visits_after_the_first (path : jsstring) (options : VisitOptions) (fires : bool)
    (pb pb1 : PowerBoot.t P) (result : Result.t) :
  PowerBoot._instance pb = None ->
  PowerBoot._shouldDestroyInstance pb = false ->
  PowerBoot.visit newPage path options fires pb = (Fulfilled result, pb1) ->
  forall path2 options2 fires2,
    PowerBoot.visit newPage path2 options2 fires2 pb1
      = (Rejected (TypeError (lit "instance.visit is not a function")),
         PowerBoot.set_isWorking true pb1) /\
    forall path3 options3 fires3,
      PowerBoot.visit newPage path3 options3 fires3 (PowerBoot.set_isWorking true pb1)
        = (Pending, PowerBoot.set_isWorking true pb1).
Proof.
  intros Hnone Hflag Hvisit path2 options2 fires2.
  destruct (visit_settled _ _ _ _ _ _ Hnone Hvisit) as (Hrest & _ & _ & _ & Hkept).
  specialize (Hkept Hflag).
  destruct (PowerBoot._instance pb1) as [instance|] eqn:Hinstance; [|contradiction].
  split.
  - unfold PowerBoot.visit, PowerBoot.acquire. rewrite Hinstance, Hrest. reflexivity.
  - intros path3 options3 fires3. unfold PowerBoot.visit, PowerBoot.acquire.
    cbn [PowerBoot.set_isWorking PowerBoot._instance PowerBoot.isWorking].
    rewrite Hinstance. reflexivity.
Qed.

(** X20. [reload] releases the instance of the coordinator at once, whether
    it is at rest or marked as working: it looks at [_isWorking], which
    nothing sets. The visit that follows creates an instance from the
    reloaded configuration. *)
Theorem reload_releases (_setOptions : M (PowerBoot.t P) unit)
    (pb pb1 : PowerBoot.t P) (instance : EmberApp.t * P) (page : P) (app : EmberApp.t) :
  sets_options_only _setOptions ->
  PowerBoot._isWorking pb = false ->
  PowerBoot._instance pb = Some instance ->
  _setOptions pb = (inr tt, pb1) ->
  newPage = inr page ->
  EmberApp_new (PowerBoot._appConfig pb1) (PowerBoot.config_sandboxGlobals pb1) = inr app ->
  exists pb',
    reload _setOptions pb = (inr tt, pb') /\
    PowerBoot._instance pb' = None /\
    PowerBoot.isWorking pb' = false /\
    PowerBoot._shouldDestroyInstance pb' = false /\
    PowerBoot.acquire newPage pb'
      = (PowerBoot.NewInstance (app, page), PowerBoot.set_instance (Some (app, page)) pb').
Proof.
  intros Hframe Hidle Hinstance Hset Hpage Hnew.
  destruct (Hframe pb) as (F1 & F2 & F3 & F4). rewrite Hset in F1, F2, F3, F4.
  cbn [snd] in *.
  eexists. split.
  - unfold reload. unfold bind at 1. rewrite Hset. unfold bind at 1, modify at 1.
    unfold bind at 1, gets at 1.
    cbn [PowerBoot.set_shouldDestroyInstance PowerBoot._instance].
    rewrite F1, Hinstance. unfold bind at 1, gets at 1.
    cbn [PowerBoot.set_shouldDestroyInstance PowerBoot._isWorking].
    rewrite F3, Hidle. reflexivity.
  - unfold PowerBoot._releaseInstance. cbn.
    split; [reflexivity|]. split; [reflexivity|]. split; [reflexivity|].
    unfold PowerBoot.acquire. cbn. rewrite Hpage, Hnew. reflexivity.
Qed.

(** X21. [reload] of a coordinator without an instance leaves the mark to
    destroy one: the instance the next visit creates is destroyed when
    that visit releases it. *)
Theorem reload_before_first_visit (_setOptions : M (PowerBoot.t P) unit)
    (pb pb1 pb2 : PowerBoot.t P) (path : jsstring) (options : VisitOptions)
    (fires : bool) (result : Result.t) :
  sets_options_only _setOptions ->
  PowerBoot._instance pb = None ->
  reload _setOptions pb = (inr tt, pb1) ->
  PowerBoot.visit newPage path options fires pb1 = (Fulfilled result, pb2) ->
  PowerBoot._shouldDestroyInstance pb1 = true /\
  PowerBoot._instance pb2 = None /\
  PowerBoot._shouldDestroyInstance pb2 = false.
Proof.
  intros Hframe Hnone Hreload Hvisit.
  destruct (Hframe pb) as (F1 & F2 & F3 & F4).
  unfold reload in Hreload. unfold bind at 1 in Hreload.
  destruct (_setOptions pb) as [[e|[]] pb0]; [discriminate|]. cbn [snd] in *.
  unfold bind at 1, modify at 1 in Hreload. unfold bind at 1, gets at 1 in Hreload.
  cbn [PowerBoot.set_shouldDestroyInstance PowerBoot._instance] in Hreload.
  rewrite F1, Hnone in Hreload. injection Hreload as <-.
  assert (Hnone1 : PowerBoot._instance
                     (PowerBoot.set_shouldDestroyInstance true pb0) = None).
  { cbn. congruence. }
  destruct (visit_settled _ _ _ _ _ _ Hnone1 Hvisit) as (_ & Hflag2 & _ & Hgone & _).
  split; [reflexivity|]. split; [apply Hgone; reflexivity | exact Hflag2].
Qed.

End Coordinator.

(* ================================================================== *)
(** * Setting the options *)
(* ================================================================== *)

Lemma isNil_spec (v : Value) : isNil v = true <-> v = VUndefined \/ v = VNull.
Proof.
  destruct v; cbn; split; try discriminate; try (intros [|]; discriminate); auto.
Qed.

Lemma setOption_kept (options : gmap jsstring Value) (k : jsstring) (d : Value)
    (s : Settings.t) (key : jsstring) (c : Value) :
  Settings.config s !! key = Some c ->
  truthy_value c = true ->
  (forall v, options !! key = Some v -> truthy_value v = false) ->
  exists s',
    Settings.setOption options k d s = (inr tt, s') /\
    Settings.config s' !! key = Some c /\
    Settings._appConfig s' = Settings._appConfig s.
Proof.
  intros Hc Htruthy Hfalsy. unfold Settings.setOption, Settings._setOption. cbv zeta.
  destruct (decide (k = key)) as [->|Hne].
  - rewrite Hc. cbn [default]. change (id c) with c. rewrite Htruthy.
    destruct (options !! key) as [v|] eqn:Hv.
    + rewrite (Hfalsy v eq_refl). eexists. split; [reflexivity|].
      split; [apply lookup_insert_eq | reflexivity].
    + eexists. split; [reflexivity|]. split; [apply lookup_insert_eq | reflexivity].
  - destruct (options !! k) as [v|]; [destruct (truthy_value v)|];
      (eexists; split; [reflexivity|]; split; [|reflexivity]);
      cbn [Settings.set_config Settings.config];
      rewrite lookup_insert_ne by exact Hne; exact Hc.
Qed.

Section Manifest.
Variable readPackageJSON : Value -> JSError + AppConfig.

(** X22. Options cannot switch a setting off: where the configuration has a
    truthy value for a key and the options have no truthy value of their
    own for it, [_setOptions] without a [distPath] returns and leaves the
    value as it is. So [reload({ resilient: false })] leaves a resilient
    coordinator resilient. *)
Theorem setOptions_cannot_unset (options : gmap jsstring Value) (s : Settings.t)
    (key : jsstring) (c : Value) :
  options !! lit "distPath" = None ->
  Settings.config s !! key = Some c ->
  truthy_value c = true ->
  (forall v, options !! key = Some v -> truthy_value v = false) ->
  exists s',
    Settings._setOptions readPackageJSON (Some options) s = (inr tt, s') /\
    Settings.config s' !! key = Some c /\
    Settings._appConfig s' = Settings._appConfig s.
Proof.
  intros Hdist Hc Htruthy Hfalsy. unfold Settings._setOptions. rewrite Hdist.
  destruct (setOption_kept options (lit "browser") VNull s key c Hc Htruthy Hfalsy)
    as (s1 & E1 & Hc1 & Ha1).
  destruct (setOption_kept options (lit "sandboxGlobals") (VObject []) s1 key c
              Hc1 Htruthy Hfalsy) as (s2 & E2 & Hc2 & Ha2).
  destruct (setOption_kept options (lit "resilient") (VBool false) s2 key c
              Hc2 Htruthy Hfalsy) as (s3 & E3 & Hc3 & Ha3).
  destruct (setOption_kept options (lit "disableShoebox") (VBool false) s3 key c
              Hc3 Htruthy Hfalsy) as (s4 & E4 & Hc4 & Ha4).
  destruct (setOption_kept options (lit "puppeteer") (VObject []) s4 key c
              Hc4 Htruthy Hfalsy) as (s5 & E5 & Hc5 & Ha5).
  exists s5. split; [|split; [exact Hc5 | congruence]].
  unfold bind at 1, ret at 1. unfold bind at 1. rewrite E1.
  unfold bind at 1. rewrite E2. unfold bind at 1. rewrite E3.
  unfold bind at 1. rewrite E4. exact E5.
Qed.

Lemma setOption_returns (options : gmap jsstring Value) (k : jsstring) (d : Value)
    (s : Settings.t) (key : jsstring) :
  k <> key ->
  exists s',
    Settings.setOption options k d s = (inr tt, s') /\
    Settings.config s' !! key = Settings.config s !! key /\
    Settings._appConfig s' = Settings._appConfig s.
Proof.
  intros Hne. unfold Settings.setOption, Settings._setOption. cbv zeta.
  destruct (options !! k) as [v|]; [destruct (truthy_value v)|];
    (eexists; split; [reflexivity|]; split; [|reflexivity]);
    cbn [Settings.set_config Settings.config]; apply lookup_insert_ne; exact Hne.
Qed.

(** X23. The constructor requires a [distPath]: without one, or with a falsy
    one, it throws, whatever the other options. With a truthy one it
    throws what [readPackageJSON] throws, and otherwise keeps the path
    and the manifest read from it. *)
Theorem new_requires_distPath (options : option (gmap jsstring Value)) :
  let distPath := default VUndefined (default ∅ options !! lit "distPath") in
  if truthy_value distPath
  then match readPackageJSON distPath with
       | inl e => Settings.new readPackageJSON options = inl e
       | inr appConfig =>
           exists s,
             Settings.new readPackageJSON options = inr s /\
             Settings._appConfig s = Some appConfig /\
             Settings.config s !! lit "distPath" = Some distPath
       end
  else Settings.new readPackageJSON options = inl (Error Settings.distPath_message).
Proof.
  cbv zeta. unfold Settings.new.
  set (given := default ∅ options).
  set (distPath := default VUndefined (given !! lit "distPath")).
  unfold Settings._setOptions. rewrite lookup_insert_eq.
  destruct (truthy_value distPath) eqn:Htruthy.
  - assert (isNil distPath = false) as ->.
    { apply not_true_is_false. intros Hnil. apply isNil_spec in Hnil.
      destruct Hnil as [Hnil|Hnil]; rewrite Hnil in Htruthy; discriminate. }
    set (options' := <[lit "distPath" := distPath]> given).
    destruct (readPackageJSON distPath) as [e|appConfig]; [reflexivity|].
    cbv beta iota.
    set (s0 := Settings.set_appConfig appConfig
                 (Settings.set_config (<[lit "distPath" := distPath]> ∅)
                    {| Settings.config := ∅; Settings._appConfig := None |})).
    assert (Hpre : (modify (fun s => Settings.set_config
                                       (<[lit "distPath" := distPath]> (Settings.config s)) s) ;;
                    modify (Settings.set_appConfig appConfig))
                     {| Settings.config := ∅; Settings._appConfig := None |}
                   = (inr tt, s0)) by reflexivity.
    assert (Hd0 : Settings.config s0 !! lit "distPath" = Some distPath)
      by apply lookup_insert_eq.
    assert (Ha0 : Settings._appConfig s0 = Some appConfig) by reflexivity.
    destruct (setOption_returns options' (lit "browser") VNull s0 (lit "distPath"))
      as (s1 & E1 & Hc1 & Ha1); [discriminate|].
    destruct (setOption_returns options' (lit "sandboxGlobals") (VObject []) s1
                (lit "distPath")) as (s2 & E2 & Hc2 & Ha2); [discriminate|].
    destruct (setOption_returns options' (lit "resilient") (VBool false) s2
                (lit "distPath")) as (s3 & E3 & Hc3 & Ha3); [discriminate|].
    destruct (setOption_returns options' (lit "disableShoebox") (VBool false) s3
                (lit "distPath")) as (s4 & E4 & Hc4 & Ha4); [discriminate|].
    destruct (setOption_returns options' (lit "puppeteer") (VObject []) s4
                (lit "distPath")) as (s5 & E5 & Hc5 & Ha5); [discriminate|].
    exists s5. split; [|split; [congruence | congruence]].
    rewrite (bind_inr _ _ _ _ tt Hpre).
    rewrite (bind_inr _ _ _ _ tt E1), (bind_inr _ _ _ _ tt E2),
      (bind_inr _ _ _ _ tt E3), (bind_inr _ _ _ _ tt E4), E5. reflexivity.
  - reflexivity.
Qed.

End Manifest.

(* ================================================================== *)
(** * The callback of the deadline timer *)
(* ================================================================== *)

(** X24. When the reload fails with an error that has a message, the
    callback of the timer returns: it has marked the visit as destroyed
    and cleared [_hasInitialized], and it has left [hasInitialized]
    alone. The result carries the error of the reload, unless the message
    tells that the browser has disconnected: then the result keeps what
    it had. *)
Theorem destroyAppInstance_reload_fails {P : Type} `{Page P}
    (ms : Z) (w : EmberApp.World P) (e : JSError) (p' : P) (msg : jsstring) :
  page_reload (EmberApp.page w) = (inl e, p') ->
  message e = Some msg ->
  exists w',
    EmberApp.destroyAppInstance ms w = (inr false, w') /\
    EmberApp.didDestroy w' = true /\
    EmberApp._hasInitialized (EmberApp.this w') = false /\
    EmberApp.hasInitialized (EmberApp.this w') = EmberApp.hasInitialized (EmberApp.this w) /\
    EmberApp.page w' = p' /\
    Result.error (EmberApp.result w')
      = if includes (lit "Navigation failed because browser has disconnected") msg
        then Result.error (EmberApp.result w)
        else Some e.
Proof.
  intros Hreload Hmsg. destruct w as [a d r p]. cbn [EmberApp.page] in Hreload.
  unfold EmberApp.destroyAppInstance, EmberApp.set_didDestroy, EmberApp.set_result_error,
    EmberApp.on_result, EmberApp.on_this, Result.on_page, Result.on_result,
    bind, catch, zoom, modify, ret, throw.
  cbv beta iota delta [fst snd EmberApp.result EmberApp.page EmberApp.this EmberApp.didDestroy].
  rewrite Hreload. cbv beta iota delta [fst snd]. rewrite Hmsg.
  destruct (includes (lit "Navigation failed because browser has disconnected") msg);
    cbn [negb]; eexists; (split; [reflexivity|]); cbn; repeat split.
Qed.

(* ================================================================== *)
(** * Further scenarios *)
(* ================================================================== *)

Lemma boot_once_witness :
  EmberApp.hasInitialized test_app = false /\
  boots (snd (@visit_each test_runtime
                ([(lit "/", plain_options)] ++ [(lit "/foo", plain_options)])
                (test_app, fresh_page test_behaviour))) <= 1 /\
  observes (EmberApp.sandboxGlobals test_app)
    (history (snd (@visit_each test_runtime
                     ([(lit "/", plain_options)] ++ [(lit "/foo", plain_options)])
                     (test_app, fresh_page test_behaviour)))) /\
  boot_scripts (snd (@visit_each test_runtime
                       ([(lit "/", plain_options)] ++ [(lit "/foo", plain_options)])
                       (test_app, fresh_page test_behaviour)))
    = boot_scripts (snd (@visit_each test_runtime [(lit "/", plain_options)]
                           (test_app, fresh_page test_behaviour))) /\
  boot_scripts (snd (@visit_each test_runtime
                       ([(lit "/", plain_options)] ++ [(lit "/foo", plain_options)])
                       (test_app, fresh_page test_behaviour)))
    = [ AssignGlobals test_globals;
        InitializeAppEnvironment (lit "test-app") (VObject []);
        Source (lit "// vendor.js"); Source (lit "// app.js");
        Source (lit "class FastBootInfo {}") ] /\
  boots (snd (@visit_each test_runtime
                ([(lit "/", plain_options)] ++ [(lit "/foo", plain_options)])
                (test_app, fresh_page test_behaviour))) = 1 /\
  runs_served (snd (@visit_each test_runtime
                      ([(lit "/", plain_options)] ++ [(lit "/foo", plain_options)])
                      (test_app, fresh_page test_behaviour))) = 2 /\
  @visit_each test_runtime ([(lit "/", plain_options)] ++ [(lit "/foo", plain_options)])
    (test_app, fresh_page test_behaviour) = snd second_visit /\
  harvested (fst first_visit)
    = Some (lit "<html><head></head><body>foo from sandbox: 5</body></html>") /\
  harvested (fst second_visit)
    = Some (lit "<html><head></head><body>foo from sandbox: 5</body></html>").
Proof.
  split; [reflexivity|].
  destruct (@boot_once test_runtime test_app test_behaviour
              [(lit "/", plain_options)] [(lit "/foo", plain_options)] eq_refl)
    as (Hboots & Hobs & Hsame & Hserves).
  split; [exact Hboots|]. split; [exact Hobs|].
  split; [apply Hsame; vm_compute; reflexivity|].
  destruct (Hserves [lit "// vendor.js"; lit "// app.js"] (lit "class FastBootInfo {}"))
    as (Hbs & Hone & Hruns).
  - constructor; [vm_compute; reflexivity|]. constructor; [vm_compute; reflexivity|].
    constructor.
  - vm_compute. reflexivity.
  - constructor; [exists plain_info; vm_compute; reflexivity|].
    constructor; [exists plain_info; vm_compute; reflexivity|]. constructor.
  - discriminate.
  - split; [exact Hbs|]. split; [exact Hone|]. split; [exact Hruns|].
    split; [vm_compute; reflexivity|]. split; vm_compute; reflexivity.
Defined.

Lemma chunks_without_head_witness :
  Result.chunks headless_result = (inr [lit "<p>no head</p>"], headless_result).
Proof.
  apply (chunks_without_head headless_result (lit "<p>no head</p>")).
  - reflexivity.
  - vm_compute. reflexivity.
Defined.

Lemma chunks_bare_head_witness :
  Result.chunks bare_head_result
    = (inl (Error (lit "Could not idenfity head and body of the document! Make sure the document is well formed.")),
       bare_head_result).
Proof.
  apply (chunks_bare_head bare_head_result (lit "<html><head></head>")).
  - reflexivity.
  - exists (lit "<html><head>"). vm_compute. reflexivity.
Defined.

Lemma chunks_shape_witness :
  exists head plainBody shoeboxes,
    fst (Result.chunks shoebox_result)
      = inr (head :: plainBody :: map (app SHOEBOX_TAG_PATTERN) shoeboxes) /\
    includes SHOEBOX_TAG_PATTERN plainBody = false.
Proof.
  destruct (chunks_shape shoebox_result shoebox_result
              (lit "<html><head><title>t</title></head><body><h1>x</h1>"
                 ++ shoebox_script (lit "a") (lit "1")
                 ++ shoebox_script (lit "b") (lit "2")
                 ++ lit "</body></html>")
              (match fst (Result.chunks shoebox_result) with
               | inr cs => cs
               | inl _ => []
               end))
    as (head & plainBody & shoeboxes & Hcs & _ & _ & Hplain).
  - reflexivity.
  - vm_compute. reflexivity.
  - vm_compute. reflexivity.
  - exists head, plainBody, shoeboxes. split; [|exact Hplain].
    rewrite <- Hcs. vm_compute. reflexivity.
Defined.

Lemma finalize_once_witness :
  fst (Result._finalize
         (snd (Result._finalize (Result.new None, fresh_page test_behaviour))))
    = inl (Error (lit "Results cannot be finalized more than once")).
Proof.
  destruct (finalize_once (Result.new None, fresh_page test_behaviour)
              (snd (Result._finalize (Result.new None, fresh_page test_behaviour))))
    as [_ Hsecond].
  - vm_compute. reflexivity.
  - rewrite Hsecond. reflexivity.
Defined.

Lemma visit_rejects_before_route_witness :
  @visit_info test_runtime headerless_options test_app
    = inl (TypeError (lit "Cannot read property 'cookie' of undefined")) \/
  fst (Result.setContent (visit_html headerless_options test_app)
         (Result.new None, fresh_page test_behaviour))
    = inl (TypeError (lit "Cannot read property 'cookie' of undefined")).
Proof.
  apply (@visit_rejects_before_route TestPage _ test_runtime (lit "/") headerless_options
           (test_app, fresh_page test_behaviour) (test_app, fresh_page test_behaviour)).
  vm_compute. reflexivity.
Defined.

Lemma loadAppFiles_order_witness :
  exists w',
    @EmberApp.loadAppFiles TestPage _ test_runtime [lit "app.js"] [lit "vendor.js"] test_world
      = (inr tt, w') /\
    evaluated (EmberApp.page w') = [Source (lit "// vendor.js"); Source (lit "// app.js")].
Proof.
  destruct (@loadAppFiles_order test_runtime [lit "app.js"] [lit "vendor.js"]
              [lit "vendor.js"; lit "app.js"] [] [lit "// vendor.js"; lit "// app.js"]
              test_world) as (w' & Hserved & Hload).
  - split; reflexivity.
  - reflexivity.
  - repeat constructor.
  - exists w'. split; [exact Hload|].
    destruct Hserved as (_ & _ & _ & _ & _ & _ & _ & _ & Hevaluated & _).
    rewrite Hevaluated. reflexivity.
Defined.

Lemma visitRoute_boot_order_witness :
  exists w',
    @EmberApp._visitRoute TestPage _ test_runtime (lit "/") plain_info test_bootOptions
      false None test_world = (inr tt, w') /\
    evaluated (EmberApp.page w')
      = [ AssignGlobals test_globals;
          InitializeAppEnvironment (lit "test-app") (VObject []);
          Source (lit "// vendor.js");
          Source (lit "// app.js");
          Source (lit "class FastBootInfo {}");
          RunAppInstance (lit "/") test_bootOptions (FastBootInfo.serialize plain_info);
          @shoebox_insertion test_runtime (lit "key1", VString (lit "bar"));
          @shoebox_insertion test_runtime (lit "key4", VString (lit "<script>&</script>"));
          RemoveEmberApplicationClass ].
Proof.
  destruct (@visitRoute_boot_order test_runtime test_world (lit "/") plain_info
              test_fastbootInfo test_bootOptions false
              [lit "// vendor.js"; lit "// app.js"] (lit "class FastBootInfo {}")
              test_returned)
    as (w' & Hroute & _ & _ & _ & _ & _ & Hevaluated).
  - split; reflexivity.
  - reflexivity.
  - reflexivity.
  - repeat constructor.
  - reflexivity.
  - vm_compute. reflexivity.
  - vm_compute. reflexivity.
  - exists w'. split; [exact Hroute|]. rewrite Hevaluated. reflexivity.
Defined.

Lemma visit_unreadable_file_witness :
  exists result p',
    @EmberApp.visit TestPage _ broken_runtime (lit "/") plain_options false
      (test_app, fresh_page test_behaviour)
      = (inr result, (EmberApp.set_hasInitialized true test_app, p')) /\
    Result.error result = Some missing_file /\
    evaluated p'
      = [ ClearPageStorage;
          AssignGlobals test_globals;
          InitializeAppEnvironment (lit "test-app") (VObject []);
          Source (lit "// vendor.js") ].
Proof.
  destruct (@visit_unreadable_file broken_runtime (lit "/") plain_options false test_app
              (fresh_page test_behaviour) plain_info [lit "vendor.js"] []
              [lit "// vendor.js"] (lit "app.js") missing_file)
    as (result & p' & Hvisit & Herror & _ & _ & _ & Hevaluated).
  - reflexivity.
  - reflexivity.
  - vm_compute. reflexivity.
  - reflexivity.
  - repeat constructor.
  - vm_compute. reflexivity.
  - exists result, p'. split; [exact Hvisit|]. split; [exact Herror|].
    rewrite Hevaluated. reflexivity.
Defined.

Lemma visit_closed_page_witness :
  @EmberApp.visit TestPage _ test_runtime (lit "/") plain_options false
    (test_app, TestPage_close (fresh_page test_behaviour))
    = (inr (Result.set_error target_closed (Result.new None)),
       (test_app, TestPage_close (fresh_page test_behaviour))).
Proof.
  apply (@visit_closed_page test_runtime (lit "/") plain_options false test_app
           (TestPage_close (fresh_page test_behaviour)) plain_info).
  - reflexivity.
  - vm_compute. reflexivity.
Defined.

Lemma visits_after_the_first_witness :
  @PowerBoot.visit TestPage _ test_runtime test_browser (lit "/") plain_options false
    test_coordinator = (Fulfilled coordinator_result, snd coordinator_visit) /\
  fst (@PowerBoot.visit TestPage _ test_runtime test_browser (lit "/foo") plain_options
         false (snd coordinator_visit))
    = Rejected (TypeError (lit "instance.visit is not a function")) /\
  fst (@PowerBoot.visit TestPage _ test_runtime test_browser (lit "/bar") plain_options
         false (PowerBoot.set_isWorking true (snd coordinator_visit)))
    = Pending.
Proof.
  assert (Hfirst : @PowerBoot.visit TestPage _ test_runtime test_browser (lit "/")
                     plain_options false test_coordinator
                   = (Fulfilled coordinator_result, snd coordinator_visit))
    by (vm_compute; reflexivity).
  split; [exact Hfirst|].
  destruct (@visits_after_the_first TestPage _ test_runtime test_browser (lit "/")
              plain_options false test_coordinator (snd coordinator_visit)
              coordinator_result eq_refl eq_refl Hfirst (lit "/foo") plain_options false)
    as [Hsecond Hthird].
  split; [rewrite Hsecond; reflexivity|].
  rewrite (Hthird (lit "/bar") plain_options false). reflexivity.
Defined.

Lemma reload_releases_witness :
  exists pb',
    reload (ret tt) (PowerBoot.set_isWorking true (snd coordinator_visit)) = (inr tt, pb') /\
    PowerBoot._instance pb' = None /\
    PowerBoot.isWorking pb' = false /\
    fst (@PowerBoot.acquire TestPage test_runtime test_browser pb')
      = PowerBoot.NewInstance (test_app, fresh_page test_behaviour).
Proof.
  destruct (@reload_releases TestPage test_runtime test_browser (ret tt)
              (PowerBoot.set_isWorking true (snd coordinator_visit))
              (PowerBoot.set_isWorking true (snd coordinator_visit))
              (default (test_app, fresh_page test_behaviour)
                 (PowerBoot._instance (snd coordinator_visit)))
              (fresh_page test_behaviour) test_app)
    as (pb' & Hreload & Hnone & Hrest & _ & Hacquire).
  - intros pb. repeat split.
  - vm_compute. reflexivity.
  - vm_compute. reflexivity.
  - reflexivity.
  - reflexivity.
  - vm_compute. reflexivity.
  - exists pb'. split; [exact Hreload|]. split; [exact Hnone|]. split; [exact Hrest|].
    rewrite Hacquire. reflexivity.
Defined.

Lemma reload_before_first_visit_witness :
  @PowerBoot.visit TestPage _ test_runtime test_browser (lit "/") plain_options false
    (PowerBoot.set_shouldDestroyInstance true test_coordinator)
    = (Fulfilled reloaded_result, snd reloaded_visit) /\
  PowerBoot._instance (snd reloaded_visit) = None /\
  PowerBoot._shouldDestroyInstance (snd reloaded_visit) = false.
Proof.
  assert (Hvisit : @PowerBoot.visit TestPage _ test_runtime test_browser (lit "/")
                     plain_options false
                     (PowerBoot.set_shouldDestroyInstance true test_coordinator)
                   = (Fulfilled reloaded_result, snd reloaded_visit))
    by (vm_compute; reflexivity).
  split; [exact Hvisit|].
  destruct (@reload_before_first_visit TestPage _ test_runtime test_browser (ret tt)
              test_coordinator (PowerBoot.set_shouldDestroyInstance true test_coordinator)
              (snd reloaded_visit) (lit "/") plain_options false reloaded_result)
    as (_ & Hnone & Hflag).
  - intros pb. repeat split.
  - reflexivity.
  - reflexivity.
  - exact Hvisit.
  - split; [exact Hnone | exact Hflag].
Defined.

Lemma setOptions_cannot_unset_witness :
  exists s',
    Settings._setOptions test_manifest (Some unresilient_options) resilient_settings
      = (inr tt, s') /\
    Settings.config s' !! lit "resilient" = Some (VBool true).
Proof.
  destruct (setOptions_cannot_unset test_manifest unresilient_options resilient_settings
              (lit "resilient") (VBool true)) as (s' & Hset & Hkept & _).
  - vm_compute. reflexivity.
  - vm_compute. reflexivity.
  - reflexivity.
  - intros v Hv. vm_compute in Hv. injection Hv as <-. reflexivity.
  - exists s'. split; [exact Hset | exact Hkept].
Defined.

Lemma destroyAppInstance_reload_fails_witness :
  exists w',
    @EmberApp.destroyAppInstance TestPage _ 5%Z closed_world = (inr false, w') /\
    EmberApp.didDestroy w' = true /\
    Result.error (EmberApp.result w') = None.
Proof.
  destruct (@destroyAppInstance_reload_fails TestPage _ 5%Z closed_world
              browser_disconnected (TestPage_close (fresh_page test_behaviour))
              (lit "Navigation failed because browser has disconnected!"))
    as (w' & Hcallback & Hdestroyed & _ & _ & _ & Herror).
  - reflexivity.
  - reflexivity.
  - exists w'. split; [exact Hcallback|]. split; [exact Hdestroyed|].
    rewrite Herror. vm_compute. reflexivity.
Defined.

Lemma visit_app_error_witness :
  exists result p',
    @EmberApp.visit TestPage _ test_runtime (lit "/") plain_options false
      (EmberApp.set_hasInitialized true test_app, fresh_page failing_behaviour)
      = (inr result, (EmberApp.set_hasInitialized true test_app, p')) /\
    Result.error result = Some (Error (lit "Evaluation failed: Error: boom")) /\
    Result.statusCode result = Some 200%Z /\
    Result.finalized result = true.
Proof.
  destruct (@visit_app_error test_runtime (lit "/") plain_options
              (EmberApp.set_hasInitialized true test_app) (fresh_page failing_behaviour)
              plain_info (Error (lit "Evaluation failed: Error: boom"))
              (lit "Evaluation failed: Error: boom"))
    as (result & p' & Hvisit & Herror & Hstatus & Hfinalized & _).
  - reflexivity.
  - reflexivity.
  - vm_compute. reflexivity.
  - reflexivity.
  - reflexivity.
  - reflexivity.
  - vm_compute. reflexivity.
  - exists result, p'. split; [exact Hvisit|]. split; [exact Herror|].
    split; [exact Hstatus | exact Hfinalized].
Defined.
